(** * Query orchestration of the NLWeb handler

    A shallow embedding of the request pipeline of [code/core]:
    [state.py] (precheck steps and the barrier event), [baseHandler.py]
    (the stream sink [send_message], [prepare], [runQuery],
    [decontextualizeQuery]), [fastTrack.py], [ranking.py],
    [post_ranking.py], [generate_answer.py] and the analyzers of
    [code/pre_retrieval].

    The pipeline is a set of asyncio tasks of one event loop.  A task runs
    without interruption from one suspension point to the next, so each
    such segment is a function on the state, and a run of the request is a
    list of [action]s: which task is resumed, together with what the
    outside world answered (an LLM response, the retrieved items, the
    outcome of a write to the client). *)

From Stdlib Require Import ZArith Ascii Sorted.
From stdpp Require Import gmap strings pretty list fin_maps functions.

Set Warnings "-register-all".
#[local] Open Scope Z_scope.

(** ** Python values *)

(** JSON-like values: what an LLM answers and what a message carries. *)
Inductive pyval : Type :=
  | PNone
  | PBool (b : bool)
  | PInt (z : Z)
  | PStr (s : string)
  | PList (l : list pyval)
  | PDict (d : gmap string pyval).

(** The exceptions the modelled code can raise. *)
Inductive exn : Type :=
  | KeyError (k : string)
  | TypeError
  | AttributeError
  | ValueError
  | ProviderError.

Inductive res (A : Type) : Type :=
  | Ok (a : A)
  | Err (e : exn).
Arguments Ok {A} a.
Arguments Err {A} e.

(** [v == s] for a string literal [s]. *)
Definition py_eq_str (v : pyval) (s : string) : bool :=
  match v with
  | PStr t => bool_decide (t = s)
  | _ => false
  end.

(** Truth value of [response] where it is [None] or a dict:
    [None] and the empty dict are false. *)
Definition truthy (response : option (gmap string pyval)) : bool :=
  match response with
  | Some d => negb (Nat.eqb (size d) 0)
  | None => false
  end.

(** [d[k]]: a missing key raises [KeyError]. *)
Definition getitem (d : gmap string pyval) (k : string) : res pyval :=
  match d !! k with
  | Some v => Ok v
  | None => Err (KeyError k)
  end.

(** ** The handler (baseHandler.py, state.py) *)

(** state.py: [INITIAL = 0], [DONE = 2]. *)
Inductive step_state : Type := INITIAL | DONE.

Definition step_state_code (s : step_state) : Z :=
  match s with INITIAL => 0 | DONE => 2 end.

#[global] Instance step_state_eq_dec : EqDecision step_state.
Proof. solve_decision. Defined.

(** A retrieved item [(url, json_str, name, site)].  [item_schema] is
    [json.loads(json_str)], which the code computes where it needs it;
    [None] when [json_str] is not JSON and the call raises. *)
Record item := mkItem {
  item_url : string;
  item_json_str : string;
  item_name : string;
  item_site : string;
  item_schema : option pyval
}.

(** The query parameters [__init__] reads; they do not change afterwards.
    [http_handler] records whether the handler was given one
    ([http_handler is not None]). *)
Record Request := mkRequest {
  site : string;
  query : string;
  prev_queries : list string;
  context_url : string;
  query_id : string;
  streaming : bool;
  http_handler : bool;
  generate_mode : string
}.

(** The fields of [NLWebHandler] and of its [NLWebHandlerState] that the
    pipeline writes.  [stream] is the client's side of
    [http_handler.write_stream]: the messages delivered so far, oldest
    first.  [final_ranked_answers] holds references into the store of
    ranked answers (see [State]).  [item_type], [summary] and
    [context_description] only feed prompt templates and are left out. *)

Record Handler := mkHandler {
  req : Request;
  decontextualized_query : pyval;
  final_retrieved_items : list item;
  final_ranked_answers : list nat;
  query_done : bool;
  query_is_irrelevant : bool;
  requires_decontextualization : bool;
  required_info_found : option bool;
  precheck_step_state : gmap string step_state;
  decon_event : bool;
  pre_checks_done_event : bool;
  retrieval_done_event : bool;
  connection_alive_event : bool;
  abort_fast_track_event : bool;
  fastTrackWorked : bool;
  return_value : gmap string pyval;
  versionNumberSent : bool;
  stream : list (gmap string pyval)
}.

Definition set_decontextualized_query (v : pyval) (h : Handler) : Handler :=
  {| req := req h; decontextualized_query := v; final_retrieved_items := final_retrieved_items h;
     final_ranked_answers := final_ranked_answers h; query_done := query_done h; query_is_irrelevant
     := query_is_irrelevant h; requires_decontextualization := requires_decontextualization h;
     required_info_found := required_info_found h; precheck_step_state := precheck_step_state h;
     decon_event := decon_event h; pre_checks_done_event := pre_checks_done_event h;
     retrieval_done_event := retrieval_done_event h; connection_alive_event :=
     connection_alive_event h; abort_fast_track_event := abort_fast_track_event h; fastTrackWorked
     := fastTrackWorked h; return_value := return_value h; versionNumberSent := versionNumberSent h;
     stream := stream h |}.

Definition set_final_retrieved_items (v : list item) (h : Handler) : Handler :=
  {| req := req h; decontextualized_query := decontextualized_query h; final_retrieved_items := v;
     final_ranked_answers := final_ranked_answers h; query_done := query_done h; query_is_irrelevant
     := query_is_irrelevant h; requires_decontextualization := requires_decontextualization h;
     required_info_found := required_info_found h; precheck_step_state := precheck_step_state h;
     decon_event := decon_event h; pre_checks_done_event := pre_checks_done_event h;
     retrieval_done_event := retrieval_done_event h; connection_alive_event :=
     connection_alive_event h; abort_fast_track_event := abort_fast_track_event h; fastTrackWorked
     := fastTrackWorked h; return_value := return_value h; versionNumberSent := versionNumberSent h;
     stream := stream h |}.

Definition set_final_ranked_answers (v : list nat) (h : Handler) : Handler :=
  {| req := req h; decontextualized_query := decontextualized_query h; final_retrieved_items :=
     final_retrieved_items h; final_ranked_answers := v; query_done := query_done h;
     query_is_irrelevant := query_is_irrelevant h; requires_decontextualization :=
     requires_decontextualization h; required_info_found := required_info_found h;
     precheck_step_state := precheck_step_state h; decon_event := decon_event h;
     pre_checks_done_event := pre_checks_done_event h; retrieval_done_event := retrieval_done_event
     h; connection_alive_event := connection_alive_event h; abort_fast_track_event :=
     abort_fast_track_event h; fastTrackWorked := fastTrackWorked h; return_value := return_value h;
     versionNumberSent := versionNumberSent h; stream := stream h |}.

Definition set_query_done (v : bool) (h : Handler) : Handler :=
  {| req := req h; decontextualized_query := decontextualized_query h; final_retrieved_items :=
     final_retrieved_items h; final_ranked_answers := final_ranked_answers h; query_done := v;
     query_is_irrelevant := query_is_irrelevant h; requires_decontextualization :=
     requires_decontextualization h; required_info_found := required_info_found h;
     precheck_step_state := precheck_step_state h; decon_event := decon_event h;
     pre_checks_done_event := pre_checks_done_event h; retrieval_done_event := retrieval_done_event
     h; connection_alive_event := connection_alive_event h; abort_fast_track_event :=
     abort_fast_track_event h; fastTrackWorked := fastTrackWorked h; return_value := return_value h;
     versionNumberSent := versionNumberSent h; stream := stream h |}.

Definition set_query_is_irrelevant (v : bool) (h : Handler) : Handler :=
  {| req := req h; decontextualized_query := decontextualized_query h; final_retrieved_items :=
     final_retrieved_items h; final_ranked_answers := final_ranked_answers h; query_done :=
     query_done h; query_is_irrelevant := v; requires_decontextualization :=
     requires_decontextualization h; required_info_found := required_info_found h;
     precheck_step_state := precheck_step_state h; decon_event := decon_event h;
     pre_checks_done_event := pre_checks_done_event h; retrieval_done_event := retrieval_done_event
     h; connection_alive_event := connection_alive_event h; abort_fast_track_event :=
     abort_fast_track_event h; fastTrackWorked := fastTrackWorked h; return_value := return_value h;
     versionNumberSent := versionNumberSent h; stream := stream h |}.

Definition set_requires_decontextualization (v : bool) (h : Handler) : Handler :=
  {| req := req h; decontextualized_query := decontextualized_query h; final_retrieved_items :=
     final_retrieved_items h; final_ranked_answers := final_ranked_answers h; query_done :=
     query_done h; query_is_irrelevant := query_is_irrelevant h; requires_decontextualization := v;
     required_info_found := required_info_found h; precheck_step_state := precheck_step_state h;
     decon_event := decon_event h; pre_checks_done_event := pre_checks_done_event h;
     retrieval_done_event := retrieval_done_event h; connection_alive_event :=
     connection_alive_event h; abort_fast_track_event := abort_fast_track_event h; fastTrackWorked
     := fastTrackWorked h; return_value := return_value h; versionNumberSent := versionNumberSent h;
     stream := stream h |}.

Definition set_required_info_found (v : option bool) (h : Handler) : Handler :=
  {| req := req h; decontextualized_query := decontextualized_query h; final_retrieved_items :=
     final_retrieved_items h; final_ranked_answers := final_ranked_answers h; query_done :=
     query_done h; query_is_irrelevant := query_is_irrelevant h; requires_decontextualization :=
     requires_decontextualization h; required_info_found := v; precheck_step_state :=
     precheck_step_state h; decon_event := decon_event h; pre_checks_done_event :=
     pre_checks_done_event h; retrieval_done_event := retrieval_done_event h; connection_alive_event
     := connection_alive_event h; abort_fast_track_event := abort_fast_track_event h;
     fastTrackWorked := fastTrackWorked h; return_value := return_value h; versionNumberSent :=
     versionNumberSent h; stream := stream h |}.

Definition set_precheck_step_state (v : gmap string step_state) (h : Handler) : Handler :=
  {| req := req h; decontextualized_query := decontextualized_query h; final_retrieved_items :=
     final_retrieved_items h; final_ranked_answers := final_ranked_answers h; query_done :=
     query_done h; query_is_irrelevant := query_is_irrelevant h; requires_decontextualization :=
     requires_decontextualization h; required_info_found := required_info_found h;
     precheck_step_state := v; decon_event := decon_event h; pre_checks_done_event :=
     pre_checks_done_event h; retrieval_done_event := retrieval_done_event h; connection_alive_event
     := connection_alive_event h; abort_fast_track_event := abort_fast_track_event h;
     fastTrackWorked := fastTrackWorked h; return_value := return_value h; versionNumberSent :=
     versionNumberSent h; stream := stream h |}.

Definition set_decon_event (v : bool) (h : Handler) : Handler :=
  {| req := req h; decontextualized_query := decontextualized_query h; final_retrieved_items :=
     final_retrieved_items h; final_ranked_answers := final_ranked_answers h; query_done :=
     query_done h; query_is_irrelevant := query_is_irrelevant h; requires_decontextualization :=
     requires_decontextualization h; required_info_found := required_info_found h;
     precheck_step_state := precheck_step_state h; decon_event := v; pre_checks_done_event :=
     pre_checks_done_event h; retrieval_done_event := retrieval_done_event h; connection_alive_event
     := connection_alive_event h; abort_fast_track_event := abort_fast_track_event h;
     fastTrackWorked := fastTrackWorked h; return_value := return_value h; versionNumberSent :=
     versionNumberSent h; stream := stream h |}.

Definition set_pre_checks_done_event (v : bool) (h : Handler) : Handler :=
  {| req := req h; decontextualized_query := decontextualized_query h; final_retrieved_items :=
     final_retrieved_items h; final_ranked_answers := final_ranked_answers h; query_done :=
     query_done h; query_is_irrelevant := query_is_irrelevant h; requires_decontextualization :=
     requires_decontextualization h; required_info_found := required_info_found h;
     precheck_step_state := precheck_step_state h; decon_event := decon_event h;
     pre_checks_done_event := v; retrieval_done_event := retrieval_done_event h;
     connection_alive_event := connection_alive_event h; abort_fast_track_event :=
     abort_fast_track_event h; fastTrackWorked := fastTrackWorked h; return_value := return_value h;
     versionNumberSent := versionNumberSent h; stream := stream h |}.

Definition set_retrieval_done_event (v : bool) (h : Handler) : Handler :=
  {| req := req h; decontextualized_query := decontextualized_query h; final_retrieved_items :=
     final_retrieved_items h; final_ranked_answers := final_ranked_answers h; query_done :=
     query_done h; query_is_irrelevant := query_is_irrelevant h; requires_decontextualization :=
     requires_decontextualization h; required_info_found := required_info_found h;
     precheck_step_state := precheck_step_state h; decon_event := decon_event h;
     pre_checks_done_event := pre_checks_done_event h; retrieval_done_event := v;
     connection_alive_event := connection_alive_event h; abort_fast_track_event :=
     abort_fast_track_event h; fastTrackWorked := fastTrackWorked h; return_value := return_value h;
     versionNumberSent := versionNumberSent h; stream := stream h |}.

Definition set_connection_alive_event (v : bool) (h : Handler) : Handler :=
  {| req := req h; decontextualized_query := decontextualized_query h; final_retrieved_items :=
     final_retrieved_items h; final_ranked_answers := final_ranked_answers h; query_done :=
     query_done h; query_is_irrelevant := query_is_irrelevant h; requires_decontextualization :=
     requires_decontextualization h; required_info_found := required_info_found h;
     precheck_step_state := precheck_step_state h; decon_event := decon_event h;
     pre_checks_done_event := pre_checks_done_event h; retrieval_done_event := retrieval_done_event
     h; connection_alive_event := v; abort_fast_track_event := abort_fast_track_event h;
     fastTrackWorked := fastTrackWorked h; return_value := return_value h; versionNumberSent :=
     versionNumberSent h; stream := stream h |}.

Definition set_abort_fast_track_event (v : bool) (h : Handler) : Handler :=
  {| req := req h; decontextualized_query := decontextualized_query h; final_retrieved_items :=
     final_retrieved_items h; final_ranked_answers := final_ranked_answers h; query_done :=
     query_done h; query_is_irrelevant := query_is_irrelevant h; requires_decontextualization :=
     requires_decontextualization h; required_info_found := required_info_found h;
     precheck_step_state := precheck_step_state h; decon_event := decon_event h;
     pre_checks_done_event := pre_checks_done_event h; retrieval_done_event := retrieval_done_event
     h; connection_alive_event := connection_alive_event h; abort_fast_track_event := v;
     fastTrackWorked := fastTrackWorked h; return_value := return_value h; versionNumberSent :=
     versionNumberSent h; stream := stream h |}.

Definition set_fastTrackWorked (v : bool) (h : Handler) : Handler :=
  {| req := req h; decontextualized_query := decontextualized_query h; final_retrieved_items :=
     final_retrieved_items h; final_ranked_answers := final_ranked_answers h; query_done :=
     query_done h; query_is_irrelevant := query_is_irrelevant h; requires_decontextualization :=
     requires_decontextualization h; required_info_found := required_info_found h;
     precheck_step_state := precheck_step_state h; decon_event := decon_event h;
     pre_checks_done_event := pre_checks_done_event h; retrieval_done_event := retrieval_done_event
     h; connection_alive_event := connection_alive_event h; abort_fast_track_event :=
     abort_fast_track_event h; fastTrackWorked := v; return_value := return_value h;
     versionNumberSent := versionNumberSent h; stream := stream h |}.

Definition set_return_value (v : gmap string pyval) (h : Handler) : Handler :=
  {| req := req h; decontextualized_query := decontextualized_query h; final_retrieved_items :=
     final_retrieved_items h; final_ranked_answers := final_ranked_answers h; query_done :=
     query_done h; query_is_irrelevant := query_is_irrelevant h; requires_decontextualization :=
     requires_decontextualization h; required_info_found := required_info_found h;
     precheck_step_state := precheck_step_state h; decon_event := decon_event h;
     pre_checks_done_event := pre_checks_done_event h; retrieval_done_event := retrieval_done_event
     h; connection_alive_event := connection_alive_event h; abort_fast_track_event :=
     abort_fast_track_event h; fastTrackWorked := fastTrackWorked h; return_value := v;
     versionNumberSent := versionNumberSent h; stream := stream h |}.

Definition set_versionNumberSent (v : bool) (h : Handler) : Handler :=
  {| req := req h; decontextualized_query := decontextualized_query h; final_retrieved_items :=
     final_retrieved_items h; final_ranked_answers := final_ranked_answers h; query_done :=
     query_done h; query_is_irrelevant := query_is_irrelevant h; requires_decontextualization :=
     requires_decontextualization h; required_info_found := required_info_found h;
     precheck_step_state := precheck_step_state h; decon_event := decon_event h;
     pre_checks_done_event := pre_checks_done_event h; retrieval_done_event := retrieval_done_event
     h; connection_alive_event := connection_alive_event h; abort_fast_track_event :=
     abort_fast_track_event h; fastTrackWorked := fastTrackWorked h; return_value := return_value h;
     versionNumberSent := v; stream := stream h |}.

Definition set_stream (v : list (gmap string pyval)) (h : Handler) : Handler :=
  {| req := req h; decontextualized_query := decontextualized_query h; final_retrieved_items :=
     final_retrieved_items h; final_ranked_answers := final_ranked_answers h; query_done :=
     query_done h; query_is_irrelevant := query_is_irrelevant h; requires_decontextualization :=
     requires_decontextualization h; required_info_found := required_info_found h;
     precheck_step_state := precheck_step_state h; decon_event := decon_event h;
     pre_checks_done_event := pre_checks_done_event h; retrieval_done_event := retrieval_done_event
     h; connection_alive_event := connection_alive_event h; abort_fast_track_event :=
     abort_fast_track_event h; fastTrackWorked := fastTrackWorked h; return_value := return_value h;
     versionNumberSent := versionNumberSent h; stream := v |}.
(** [NLWebHandler.__init__]: a fresh handler.  The connection starts alive,
    every other event is clear, no step is registered.  [dq] is the
    request's [decontextualized_query] parameter (default [""]). *)
Definition new_handler (r : Request) (dq : string) : Handler :=
  {| req := r; decontextualized_query := PStr dq; final_retrieved_items := [];
     final_ranked_answers := []; query_done := false; query_is_irrelevant := false;
     requires_decontextualization := false; required_info_found := None;
     precheck_step_state := ∅; decon_event := false; pre_checks_done_event := false;
     retrieval_done_event := false; connection_alive_event := true;
     abort_fast_track_event := false; fastTrackWorked := false; return_value := ∅;
     versionNumberSent := false; stream := [] |}.

(** *** state.py *)

Definition start_precheck_step (step_name : string) (h : Handler) : Handler :=
  set_precheck_step_state (<[step_name := INITIAL]> (precheck_step_state h)) h.

(** [all(state == DONE for state in precheck_step_state.values())] *)
Definition all_steps_done (m : gmap string step_state) : bool :=
  bool_decide (map_Forall (λ _ st, st = DONE) m).

(** The state lock is only ever held inside this function, which does not
    suspend while holding it: the function is one uninterrupted segment. *)
Definition precheck_step_done (step_name : string) (h : Handler) : Handler :=
  let h1 := set_precheck_step_state (<[step_name := DONE]> (precheck_step_state h)) h in
  let h2 := if bool_decide (step_name = "Decon") then set_decon_event true h1 else h1 in
  if all_steps_done (precheck_step_state h2)
  then set_pre_checks_done_event true h2
  else h2.

Definition set_pre_checks_done (h : Handler) : Handler :=
  set_pre_checks_done_event true h.

Definition is_decontextualization_done (h : Handler) : bool :=
  match precheck_step_state h !! "Decon" with
  | Some st => bool_decide (st = DONE)
  | None => false
  end.

(** *** The stream sink: [NLWebHandler.send_message] *)

Definition API_VERSION : string := "0.1".

(** What [http_handler.write_stream] does with a message: it reaches the
    client, or the wrapper swallows its own failure and returns without
    delivering (StreamingWrapper.py), or the call raises. *)
Inductive write_outcome : Type := Delivered | Dropped | WriteRaises.

(** [message.get(key) == t] *)
Definition has_tag (key t : string) (message : gmap string pyval) : bool :=
  match message !! key with
  | Some v => py_eq_str v t
  | None => false
  end.

Definition message_type_is (t : string) (message : gmap string pyval) : bool :=
  has_tag "message_type" t message.

(** The non-streaming branch: aggregate the message into [return_value].
    Every tag the code writes is a string; another tag is reported as
    [TypeError], which is what an unhashable one raises. *)
Definition aggregate (message : gmap string pyval) (h : Handler) : res Handler :=
  match getitem message "message_type" with
  | Err e => Err e
  | Ok (PStr message_type) =>
      if bool_decide (message_type = "result_batch") then
        match getitem message "results" with
        | Err e => Err e
        | Ok (PList val) =>
            match val, return_value h !! "results" with
            | [], _ => Ok h
            | _, None => Ok (set_return_value (<["results" := PList val]> (return_value h)) h)
            | _, Some (PList old) =>
                Ok (set_return_value (<["results" := PList (old ++ val)]> (return_value h)) h)
            | _, Some _ => Err AttributeError
            end
        | Ok _ => Err TypeError
        end
      else
        let val := delete "message_type" message in
        Ok (set_return_value (<[message_type := PDict val]> (return_value h)) h)
  | Ok _ => Err TypeError
  end.

(** [send_message].  The send lock serialises the calls, so a call is one
    step of the stream.  On the first streamed message the handler marks
    the version as sent and builds the [api_version] message, but the line
    that would write it is commented out in the source: only [message]
    itself is written. *)
Definition send_message (message : gmap string pyval) (w : write_outcome) (h : Handler)
  : res Handler :=
  if negb (connection_alive_event h) then Ok h
  else if streaming (req h) && http_handler (req h) then
    let message := <["query_id" := PStr (query_id (req h))]> message in
    let h1 :=
      if negb (versionNumberSent h) then
        let version_number_message : gmap string pyval :=
          {["message_type" := PStr "api_version"; "api_version" := PStr API_VERSION]} in
        set_versionNumberSent true h
      else h in
    match w with
    | Delivered => Ok (set_stream (stream h1 ++ [message]) h1)
    | Dropped => Ok h1
    | WriteRaises => Ok (set_connection_alive_event false h1)
    end
  else aggregate message h.

(** *** [NLWebHandler.decontextualizeQuery] *)

Inductive decontextualizer : Type :=
  | NoOpDecontextualizer
  | PrevQueryDecontextualizer
  | ContextUrlDecontextualizer
  | FullDecontextualizer.

Definition decontextualizeQuery (h : Handler) : decontextualizer * Handler :=
  if (length (prev_queries (req h)) <? 1)%nat then
    (NoOpDecontextualizer, set_decontextualized_query (PStr (query (req h))) h)
  else if negb (py_eq_str (decontextualized_query h) "") then
    (NoOpDecontextualizer, h)
  else if (0 <? length (prev_queries (req h)))%nat then
    (PrevQueryDecontextualizer, h)
  else if (4 <? String.length (context_url (req h)))%nat
          && (length (prev_queries (req h)) =? 0)%nat then
    (ContextUrlDecontextualizer, h)
  else
    (FullDecontextualizer, h).

(** *** [FastTrack.is_fastTrack_eligible] *)

Definition is_fastTrack_eligible (h : Handler) : bool :=
  if negb (String.eqb (context_url (req h)) "") then false
  else if (0 <? length (prev_queries (req h)))%nat then false
  else true.

(** ** The ranker (ranking.py) *)

Definition EARLY_SEND_THRESHOLD : Z := 59.
Definition NUM_RESULTS_TO_SEND : nat := 10.

Inductive track : Type := FAST_TRACK | REGULAR_TRACK.

#[global] Instance track_eq_dec : EqDecision track.
Proof. solve_decision. Defined.

(** A ranked answer, the dict [ansr] of [rankItem].  Of [ranking] the code
    reads two keys: [score], which has been compared with an integer by
    the time the answer exists, and [description], which may be missing
    from what the LLM answered ([None]: reading it raises [KeyError]). *)
Record answer := mkAnswer {
  ans_url : string;
  ans_site : string;
  ans_name : string;
  ans_score : Z;
  ans_description : option pyval;
  ans_schema_object : pyval;
  ans_sent : bool
}.

Definition mark_sent (a : answer) : answer :=
  {| ans_url := ans_url a; ans_site := ans_site a; ans_name := ans_name a;
     ans_score := ans_score a; ans_description := ans_description a;
     ans_schema_object := ans_schema_object a; ans_sent := true |}.

(** The Python fields of a [Ranking] object.  [rankedAnswers] holds
    references into the store of answers: the same dict is reachable from
    the task that built it, from [rankedAnswers] and from the handler's
    [final_ranked_answers], and [sendAnswers] flips its [sent] in place. *)
Record Ranking := mkRanking {
  ranking_type : track;
  items : list item;
  num_results_sent : nat;
  rankedAnswers : list nat
}.

Definition set_num_results_sent (n : nat) (rk : Ranking) : Ranking :=
  {| ranking_type := ranking_type rk; items := items rk; num_results_sent := n;
     rankedAnswers := rankedAnswers rk |}.

Definition set_rankedAnswers (l : list nat) (rk : Ranking) : Ranking :=
  {| ranking_type := ranking_type rk; items := items rk;
     num_results_sent := num_results_sent rk; rankedAnswers := l |}.

(** [Ranking.__init__] *)
Definition new_ranking (its : list item) (t : track) : Ranking :=
  {| ranking_type := t; items := its; num_results_sent := 0; rankedAnswers := [] |}.

(** The answers a list of references denotes. *)
Definition deref (store : list answer) (refs : list nat) : list answer :=
  omap (λ r, store !! r) refs.

(** [Ranking.shouldSend] *)
Definition shouldSend (rk : Ranking) (store : list answer) (result : answer) : bool :=
  if (num_results_sent rk <? NUM_RESULTS_TO_SEND - 5)%nat then true
  else existsb (λ r, ans_sent r && (ans_score r <? ans_score result))
               (deref store (rankedAnswers rk)).

(** One element of [json_results]. *)
Definition json_result (a : answer) (description : pyval) : pyval :=
  PDict (<["url" := PStr (ans_url a)]>
        (<["name" := PStr (ans_name a)]>
        (<["site" := PStr (ans_site a)]>
        (<["siteUrl" := PStr (ans_site a)]>
        (<["score" := PInt (ans_score a)]>
        (<["description" := description]>
        (<["schema_object" := ans_schema_object a]> ∅))))))).

(** The loop of [sendAnswers] that picks the answers to send, builds
    [json_results] and sets [sent].  It returns the store as the loop left
    it, also when reading a missing description raised part-way. *)
Fixpoint select_answers (rk : Ranking) (force : bool) (answers : list nat)
    (store : list answer) (json_results : list pyval) : list answer * res (list pyval) :=
  match answers with
  | [] => (store, Ok json_results)
  | r :: rest =>
      match store !! r with
      | None => (store, Err (KeyError "ranking"))
      | Some result =>
          if shouldSend rk store result || force then
            match ans_description result with
            | None => (store, Err (KeyError "description"))
            | Some d =>
                select_answers rk force rest (<[r := mark_sent result]> store)
                               (json_results ++ [json_result result d])
            end
          else select_answers rk force rest store json_results
      end
  end.

(** The [result_batch] message of [sendAnswers]. *)
Definition result_batch (json_results : list pyval) (h : Handler) : gmap string pyval :=
  <["message_type" := PStr "result_batch"]>
  (<["results" := PList json_results]>
  (<["query_id" := PStr (query_id (req h))]> ∅)).

(** [sorted(l, key=score, reverse=True)]: descending, and stable (answers
    of equal score keep their order), as Python's [sorted] is. *)
Fixpoint insert_desc (store : list answer) (score_x : Z) (x : nat) (l : list nat) : list nat :=
  match l with
  | [] => [x]
  | y :: l' =>
      match store !! y with
      | Some b =>
          if ans_score b <=? score_x then x :: y :: l'
          else y :: insert_desc store score_x x l'
      | None => y :: insert_desc store score_x x l'
      end
  end.

Definition sorted_desc (store : list answer) (l : list nat) : list nat :=
  foldr (λ x acc, match store !! x with
                  | Some a => insert_desc store (ans_score a) x acc
                  | None => acc
                  end) [] l.

Definition score_above (store : list answer) (n : Z) (r : nat) : bool :=
  match store !! r with
  | Some a => n <? ans_score a
  | None => false
  end.

Definition not_sent (store : list answer) (r : nat) : bool :=
  match store !! r with
  | Some a => negb (ans_sent a)
  | None => false
  end.

(** [do]: [handler.final_ranked_answers]. *)
Definition top_ranked (rk : Ranking) (store : list answer) : list nat :=
  let filtered := filter (λ r, score_above store 51 r = true) (rankedAnswers rk) in
  let ranked := sorted_desc store filtered in
  take NUM_RESULTS_TO_SEND ranked.

(** [do]: the answers of the final forced flush, [None] when the ranker
    returns because more than [NUM_RESULTS_TO_SEND] were already sent. *)
Definition final_batch (rk : Ranking) (store : list answer) : option (list nat) :=
  let results := filter (λ r, not_sent store r = true) (rankedAnswers rk) in
  if (NUM_RESULTS_TO_SEND <? num_results_sent rk)%nat then None
  else
    let sorted_results := sorted_desc store results in
    let good_results := filter (λ r, score_above store 51 r = true) sorted_results in
    if (NUM_RESULTS_TO_SEND <=? length good_results + num_results_sent rk)%nat
    then Some (take (NUM_RESULTS_TO_SEND - num_results_sent rk + 1) good_results)
    else Some good_results.

(** [prettyPrintSite], for ASCII site names: underscores become spaces,
    the name is split at white space, each word is capitalised. *)
Definition is_space (c : ascii) : bool :=
  let n := nat_of_ascii c in
  ((9 <=? n) && (n <=? 13) || (28 <=? n) && (n <=? 32))%nat.

Definition upper (c : ascii) : ascii :=
  let n := nat_of_ascii c in
  if ((97 <=? n) && (n <=? 122))%nat then ascii_of_nat (n - 32) else c.

Definition lower (c : ascii) : ascii :=
  let n := nat_of_ascii c in
  if ((65 <=? n) && (n <=? 90))%nat then ascii_of_nat (n + 32) else c.

Fixpoint map_string (f : ascii → ascii) (s : string) : string :=
  match s with
  | EmptyString => EmptyString
  | String c s' => String (f c) (map_string f s')
  end.

Definition capitalize (word : string) : string :=
  match word with
  | EmptyString => EmptyString
  | String c rest => String (upper c) (map_string lower rest)
  end.

(** [s.split()]: [cur] is the word being read, reversed. *)
Fixpoint split_words (s : string) (cur : list ascii) : list string :=
  let flush := match cur with [] => [] | _ => [String.string_of_list_ascii (rev cur)] end in
  match s with
  | EmptyString => flush
  | String c s' =>
      if is_space c then flush ++ split_words s' []
      else split_words s' (c :: cur)
  end.

Fixpoint join (sep : string) (l : list string) : string :=
  match l with
  | [] => ""
  | [w] => w
  | w :: l' => w +:+ sep +:+ join sep l'
  end.

Definition prettyPrintSite (site : string) : string :=
  let ans := map_string (λ c, if Ascii.eqb c "_" then " "%char else c) site in
  join " " (capitalize <$> split_words ans []).

(** [sites_in_embeddings]: the number of items per site, sites in order of
    first occurrence, as the Python dict keeps them. *)
Fixpoint count_site (s : string) (counts : list (string * nat)) : list (string * nat) :=
  match counts with
  | [] => [(s, 1%nat)]
  | (t, n) :: rest =>
      if String.eqb t s then (t, S n) :: rest else (t, n) :: count_site s rest
  end.

Fixpoint insert_by_count (x : string * nat) (l : list (string * nat)) : list (string * nat) :=
  match l with
  | [] => [x]
  | y :: l' => if (snd y <=? snd x)%nat then x :: y :: l' else y :: insert_by_count x l'
  end.

Definition top_sites_str (top_embeddings : list item) : string :=
  let sites_in_embeddings :=
    foldl (λ counts it, count_site (item_site it) counts) [] top_embeddings in
  let top_sites := take 3 (foldr insert_by_count [] sites_in_embeddings) in
  join ", " ((λ x, prettyPrintSite (fst x)) <$> top_sites).

(** The message of [sendMessageOnSitesBeingAsked]. *)
Definition asking_sites (top_embeddings : list item) : gmap string pyval :=
  <["message_type" := PStr "asking_sites"]>
  (<["message" := PStr ("Asking " +:+ top_sites_str top_embeddings)]> ∅).

(** ** Analyzers (code/pre_retrieval, prompts/prompt_runner.py) *)

Inductive analyzer : Type :=
  | DetectItemType
  | DetectMultiItemTypeQuery
  | DetectQueryType
  | Decontextualize
  | RelevanceDetection
  | Memory
  | RequiredInfo.

#[global] Instance analyzer_eq_dec : EqDecision analyzer.
Proof. solve_decision. Defined.

Definition STEP_NAME (a : analyzer) : string :=
  match a with
  | DetectItemType => "DetectItemType"
  | DetectMultiItemTypeQuery => "DetectMultiItemTypeQuery"
  | DetectQueryType => "DetectQueryType"
  | Decontextualize => "Decon"
  | RelevanceDetection => "Relevance"
  | Memory => "Memory"
  | RequiredInfo => "RequiredInfo"
  end.

(** relevance_detection.py: the module constant, [False] in the source.
    The source invites flipping it, so the pipeline takes it as a
    parameter ([relevance_enabled] of [State]). *)
Definition RELEVANCE_DETECTION_ENABLED : bool := false.

(** What happens inside [run_prompt]: the prompt is not found, or finding,
    filling or asking the LLM raises, or the LLM answers with an object. *)
Inductive prompt_outcome : Type :=
  | PromptNotFound
  | LlmRaises
  | LlmAnswers (response : gmap string pyval).

(** [PromptRunner.run_prompt]: its whole body is under
    [try ... except Exception: return None]. *)
Definition run_prompt (o : prompt_outcome) : option (gmap string pyval) :=
  match o with
  | PromptNotFound => None
  | LlmRaises => None
  | LlmAnswers response => Some response
  end.

(** The messages the analyzers send. *)
Inductive an_message : Type :=
  | Remember (memory_request : pyval)
  | AskUser (user_question : pyval)
  | SiteIsIrrelevant (explanation : pyval)
  | DecontextualizedQuery (dq : pyval).

Definition remember (memory_request : pyval) : gmap string pyval :=
  <["message_type" := PStr "remember"]>
  (<["item_to_remember" := memory_request]>
  (<["message" := PStr "I'll remember that"]> ∅)).

Definition ask_user (user_question : pyval) : gmap string pyval :=
  <["message_type" := PStr "ask_user"]> (<["message" := user_question]> ∅).

Definition site_is_irrelevant (explanation : pyval) : gmap string pyval :=
  <["message_type" := PStr "site_is_irrelevant_to_query"]> (<["message" := explanation]> ∅).

(** The message of [PrevQueryDecontextualizer.do]: its tag is under the key
    [type]. *)
Definition decontextualized_query_message (dq : pyval) : gmap string pyval :=
  <["type" := PStr "decontextualized_query"]> (<["decontextualized_query" := dq]> ∅).

Definition an_message_dict (m : an_message) : gmap string pyval :=
  match m with
  | Remember memory_request => remember memory_request
  | AskUser user_question => ask_user user_question
  | SiteIsIrrelevant explanation => site_is_irrelevant explanation
  | DecontextualizedQuery dq => decontextualized_query_message dq
  end.

(** Where a task of an analyzer stands. *)
Inductive an_status : Type :=
  | AnAbsent                         (* no such task *)
  | AnReady                          (* created, has not run yet *)
  | AnPrompt                         (* suspended in run_prompt *)
  | AnSend (message : an_message)    (* suspended in send_message *)
  | AnReturned
  | AnRaised (e : exn).

Definition returned_done (a : analyzer) (h : Handler) : Handler * an_status :=
  (precheck_step_done (STEP_NAME a) h, AnReturned).

(** [do()] up to its first suspension.  [d] is the decontextualizer that
    was built.  (No [ContextUrlDecontextualizer] or [FullDecontextualizer]
    is ever built: see [construct].) *)
Definition analyzer_begin (a : analyzer) (d : decontextualizer) (enabled : bool)
    (h : Handler) : Handler * an_status :=
  match a with
  | Decontextualize =>
      match d with
      | NoOpDecontextualizer =>
          let h := set_decontextualized_query (PStr (query (req h))) h in
          let h := set_requires_decontextualization false h in
          returned_done a h
      | PrevQueryDecontextualizer => (h, AnPrompt)
      | _ => (h, AnRaised AttributeError)
      end
  | RelevanceDetection =>
      if negb enabled then returned_done a h
      else if String.eqb (site (req h)) "all" || String.eqb (site (req h)) "nlws"
      then returned_done a h
      else (h, AnPrompt)
  | _ => (h, AnPrompt)
  end.

(** [do()] from the return of [run_prompt] to the next suspension. *)
Definition analyzer_resume (a : analyzer) (d : decontextualizer) (o : prompt_outcome)
    (h : Handler) : Handler * an_status :=
  let response := run_prompt o in
  match a with
  | DetectItemType =>
      match response with
      | Some r =>
          if truthy response then
            match getitem r "item_type" with
            | Err e => (h, AnRaised e)
            | Ok _ => returned_done a h
            end
          else returned_done a h
      | None => returned_done a h
      end
  | DetectMultiItemTypeQuery => returned_done a h
  | DetectQueryType => returned_done a h
  | Decontextualize =>
      match d with
      | PrevQueryDecontextualizer =>
          match response with
          | None =>
              let h := set_requires_decontextualization false h in
              let h := set_decontextualized_query (PStr (query (req h))) h in
              returned_done a h
          | Some r =>
              match getitem r "requires_decontextualization" with
              | Err e => (h, AnRaised e)
              | Ok v =>
                  if py_eq_str v "True" then
                    let h := set_requires_decontextualization true h in
                    let h := set_abort_fast_track_event true h in
                    match getitem r "decontextualized_query" with
                    | Err e => (h, AnRaised e)
                    | Ok dq =>
                        let h := set_decontextualized_query dq h in
                        let h := precheck_step_done (STEP_NAME a) h in
                        (h, AnSend (DecontextualizedQuery dq))
                    end
                  else
                    let h := set_decontextualized_query (PStr (query (req h))) h in
                    returned_done a h
              end
          end
      | _ => (h, AnRaised AttributeError)
      end
  | RelevanceDetection =>
      match response with
      | Some r =>
          if truthy response then
            match getitem r "site_is_irrelevant_to_query" with
            | Err e => (h, AnRaised e)
            | Ok irrelevant =>
                match getitem r "explanation_for_irrelevance" with
                | Err e => (h, AnRaised e)
                | Ok explanation =>
                    if py_eq_str irrelevant "True" then
                      let h := set_query_is_irrelevant true h in
                      let h := set_query_done true h in
                      let h := set_abort_fast_track_event true h in
                      (h, AnSend (SiteIsIrrelevant explanation))
                    else returned_done a (set_query_is_irrelevant false h)
                end
            end
          else returned_done a h
      | None => returned_done a h
      end
  | Memory =>
      match response with
      | Some r =>
          if truthy response then
            match getitem r "is_memory_request" with
            | Err e => (h, AnRaised e)
            | Ok is_memory_request =>
                match getitem r "memory_request" with
                | Err e => (h, AnRaised e)
                | Ok memory_request =>
                    if py_eq_str is_memory_request "True"
                    then (h, AnSend (Remember memory_request))
                    else returned_done a h
                end
            end
          else returned_done a h
      | None => returned_done a h
      end
  | RequiredInfo =>
      match response with
      | Some r =>
          if truthy response then
            match getitem r "required_info_found" with
            | Err e => (h, AnRaised e)
            | Ok v =>
                let found := py_eq_str v "True" in
                let h := set_required_info_found (Some found) h in
                if negb found then
                  let h := set_query_done true h in
                  let h := set_abort_fast_track_event true h in
                  match getitem r "user_question" with
                  | Err e => (h, AnRaised e)
                  | Ok user_question => (h, AnSend (AskUser user_question))
                  end
                else returned_done a h
            end
          else returned_done a (set_required_info_found (Some true) h)
      | None => returned_done a (set_required_info_found (Some true) h)
      end
  end.

(** [do()] from the return of [send_message] to its end. *)
Definition analyzer_sent (a : analyzer) (message : an_message) (w : write_outcome)
    (h : Handler) : Handler * an_status :=
  match send_message (an_message_dict message) w h with
  | Err e => (h, AnRaised e)
  | Ok h' =>
      match a with
      | Decontextualize => (h', AnReturned)
      | _ => returned_done a h'
      end
  end.

(** ** The tasks of a request *)

(** Where a [rankItem] task stands.  [a] refers to the answer it built,
    [json_results] is the payload [sendAnswers] prepared. *)
Inductive ri_status : Type :=
  | RiReady
  | RiLlm                                              (* suspended in ask_llm *)
  | RiBarrier (a : nat) (json_results : list pyval)    (* at pre_checks_done_event.wait() *)
  | RiWrite (a : nat) (json_results : list pyval)      (* suspended in send_message *)
  | RiFinished.

(** Where [Ranking.do] stands. *)
Inductive do_status : Type :=
  | DoSites                                  (* sending the asking_sites message *)
  | DoGather                                 (* awaiting the rankItem tasks *)
  | DoBarrier                                (* at pre_checks_done_event.wait() *)
  | DoWrite (json_results : list pyval)      (* final flush, suspended in send_message *)
  | DoFinished.

(** A [Ranking] object together with the tasks that run on it. *)
Record RankerRun := mkRankerRun {
  ranker : Ranking;
  item_at : list ri_status;
  do_at : do_status
}.

(** Where [FastTrack.do] stands; [items] is its local variable. *)
Inductive ft_status : Type :=
  | FtAbsent
  | FtReady
  | FtSearch                                 (* suspended in client.search *)
  | FtWaitDecon (items : list item)          (* in wait_for(wait_for_decontextualization) *)
  | FtRanking                                (* awaiting fastTrackRanker.do() *)
  | FtReturned
  | FtRaised (e : exn).

(** Where a [GenerateAnswer.rankItem] task stands. *)
Inductive gi_status : Type := GiReady | GiLlm | GiFinished.

(** The message [synthesizeAnswer] is sending. *)
Inductive gen_send : Type :=
  | SendFallback
  | SendFirst (answer : pyval) (response : gmap string pyval)
  | SendFinal (answer : pyval) (json_results : list pyval)
  | SendError (e : exn).

(** Where [runQuery] stands, for both handler classes. *)
Inductive orch_status : Type :=
  | ONew
  | OGather                                  (* prepare: awaiting gather *)
  | OSearch                                  (* prepare: suspended in client.search *)
  | ORanking                                 (* get_ranked_answers: awaiting Ranking.do *)
  | OSummaryPrompt                           (* SummarizeResults: in run_prompt *)
  | OSummarySend (text : pyval)
  | GSearch                                  (* GenerateAnswer.get_ranked_answers *)
  | GRanking
  | GSynthPrompt
  | GSend (m : gen_send)
  | GDescriptions (answer : pyval) (matched : list item)
  | OReturned
  | ORaised (e : exn).

Inductive handler_class : Type := NLWebHandler | GenerateAnswer.

(** The state of a request.  [answers] is the store of ranked-answer
    objects, shared by the tasks and the lists that refer to them.
    [gen_items] is [GenerateAnswer.items]. *)

Record State := mkState {
  handler : Handler;
  cls : handler_class;
  relevance_enabled : bool;
  decon_obj : decontextualizer;
  answers : list answer;
  fastTrackRanker : option RankerRun;
  regularRanker : option RankerRun;
  runQuery_at : orch_status;
  fastTrack_at : ft_status;
  analyzer_at : analyzer → an_status;
  gen_items : list item;
  gen_item_at : list gi_status
}.

Definition with_handler (v : Handler) (s : State) : State :=
  {| handler := v; cls := cls s; relevance_enabled := relevance_enabled s; decon_obj := decon_obj s;
     answers := answers s; fastTrackRanker := fastTrackRanker s; regularRanker := regularRanker s;
     runQuery_at := runQuery_at s; fastTrack_at := fastTrack_at s; analyzer_at := analyzer_at s;
     gen_items := gen_items s; gen_item_at := gen_item_at s |}.

Definition with_decon_obj (v : decontextualizer) (s : State) : State :=
  {| handler := handler s; cls := cls s; relevance_enabled := relevance_enabled s; decon_obj := v;
     answers := answers s; fastTrackRanker := fastTrackRanker s; regularRanker := regularRanker s;
     runQuery_at := runQuery_at s; fastTrack_at := fastTrack_at s; analyzer_at := analyzer_at s;
     gen_items := gen_items s; gen_item_at := gen_item_at s |}.

Definition with_answers (v : list answer) (s : State) : State :=
  {| handler := handler s; cls := cls s; relevance_enabled := relevance_enabled s; decon_obj :=
     decon_obj s; answers := v; fastTrackRanker := fastTrackRanker s; regularRanker := regularRanker
     s; runQuery_at := runQuery_at s; fastTrack_at := fastTrack_at s; analyzer_at := analyzer_at s;
     gen_items := gen_items s; gen_item_at := gen_item_at s |}.

Definition with_fastTrackRanker (v : option RankerRun) (s : State) : State :=
  {| handler := handler s; cls := cls s; relevance_enabled := relevance_enabled s; decon_obj :=
     decon_obj s; answers := answers s; fastTrackRanker := v; regularRanker := regularRanker s;
     runQuery_at := runQuery_at s; fastTrack_at := fastTrack_at s; analyzer_at := analyzer_at s;
     gen_items := gen_items s; gen_item_at := gen_item_at s |}.

Definition with_regularRanker (v : option RankerRun) (s : State) : State :=
  {| handler := handler s; cls := cls s; relevance_enabled := relevance_enabled s; decon_obj :=
     decon_obj s; answers := answers s; fastTrackRanker := fastTrackRanker s; regularRanker := v;
     runQuery_at := runQuery_at s; fastTrack_at := fastTrack_at s; analyzer_at := analyzer_at s;
     gen_items := gen_items s; gen_item_at := gen_item_at s |}.

Definition with_runQuery_at (v : orch_status) (s : State) : State :=
  {| handler := handler s; cls := cls s; relevance_enabled := relevance_enabled s; decon_obj :=
     decon_obj s; answers := answers s; fastTrackRanker := fastTrackRanker s; regularRanker :=
     regularRanker s; runQuery_at := v; fastTrack_at := fastTrack_at s; analyzer_at := analyzer_at
     s; gen_items := gen_items s; gen_item_at := gen_item_at s |}.

Definition with_fastTrack_at (v : ft_status) (s : State) : State :=
  {| handler := handler s; cls := cls s; relevance_enabled := relevance_enabled s; decon_obj :=
     decon_obj s; answers := answers s; fastTrackRanker := fastTrackRanker s; regularRanker :=
     regularRanker s; runQuery_at := runQuery_at s; fastTrack_at := v; analyzer_at := analyzer_at s;
     gen_items := gen_items s; gen_item_at := gen_item_at s |}.

Definition with_analyzer_at (v : analyzer → an_status) (s : State) : State :=
  {| handler := handler s; cls := cls s; relevance_enabled := relevance_enabled s; decon_obj :=
     decon_obj s; answers := answers s; fastTrackRanker := fastTrackRanker s; regularRanker :=
     regularRanker s; runQuery_at := runQuery_at s; fastTrack_at := fastTrack_at s; analyzer_at :=
     v; gen_items := gen_items s; gen_item_at := gen_item_at s |}.

Definition with_gen_items (v : list item) (s : State) : State :=
  {| handler := handler s; cls := cls s; relevance_enabled := relevance_enabled s; decon_obj :=
     decon_obj s; answers := answers s; fastTrackRanker := fastTrackRanker s; regularRanker :=
     regularRanker s; runQuery_at := runQuery_at s; fastTrack_at := fastTrack_at s; analyzer_at :=
     analyzer_at s; gen_items := v; gen_item_at := gen_item_at s |}.

Definition with_gen_item_at (v : list gi_status) (s : State) : State :=
  {| handler := handler s; cls := cls s; relevance_enabled := relevance_enabled s; decon_obj :=
     decon_obj s; answers := answers s; fastTrackRanker := fastTrackRanker s; regularRanker :=
     regularRanker s; runQuery_at := runQuery_at s; fastTrack_at := fastTrack_at s; analyzer_at :=
     analyzer_at s; gen_items := gen_items s; gen_item_at := v |}.

Definition with_ranker_obj (rk : Ranking) (r : RankerRun) : RankerRun :=
  {| ranker := rk; item_at := item_at r; do_at := do_at r |}.

Definition with_item_at (i : nat) (st : ri_status) (r : RankerRun) : RankerRun :=
  {| ranker := ranker r; item_at := <[i := st]> (item_at r); do_at := do_at r |}.

Definition with_do_at (st : do_status) (r : RankerRun) : RankerRun :=
  {| ranker := ranker r; item_at := item_at r; do_at := st |}.

(** The fast-track ranker is [handler.fastTrackRanker]; the regular one is
    the object [get_ranked_answers] builds. *)
Definition ranker_of (t : track) (s : State) : option RankerRun :=
  match t with
  | FAST_TRACK => fastTrackRanker s
  | REGULAR_TRACK => regularRanker s
  end.

Definition with_ranker (t : track) (r : RankerRun) (s : State) : State :=
  with_regularRanker (match t with REGULAR_TRACK => Some r | FAST_TRACK => regularRanker s end)
    (with_fastTrackRanker (match t with FAST_TRACK => Some r | REGULAR_TRACK => fastTrackRanker s end)
       s).

(** [ranking_type == FAST_TRACK and abort_fast_track_event.is_set()] *)
Definition aborted (t : track) (h : Handler) : bool :=
  bool_decide (t = FAST_TRACK) && abort_fast_track_event h.

(** ** [runQuery] after the ranking (baseHandler.py, post_ranking.py) *)

(** The end of [runQuery]: [return_value["query_id"] = query_id]. *)
Definition finalize (s : State) : State :=
  let h := handler s in
  with_runQuery_at OReturned
    (with_handler (set_return_value (<["query_id" := PStr (query_id (req h))]> (return_value h)) h) s).

(** [post_ranking_tasks], up to the prompt of [SummarizeResults]. *)
Definition post_ranking_tasks (s : State) : State :=
  let h := handler s in
  if negb (connection_alive_event h) then finalize (with_handler (set_query_done true h) s)
  else if String.eqb (generate_mode (req h)) "none" then finalize s
  else if String.eqb (generate_mode (req h)) "summarize" then
    with_runQuery_at OSummaryPrompt
      (with_handler (set_final_ranked_answers (take 3 (final_ranked_answers h)) h) s)
  else finalize s.

(** [Ranking.do] is over: control is back in the coroutine that awaited
    it.  [FastTrack.do] and [get_ranked_answers] both log and re-raise. *)
Definition finish_do (t : track) (r : res unit) (s : State) : State :=
  match t, r with
  | FAST_TRACK, Ok _ => with_fastTrack_at FtReturned s
  | FAST_TRACK, Err e => with_fastTrack_at (FtRaised e) s
  | REGULAR_TRACK, Ok _ => post_ranking_tasks s
  | REGULAR_TRACK, Err e => with_runQuery_at (ORaised e) s
  end.

(** ** [Ranking.do] and [Ranking.rankItem] as tasks *)

(** [Ranking(handler, items, t).do()] up to its first suspension: a task
    per item while the connection is alive, then the message on the sites
    being asked when the site is ["all"] or ["nlws"]. *)
Definition ranking_do_start (t : track) (its : list item) (s : State) : State :=
  let h := handler s in
  let tasks := if connection_alive_event h then replicate (length its) RiReady else [] in
  let sites := String.eqb (site (req h)) "all" || String.eqb (site (req h)) "nlws" in
  with_ranker t {| ranker := new_ranking its t; item_at := tasks;
                   do_at := if sites then DoSites else DoGather |} s.

Definition rank_sites (t : track) (w : write_outcome) (s : State) : option State :=
  r ← ranker_of t s;
  match do_at r with
  | DoSites =>
      match send_message (asking_sites (items (ranker r))) w (handler s) with
      | Ok h' => Some (with_ranker t (with_do_at DoGather r) (with_handler h' s))
      | Err e => Some (finish_do t (Err e) (with_ranker t (with_do_at DoFinished r) s))
      end
  | _ => None
  end.

Definition rankItem_start (t : track) (i : nat) (s : State) : option State :=
  r ← ranker_of t s;
  st ← item_at r !! i;
  match st with
  | RiReady =>
      let h := handler s in
      let st' := if negb (connection_alive_event h) then RiFinished
                 else if aborted t h then RiFinished
                 else RiLlm in
      Some (with_ranker t (with_item_at i st' r) s)
  | _ => None
  end.

(** What the body of [rankItem]'s [try] gets from the LLM: an exception
    (also from finding, trimming or filling the prompt) or an object. *)
Inductive rank_outcome : Type :=
  | RankRaises
  | RankAnswers (ranking : gmap string pyval).

(** The integer a value is compared as; a value that is no number raises. *)
Definition as_int (v : pyval) : res Z :=
  match v with
  | PInt z => Ok z
  | PBool b => Ok (if b then 1 else 0)
  | _ => Err TypeError
  end.

(** [ranking["score"]] as an integer. *)
Definition score_of (ranking : gmap string pyval) : res Z :=
  match getitem ranking "score" with
  | Ok v => as_int v
  | Err e => Err e
  end.

Definition append_ranked (a : nat) (rk : Ranking) : Ranking :=
  set_rankedAnswers (rankedAnswers rk ++ [a]) rk.

(** [rankItem] from the LLM's answer on: build [ansr], send it early when
    its score is above the threshold (the first half of [sendAnswers], up
    to the barrier), append it to [rankedAnswers].  Every exception raised
    in between is logged by [except Exception] and the task ends. *)
Definition rankItem_llm (t : track) (i : nat) (o : rank_outcome) (s : State) : option State :=
  r ← ranker_of t s;
  st ← item_at r !! i;
  it ← items (ranker r) !! i;
  match st with
  | RiLlm =>
      let h := handler s in
      let swallowed := with_ranker t (with_item_at i RiFinished r) in
      let appended (a : nat) :=
        with_ranker t (with_item_at i RiFinished (with_ranker_obj (append_ranked a (ranker r)) r)) in
      match o with
      | RankRaises => Some (swallowed s)
      | RankAnswers ranking =>
          match item_schema it, score_of ranking with
          | Some schema, Ok z =>
              let ansr := {| ans_url := item_url it; ans_site := item_site it;
                             ans_name := item_name it; ans_score := z;
                             ans_description := ranking !! "description";
                             ans_schema_object := schema; ans_sent := false |} in
              let a := length (answers s) in
              let store := answers s ++ [ansr] in
              if EARLY_SEND_THRESHOLD <? z then
                if negb (connection_alive_event h) then Some (appended a (with_answers store s))
                else if aborted t h then Some (appended a (with_answers store s))
                else
                  match select_answers (ranker r) false [a] store [] with
                  | (store', Err _) => Some (swallowed (with_answers store' s))
                  | (store', Ok []) => Some (appended a (with_answers store' s))
                  | (store', Ok json_results) =>
                      Some (with_ranker t (with_item_at i (RiBarrier a json_results) r)
                              (with_answers store' s))
                  end
              else Some (appended a (with_answers store s))
          | _, _ => Some (swallowed s)
          end
      end
  | _ => None
  end.

(** [sendAnswers] wakes up at the barrier: enabled once
    [pre_checks_done_event] is set. *)
Definition rankItem_barrier (t : track) (i : nat) (s : State) : option State :=
  r ← ranker_of t s;
  st ← item_at r !! i;
  match st with
  | RiBarrier a json_results =>
      let h := handler s in
      if negb (pre_checks_done_event h) then None
      else if aborted t h then
        Some (with_ranker t
                (with_item_at i RiFinished (with_ranker_obj (append_ranked a (ranker r)) r)) s)
      else
        let h := if bool_decide (t = FAST_TRACK) then set_fastTrackWorked true h else h in
        Some (with_ranker t (with_item_at i (RiWrite a json_results) r) (with_handler h s))
  | _ => None
  end.

(** The write of an early [result_batch], then the rest of [sendAnswers]
    and of [rankItem]. *)
Definition rankItem_sent (t : track) (i : nat) (w : write_outcome) (s : State) : option State :=
  r ← ranker_of t s;
  st ← item_at r !! i;
  match st with
  | RiWrite a json_results =>
      let h := handler s in
      let rk := ranker r in
      match send_message (result_batch json_results h) w h with
      | Ok h' =>
          let rk := set_num_results_sent (num_results_sent rk + length json_results) rk in
          Some (with_ranker t (with_item_at i RiFinished (with_ranker_obj (append_ranked a rk) r))
                  (with_handler h' s))
      | Err _ =>
          Some (with_ranker t (with_item_at i RiFinished (with_ranker_obj (append_ranked a rk) r))
                  (with_handler (set_connection_alive_event false h) s))
      end
  | _ => None
  end.

Definition ri_finished (st : ri_status) : bool :=
  match st with RiFinished => true | _ => false end.

(** [gather] over the [rankItem] tasks returns. *)
Definition rank_gathered (t : track) (s : State) : option State :=
  r ← ranker_of t s;
  match do_at r with
  | DoGather =>
      if negb (forallb ri_finished (item_at r)) then None
      else if negb (connection_alive_event (handler s))
      then Some (finish_do t (Ok ()) (with_ranker t (with_do_at DoFinished r) s))
      else Some (with_ranker t (with_do_at DoBarrier r) s)
  | _ => None
  end.

(** [do] wakes up at the barrier and prepares the final flush: the first
    half of [sendAnswers(tosend, force=True)], which does not wait since
    the event is set. *)
Definition rank_barrier (t : track) (s : State) : option State :=
  r ← ranker_of t s;
  match do_at r with
  | DoBarrier =>
      let h := handler s in
      let rk := ranker r in
      let finished res' (s : State) := finish_do t res' (with_ranker t (with_do_at DoFinished r) s) in
      if negb (pre_checks_done_event h) then None
      else if aborted t h then Some (finished (Ok ()) s)
      else
        let h := set_final_ranked_answers (top_ranked rk (answers s)) h in
        let s := with_handler h s in
        match final_batch rk (answers s) with
        | None => Some (finished (Ok ()) s)
        | Some tosend =>
            if negb (connection_alive_event h) then Some (finished (Ok ()) s)
            else if aborted t h then Some (finished (Ok ()) s)
            else
              match select_answers rk true tosend (answers s) [] with
              | (store', Err e) => Some (finished (Err e) (with_answers store' s))
              | (store', Ok []) => Some (finished (Ok ()) (with_answers store' s))
              | (store', Ok json_results) =>
                  let h := if bool_decide (t = FAST_TRACK) then set_fastTrackWorked true h else h in
                  Some (with_ranker t (with_do_at (DoWrite json_results) r)
                          (with_handler h (with_answers store' s)))
              end
        end
  | _ => None
  end.

(** The write of the final [result_batch], then the end of [do]. *)
Definition rank_sent (t : track) (w : write_outcome) (s : State) : option State :=
  r ← ranker_of t s;
  match do_at r with
  | DoWrite json_results =>
      let h := handler s in
      let rk := ranker r in
      match send_message (result_batch json_results h) w h with
      | Ok h' =>
          let rk := set_num_results_sent (num_results_sent rk + length json_results) rk in
          Some (finish_do t (Ok ())
                  (with_ranker t (with_do_at DoFinished (with_ranker_obj rk r)) (with_handler h' s)))
      | Err _ =>
          Some (finish_do t (Ok ())
                  (with_ranker t (with_do_at DoFinished r)
                     (with_handler (set_connection_alive_event false h) s)))
      end
  | _ => None
  end.

(** ** [FastTrack.do] as a task (fastTrack.py) *)

Definition fastTrack_start (s : State) : option State :=
  match fastTrack_at s with
  | FtReady =>
      let h := handler s in
      if negb (is_fastTrack_eligible h) then Some (with_fastTrack_at FtReturned s)
      else Some (with_fastTrack_at FtSearch (with_handler (set_retrieval_done_event true h) s))
  | _ => None
  end.

Definition fastTrack_searched (found : res (list item)) (s : State) : option State :=
  match fastTrack_at s with
  | FtSearch =>
      match found with
      | Err e => Some (with_fastTrack_at (FtRaised e) s)
      | Ok its =>
          Some (with_fastTrack_at (FtWaitDecon its)
                  (with_handler (set_final_retrieved_items its (handler s)) s))
      end
  | _ => None
  end.

(** [wait_for_decontextualization] returns: enabled once the
    decontextualization event is set. *)
Definition fastTrack_decon (s : State) : option State :=
  match fastTrack_at s with
  | FtWaitDecon its =>
      let h := handler s in
      let proceed := negb (query_done h) && negb (abort_fast_track_event h) in
      let rank := ranking_do_start FAST_TRACK its (with_fastTrack_at FtRanking s) in
      if negb (decon_event h) then None
      else if is_decontextualization_done h then
        if requires_decontextualization h then
          Some (with_fastTrack_at FtReturned (with_handler (set_abort_fast_track_event true h) s))
        else if proceed then Some rank
        else Some (with_fastTrack_at FtReturned s)
      else if proceed then Some rank
      else Some (with_fastTrack_at FtReturned s)
  | _ => None
  end.

(** The five seconds of [wait_for] are over. *)
Definition fastTrack_timeout (s : State) : option State :=
  match fastTrack_at s with
  | FtWaitDecon _ => Some (with_fastTrack_at FtReturned s)
  | _ => None
  end.

(** ** [runQuery] and [prepare] (baseHandler.py, generate_answer.py) *)

(** The constructors of the decontextualizers.  All of them register the
    step ["Decon"]; [ContextUrlDecontextualizer.__init__] (and with it
    [FullDecontextualizer.__init__]) then calls [retriever.DBItemRetriever],
    which retrieval/retriever.py does not define. *)
Definition construct (d : decontextualizer) : res unit :=
  match d with
  | NoOpDecontextualizer => Ok ()
  | PrevQueryDecontextualizer => Ok ()
  | ContextUrlDecontextualizer => Err AttributeError
  | FullDecontextualizer => Err AttributeError
  end.

Definition register (l : list analyzer) (h : Handler) : Handler :=
  foldl (λ h a, start_precheck_step (STEP_NAME a) h) h l.

Definition created (l : list analyzer) : analyzer → an_status :=
  λ a, if bool_decide (a ∈ l) then AnReady else AnAbsent.

(** [runQuery] up to the [gather] of [prepare]: the constructors run, in
    the order of the source, each registering its step; the tasks are
    created and none has run yet.  An analyzer built after a constructor
    that raises does not exist. *)
Definition runQuery_start (s : State) : option State :=
  match runQuery_at s with
  | ONew =>
      let before :=
        match cls s with
        | NLWebHandler => [DetectItemType; DetectMultiItemTypeQuery; DetectQueryType]
        | GenerateAnswer => [DetectItemType]
        end in
      let after := [RelevanceDetection; Memory; RequiredInfo] in
      let ft := match cls s with NLWebHandler => FtReady | GenerateAnswer => FtAbsent end in
      let h := register before (handler s) in
      let dh := decontextualizeQuery h in
      let h := start_precheck_step (STEP_NAME Decontextualize) (snd dh) in
      let s := with_fastTrack_at ft (with_decon_obj (fst dh) s) in
      match construct (fst dh) with
      | Err e =>
          Some (with_runQuery_at (ORaised e)
                  (with_analyzer_at (created before) (with_handler h s)))
      | Ok _ =>
          Some (with_runQuery_at OGather
                  (with_analyzer_at (created (before ++ Decontextualize :: after))
                     (with_handler (register after h) s)))
      end
  | _ => None
  end.

Definition an_finished (st : an_status) : bool :=
  match st with AnAbsent | AnReturned | AnRaised _ => true | _ => false end.

Definition ft_finished (st : ft_status) : bool :=
  match st with FtAbsent | FtReturned | FtRaised _ => true | _ => false end.

Definition all_analyzers : list analyzer :=
  [DetectItemType; DetectMultiItemTypeQuery; DetectQueryType; Decontextualize;
   RelevanceDetection; Memory; RequiredInfo].

(** Every task [prepare] gathers has returned or raised. *)
Definition tasks_finished (s : State) : bool :=
  ft_finished (fastTrack_at s) && forallb (λ a, an_finished (analyzer_at s a)) all_analyzers.

(** [runQuery] of [NLWebHandler] once [prepare] has returned. *)
Definition after_prepare (s : State) : State :=
  let h := handler s in
  if query_done h then with_runQuery_at OReturned s
  else if negb (fastTrackWorked h) then
    ranking_do_start REGULAR_TRACK (final_retrieved_items h) (with_runQuery_at ORanking s)
  else post_ranking_tasks s.

(** [gather] returns, with the results and the exceptions of the tasks:
    the [finally] of [prepare] sets the barrier event whatever they were. *)
Definition prepare_gathered (s : State) : option State :=
  match runQuery_at s with
  | OGather =>
      if negb (tasks_finished s) then None
      else
        let h := set_pre_checks_done (set_pre_checks_done_event true (handler s)) in
        let s := with_handler h s in
        match cls s with
        | NLWebHandler =>
            if negb (retrieval_done_event h) then Some (with_runQuery_at OSearch s)
            else Some (after_prepare s)
        | GenerateAnswer =>
            if query_done h then Some (with_runQuery_at OReturned s)
            else Some (with_runQuery_at GSearch s)
        end
  | _ => None
  end.

Definition prepare_searched (found : res (list item)) (s : State) : option State :=
  match runQuery_at s with
  | OSearch =>
      match found with
      | Err e => Some (with_runQuery_at (ORaised e) s)
      | Ok its =>
          let h := set_retrieval_done_event true (set_final_retrieved_items its (handler s)) in
          Some (after_prepare (with_handler h s))
      end
  | _ => None
  end.

Definition summary (text : pyval) : gmap string pyval :=
  <["message_type" := PStr "summary"]> (<["message" := text]> ∅).

(** [SummarizeResults.do] from the return of [run_prompt]. *)
Definition summary_prompt (o : prompt_outcome) (s : State) : option State :=
  match runQuery_at s with
  | OSummaryPrompt =>
      match run_prompt o with
      | Some r =>
          if truthy (Some r) then
            match getitem r "summary" with
            | Err e => Some (with_runQuery_at (ORaised e) s)
            | Ok text => Some (with_runQuery_at (OSummarySend text) s)
            end
          else Some (finalize s)
      | None => Some (finalize s)
      end
  | _ => None
  end.

Definition summary_sent (w : write_outcome) (s : State) : option State :=
  match runQuery_at s with
  | OSummarySend text =>
      match send_message (summary text) w (handler s) with
      | Err e => Some (with_runQuery_at (ORaised e) s)
      | Ok h' => Some (finalize (with_handler (precheck_step_done "post_ranking" h') s))
      end
  | _ => None
  end.

(** ** [GenerateAnswer] (generate_answer.py) *)

Definition GATHER_ITEMS_THRESHOLD : Z := 55.

Definition gen_searched (found : res (list item)) (s : State) : option State :=
  match runQuery_at s with
  | GSearch =>
      match found with
      | Err e => Some (with_runQuery_at (ORaised e) s)
      | Ok its =>
          Some (with_runQuery_at GRanking
                  (with_gen_item_at (replicate (length its) GiReady) (with_gen_items its s)))
      end
  | _ => None
  end.

Definition genItem_start (i : nat) (s : State) : option State :=
  st ← gen_item_at s !! i;
  match st with
  | GiReady =>
      let st' := if negb (connection_alive_event (handler s)) then GiFinished else GiLlm in
      Some (with_gen_item_at (<[i := st']> (gen_item_at s)) s)
  | _ => None
  end.

(** [GenerateAnswer.rankItem] from the LLM's answer on; its exceptions are
    logged and dropped. *)
Definition genItem_llm (i : nat) (o : rank_outcome) (s : State) : option State :=
  st ← gen_item_at s !! i;
  it ← gen_items s !! i;
  match st with
  | GiLlm =>
      let s := with_gen_item_at (<[i := GiFinished]> (gen_item_at s)) s in
      match o with
      | RankRaises => Some s
      | RankAnswers ranking =>
          match item_schema it, score_of ranking with
          | Some schema, Ok z =>
              let ansr := {| ans_url := item_url it; ans_site := item_site it;
                             ans_name := item_name it; ans_score := z;
                             ans_description := ranking !! "description";
                             ans_schema_object := schema; ans_sent := false |} in
              let a := length (answers s) in
              let s := with_answers (answers s ++ [ansr]) s in
              let h := handler s in
              if GATHER_ITEMS_THRESHOLD <? z
              then Some (with_handler (set_final_ranked_answers (final_ranked_answers h ++ [a]) h) s)
              else Some s
          | _, _ => Some s
          end
      end
  | _ => None
  end.

Definition nlws (answer : pyval) (its : list pyval) : gmap string pyval :=
  <["message_type" := PStr "nlws"]> (<["answer" := answer]> (<["items" := PList its]> ∅)).

Definition gen_message (m : gen_send) : gmap string pyval :=
  match m with
  | SendFallback =>
      nlws (PStr "I couldn't find relevant information to answer your question.") []
  | SendFirst answer _ => nlws answer []
  | SendFinal answer json_results => nlws answer json_results
  | SendError _ =>
      nlws (PStr "I encountered an error while generating your answer. Please try again.") []
  end.

(** The [except Exception] of [synthesizeAnswer]: an error message is sent
    while the connection is alive, then the exception is raised again. *)
Definition gen_error (e : exn) (s : State) : State :=
  if connection_alive_event (handler s)
  then with_runQuery_at (GSend (SendError e)) s
  else with_runQuery_at (ORaised e) s.

(** [gather] over the [rankItem] tasks returns; [synthesizeAnswer] starts. *)
Definition gen_gathered (s : State) : option State :=
  match runQuery_at s with
  | GRanking =>
      let h := handler s in
      if negb (forallb (λ st, match st with GiFinished => true | _ => false end) (gen_item_at s))
      then None
      else if negb (connection_alive_event h) then Some (finalize s)
      else
        match final_ranked_answers h with
        | [] => Some (with_runQuery_at (GSend SendFallback) s)
        | _ => Some (with_runQuery_at GSynthPrompt s)
        end
  | _ => None
  end.

Definition gen_synth (o : prompt_outcome) (s : State) : option State :=
  match runQuery_at s with
  | GSynthPrompt =>
      match run_prompt o with
      | None => Some (gen_error TypeError s)
      | Some response =>
          match getitem response "answer" with
          | Err e => Some (gen_error e s)
          | Ok answer => Some (with_runQuery_at (GSend (SendFirst answer response)) s)
          end
      end
  | _ => None
  end.

(** Truth value of a Python value. *)
Definition py_truthy (v : pyval) : bool :=
  match v with
  | PNone => false
  | PBool b => b
  | PInt z => negb (z =? 0)
  | PStr s => negb (String.eqb s "")
  | PList l => match l with [] => false | _ => true end
  | PDict d => negb (Nat.eqb (size d) 0)
  end.

(** [for url in v]: a string yields its characters, a dict its keys (here
    in the order of the map, not of insertion), a number raises. *)
Definition py_iter (v : pyval) : res (list pyval) :=
  match v with
  | PList l => Ok l
  | PStr s => Ok ((λ c, PStr (String c EmptyString)) <$> String.list_ascii_of_string s)
  | PDict d => Ok ((λ kv, PStr (fst kv)) <$> map_to_list d)
  | _ => Err TypeError
  end.

(** The items the description tasks are created for: for each url of the
    answer the first retrieved item with that url, if there is one. *)
Definition matching (its : list item) (urls : list pyval) : list item :=
  omap (λ url, head (filter (λ it, py_eq_str url (item_url it) = true) its)) urls.

Definition gen_sent (w : write_outcome) (s : State) : option State :=
  match runQuery_at s with
  | GSend m =>
      let sent := send_message (gen_message m) w (handler s) in
      match m, sent with
      | SendError e, Ok h' => Some (with_runQuery_at (ORaised e) (with_handler h' s))
      | SendError e, Err _ => Some (with_runQuery_at (ORaised e) s)
      | _, Err e => Some (gen_error e s)
      | SendFallback, Ok h' => Some (finalize (with_handler h' s))
      | SendFinal _ _, Ok h' => Some (finalize (with_handler h' s))
      | SendFirst answer response, Ok h' =>
          let s := with_handler h' s in
          match response !! "urls" with
          | Some urls =>
              if py_truthy urls then
                match py_iter urls with
                | Err e => Some (gen_error e s)
                | Ok l =>
                    match matching (gen_items s) l with
                    | [] => Some (finalize s)
                    | matched => Some (with_runQuery_at (GDescriptions answer matched) s)
                    end
                end
              else Some (finalize s)
          | None => Some (finalize s)
          end
      end
  | _ => None
  end.

(** What [getDescription] returns for an item, [None] when it raises
    (a missing prompt or answer, or an answer without [description]). *)
Definition getDescription (it : item) (o : prompt_outcome) : option (item * pyval) :=
  r ← run_prompt o;
  d ← r !! "description";
  Some (it, d).

(** An element of the [items] of the last [nlws] message; parsing the
    item's JSON may raise. *)
Definition described (x : item * pyval) : res pyval :=
  match item_schema (fst x) with
  | None => Err ValueError
  | Some schema =>
      Ok (PDict (<["url" := PStr (item_url (fst x))]>
                (<["name" := PStr (item_name (fst x))]>
                (<["description" := snd x]>
                (<["site" := PStr (item_site (fst x))]>
                (<["schema_object" := schema]> ∅))))))
  end.

Fixpoint collect (l : list (item * pyval)) (json_results : list pyval) : res (list pyval) :=
  match l with
  | [] => Ok json_results
  | x :: l' =>
      match described x with
      | Err e => Err e
      | Ok j => collect l' (json_results ++ [j])
      end
  end.

(** [gather] over the description tasks returns; [outs] is what happened
    in each, in the order of the tasks. *)
Definition gen_descriptions (outs : list prompt_outcome) (s : State) : option State :=
  match runQuery_at s with
  | GDescriptions answer matched =>
      if negb (length outs =? length matched)%nat then None
      else
        let desc_answers := omap (λ x, getDescription (fst x) (snd x)) (zip matched outs) in
        match collect desc_answers [] with
        | Err e => Some (gen_error e s)
        | Ok json_results =>
            Some (with_runQuery_at (GSend (SendFinal answer json_results)) s)
        end
  | _ => None
  end.

(** ** Runs of a request *)

Definition analyzer_start (a : analyzer) (s : State) : option State :=
  match analyzer_at s a with
  | AnReady =>
      let hs := analyzer_begin a (decon_obj s) (relevance_enabled s) (handler s) in
      Some (with_analyzer_at (<[a := snd hs]> (analyzer_at s)) (with_handler (fst hs) s))
  | _ => None
  end.

Definition analyzer_prompt (a : analyzer) (o : prompt_outcome) (s : State) : option State :=
  match analyzer_at s a with
  | AnPrompt =>
      let hs := analyzer_resume a (decon_obj s) o (handler s) in
      Some (with_analyzer_at (<[a := snd hs]> (analyzer_at s)) (with_handler (fst hs) s))
  | _ => None
  end.

Definition analyzer_write (a : analyzer) (w : write_outcome) (s : State) : option State :=
  match analyzer_at s a with
  | AnSend message =>
      let hs := analyzer_sent a message w (handler s) in
      Some (with_analyzer_at (<[a := snd hs]> (analyzer_at s)) (with_handler (fst hs) s))
  | _ => None
  end.

(** One step of the event loop: the task that is resumed and what it is
    resumed with. *)
Inductive action : Type :=
  | RunQuery
  | Analyzer_start (a : analyzer)
  | Analyzer_prompt (a : analyzer) (o : prompt_outcome)
  | Analyzer_sent (a : analyzer) (w : write_outcome)
  | FastTrack_start
  | FastTrack_searched (found : res (list item))
  | FastTrack_decon
  | FastTrack_timeout
  | Rank_sites (t : track) (w : write_outcome)
  | RankItem_start (t : track) (i : nat)
  | RankItem_llm (t : track) (i : nat) (o : rank_outcome)
  | RankItem_barrier (t : track) (i : nat)
  | RankItem_sent (t : track) (i : nat) (w : write_outcome)
  | Rank_gathered (t : track)
  | Rank_barrier (t : track)
  | Rank_sent (t : track) (w : write_outcome)
  | Prepare_gathered
  | Prepare_searched (found : res (list item))
  | Summary_prompt (o : prompt_outcome)
  | Summary_sent (w : write_outcome)
  | Gen_searched (found : res (list item))
  | GenItem_start (i : nat)
  | GenItem_llm (i : nat) (o : rank_outcome)
  | Gen_gathered
  | Gen_synth (o : prompt_outcome)
  | Gen_sent (w : write_outcome)
  | Gen_descriptions (outs : list prompt_outcome).

(** [step a s] is [None] when the task of [a] is not waiting there. *)
Definition step (a : action) (s : State) : option State :=
  match a with
  | RunQuery => runQuery_start s
  | Analyzer_start a => analyzer_start a s
  | Analyzer_prompt a o => analyzer_prompt a o s
  | Analyzer_sent a w => analyzer_write a w s
  | FastTrack_start => fastTrack_start s
  | FastTrack_searched found => fastTrack_searched found s
  | FastTrack_decon => fastTrack_decon s
  | FastTrack_timeout => fastTrack_timeout s
  | Rank_sites t w => rank_sites t w s
  | RankItem_start t i => rankItem_start t i s
  | RankItem_llm t i o => rankItem_llm t i o s
  | RankItem_barrier t i => rankItem_barrier t i s
  | RankItem_sent t i w => rankItem_sent t i w s
  | Rank_gathered t => rank_gathered t s
  | Rank_barrier t => rank_barrier t s
  | Rank_sent t w => rank_sent t w s
  | Prepare_gathered => prepare_gathered s
  | Prepare_searched found => prepare_searched found s
  | Summary_prompt o => summary_prompt o s
  | Summary_sent w => summary_sent w s
  | Gen_searched found => gen_searched found s
  | GenItem_start i => genItem_start i s
  | GenItem_llm i o => genItem_llm i o s
  | Gen_gathered => gen_gathered s
  | Gen_synth o => gen_synth o s
  | Gen_sent w => gen_sent w s
  | Gen_descriptions outs => gen_descriptions outs s
  end.

Fixpoint run (schedule : list action) (s : State) : option State :=
  match schedule with
  | [] => Some s
  | a :: rest =>
      match step a s with
      | Some s' => run rest s'
      | None => None
      end
  end.

(** A request as its handler class is instantiated: nothing has run. *)
Definition init (c : handler_class) (relevance : bool) (r : Request) (dq : string) : State :=
  {| handler := new_handler r dq; cls := c; relevance_enabled := relevance;
     decon_obj := NoOpDecontextualizer; answers := []; fastTrackRanker := None;
     regularRanker := None; runQuery_at := ONew; fastTrack_at := FtAbsent;
     analyzer_at := λ _, AnAbsent; gen_items := []; gen_item_at := [] |}.

(** [s] is a state the request can be in. *)
Definition reachable (c : handler_class) (relevance : bool) (r : Request) (dq : string)
    (s : State) : Prop :=
  ∃ schedule, run schedule (init c relevance r dq) = Some s.

(** ** What the client has got *)

(** A message tagged [t] was written to the stream. *)
Definition streamed (t : string) (h : Handler) : bool :=
  existsb (message_type_is t) (stream h).

(** The key under which [aggregate] files messages tagged [t]. *)
Definition return_key (t : string) : string :=
  if bool_decide (t = "result_batch") then "results" else t.

(** A message tagged [t] reached the client: over the stream, or through
    [return_value] when the request does not stream. *)
Definition delivered (t : string) (h : Handler) : bool :=
  streamed t h || bool_decide (is_Some (return_value h !! return_key t)).

(** The number of ranked items in the [result_batch] messages of a stream. *)
Definition batch_size (message : gmap string pyval) : nat :=
  if message_type_is "result_batch" message then
    match message !! "results" with
    | Some (PList l) => length l
    | _ => 0
    end
  else 0.

Definition results_streamed (h : Handler) : nat :=
  foldr (λ m n, batch_size m + n)%nat 0%nat (stream h).

(** The score of an element of [json_results]. *)
Definition result_score (j : pyval) : option Z :=
  match j with
  | PDict d => match d !! "score" with Some (PInt z) => Some z | _ => None end
  | _ => None
  end.

(** [prepare] is past its [gather]. *)
Definition gathered (st : orch_status) : bool :=
  match st with
  | ONew | OGather => false
  | _ => true
  end.

(** ** Concrete requests *)

(** A first question to one site, streamed. *)
Definition simple_request : Request :=
  {| site := "seriouseats"; query := "pasta recipes"; prev_queries := [];
     context_url := ""; query_id := "q1"; streaming := true; http_handler := true;
     generate_mode := "none" |}.

(** A follow-up question. *)
Definition followup_request : Request :=
  {| site := "imdb"; query := "and 2000"; prev_queries := ["show me movies from 1999"];
     context_url := ""; query_id := "q2"; streaming := true; http_handler := true;
     generate_mode := "none" |}.

(** A question asked from the page of an item, with no earlier question. *)
Definition context_request : Request :=
  {| site := "imdb"; query := "who directed it"; prev_queries := [];
     context_url := "https://www.imdb.com/title/tt0133093/"; query_id := "q3";
     streaming := true; http_handler := true; generate_mode := "none" |}.

Definition an_item (n : nat) : item :=
  {| item_url := "https://example.org/" +:+ pretty n; item_json_str := "{}";
     item_name := "item " +:+ pretty n; item_site := "seriouseats";
     item_schema := Some (PDict ∅) |}.

(** An LLM ranking with the two keys of the answer schema. *)
Definition scored (z : Z) : rank_outcome :=
  RankAnswers (<["score" := PInt z]> (<["description" := PStr "relevant"]> ∅)).

(** The prechecks of a first question, none of whose prompts is found:
    every step ends DONE. *)
Definition quiet_prechecks : list action :=
  [Analyzer_start Decontextualize; Analyzer_start RelevanceDetection;
   Analyzer_start DetectItemType; Analyzer_prompt DetectItemType PromptNotFound;
   Analyzer_start DetectMultiItemTypeQuery;
   Analyzer_prompt DetectMultiItemTypeQuery PromptNotFound;
   Analyzer_start DetectQueryType; Analyzer_prompt DetectQueryType PromptNotFound;
   Analyzer_start Memory; Analyzer_prompt Memory PromptNotFound;
   Analyzer_start RequiredInfo; Analyzer_prompt RequiredInfo PromptNotFound].

(** ** Invariants of a request *)

Definition ri_writing (st : ri_status) : bool :=
  match st with RiWrite _ _ => true | _ => false end.

Definition do_writing (st : do_status) : bool :=
  match st with DoWrite _ => true | _ => false end.

(** A task of the ranker is past the barrier, about to write a batch. *)
Definition writing (r : option RankerRun) : bool :=
  match r with
  | Some r => existsb ri_writing (item_at r) || do_writing (do_at r)
  | None => false
  end.

(** The messages that carry answers. *)
Definition gated (t : string) : bool :=
  bool_decide (t ∈ ["result_batch"; "summary"; "nlws"]).

Definition writing_any (s : State) : bool :=
  writing (fastTrackRanker s) || writing (regularRanker s).

Definition is_new (st : orch_status) : bool :=
  match st with ONew => true | _ => false end.

(** ** Concrete runs *)

(** A first question answered by the fast track: two items, one sent
    early and one in the final flush. *)
Definition simple_run : list action :=
  [RunQuery; FastTrack_start; FastTrack_searched (Ok [an_item 0; an_item 1])]
  ++ quiet_prechecks ++
  [FastTrack_decon;
   RankItem_start FAST_TRACK 0; RankItem_start FAST_TRACK 1;
   RankItem_llm FAST_TRACK 0 (scored 80); RankItem_llm FAST_TRACK 1 (scored 55);
   RankItem_barrier FAST_TRACK 0; RankItem_sent FAST_TRACK 0 Delivered;
   Rank_gathered FAST_TRACK; Rank_barrier FAST_TRACK; Rank_sent FAST_TRACK Delivered;
   Prepare_gathered].

(** The prechecks of a follow-up question other than the
    decontextualizer, none of whose prompts is found. *)
Definition other_prechecks : list action :=
  [Analyzer_start RelevanceDetection;
   Analyzer_start DetectItemType; Analyzer_prompt DetectItemType PromptNotFound;
   Analyzer_start DetectMultiItemTypeQuery;
   Analyzer_prompt DetectMultiItemTypeQuery PromptNotFound;
   Analyzer_start DetectQueryType; Analyzer_prompt DetectQueryType PromptNotFound;
   Analyzer_start Memory; Analyzer_prompt Memory PromptNotFound;
   Analyzer_start RequiredInfo; Analyzer_prompt RequiredInfo PromptNotFound].

(** An LLM answer to the decontextualization prompt that lacks the key
    [requires_decontextualization]. *)
Definition answer_without_flag : prompt_outcome :=
  LlmAnswers (<["decontextualized_query" := PStr "show me movies from 2000"]> ∅).

(** An LLM answer that asks for the rewrite. *)
Definition answer_rewrite : prompt_outcome :=
  LlmAnswers (<["requires_decontextualization" := PStr "True"]>
             (<["decontextualized_query" := PStr "show me movies from 2000"]> ∅)).

(** A follow-up question whose decontextualizer raises on the LLM's
    answer; the other prechecks complete and [prepare] goes on. *)
Definition failed_decon_prepare : list action :=
  [RunQuery; FastTrack_start;
   Analyzer_start Decontextualize; Analyzer_prompt Decontextualize answer_without_flag]
  ++ other_prechecks ++ [Prepare_gathered].

(** The regular ranker on one retrieved item, sent early. *)
Definition regular_ranking : list action :=
  [Prepare_searched (Ok [an_item 0]);
   RankItem_start REGULAR_TRACK 0; RankItem_llm REGULAR_TRACK 0 (scored 80);
   RankItem_barrier REGULAR_TRACK 0; RankItem_sent REGULAR_TRACK 0 Delivered].

Definition failed_decon_run : list action := failed_decon_prepare ++ regular_ranking.

(** A follow-up question that is rewritten, then ranked on the regular
    track. *)
Definition rewrite_run : list action :=
  [RunQuery; FastTrack_start;
   Analyzer_start Decontextualize; Analyzer_prompt Decontextualize answer_rewrite;
   Analyzer_sent Decontextualize Delivered]
  ++ other_prechecks ++ [Prepare_gathered] ++ regular_ranking.

(** The fast track's retrieval fails. *)
Definition failed_search_run : list action :=
  [RunQuery; FastTrack_start; FastTrack_searched (Err ProviderError)].

(** The task of an analyzer has taken its decision: it will not write
    the flags of the handler any more. *)
Definition quiet (st : an_status) : bool :=
  match st with AnReady | AnPrompt => false | _ => true end.

(** The prechecks found that the query is not to be answered. *)
Definition stopped (h : Handler) : bool :=
  match required_info_found h with Some false => true | _ => false end
  || query_is_irrelevant h.

(** [FastTrack.do] is past its eligibility test and has not ended. *)
Definition ft_active (st : ft_status) : bool :=
  match st with FtSearch | FtWaitDecon _ | FtRanking => true | _ => false end.

(** An LLM answer of the required-information check that asks the user
    for more. *)
Definition answer_missing_info : prompt_outcome :=
  LlmAnswers (<["required_info_found" := PStr "False"]>
             (<["user_question" := PStr "Which city are you in?"]> ∅)).

(** A first question whose fast track has ranked an item and selected it
    for an early send when the required-information check stops the
    request: the task leaves at the barrier and nothing is written. *)
Definition ask_user_run : list action :=
  [RunQuery; FastTrack_start; FastTrack_searched (Ok [an_item 0]);
   Analyzer_start Decontextualize; FastTrack_decon;
   RankItem_start FAST_TRACK 0; RankItem_llm FAST_TRACK 0 (scored 80);
   Analyzer_start RelevanceDetection;
   Analyzer_start DetectItemType; Analyzer_prompt DetectItemType PromptNotFound;
   Analyzer_start DetectMultiItemTypeQuery;
   Analyzer_prompt DetectMultiItemTypeQuery PromptNotFound;
   Analyzer_start DetectQueryType; Analyzer_prompt DetectQueryType PromptNotFound;
   Analyzer_start Memory; Analyzer_prompt Memory PromptNotFound;
   Analyzer_start RequiredInfo; Analyzer_prompt RequiredInfo answer_missing_info;
   Analyzer_sent RequiredInfo Delivered;
   RankItem_barrier FAST_TRACK 0; Rank_gathered FAST_TRACK; Rank_barrier FAST_TRACK;
   Prepare_gathered].

(** ** Scores of references *)

(** The score of the answer a reference denotes. *)
Definition score_at (store : list answer) (r : nat) : Z :=
  from_option ans_score 0 (store !! r).

(** A list of references in descending order of score. *)
Definition descending (store : list answer) (l : list nat) : Prop :=
  StronglySorted (λ x y, score_at store y ≤ score_at store x) l.

(** ** A request that does not stream *)

(** The follow-up question, asked without streaming. *)
Definition batch_request : Request :=
  {| site := "imdb"; query := "and 2000"; prev_queries := ["show me movies from 1999"];
     context_url := ""; query_id := "q4"; streaming := false; http_handler := true;
     generate_mode := "none" |}.

(** The list under [return_value["results"]]. *)
Definition results_of (h : Handler) : list pyval :=
  match return_value h !! "results" with
  | Some (PList l) => l
  | _ => []
  end.

(** [return_value["results"]] is missing or a list, as [send_message]
    leaves it. *)
Definition results_wf (h : Handler) : Prop :=
  match return_value h !! "results" with
  | Some (PList _) | None => True
  | Some _ => False
  end.

(** ** The store of answers *)

(** [store'] is [store] with some answers marked sent, and nothing else. *)
Definition only_marks (store store' : list answer) : Prop :=
  length store' = length store ∧
  ∀ r a, store !! r = Some a →
         store' !! r = Some a ∨ store' !! r = Some (mark_sent a).

(** The answer [r] is marked sent. *)
Definition marked (store : list answer) (r : nat) : Prop :=
  ∃ a, store !! r = Some a ∧ ans_sent a = true.

(** An answer that has not been sent. *)
Definition an_answer (score : Z) : answer :=
  {| ans_url := "https://example.org/0"; ans_site := "seriouseats"; ans_name := "item 0";
     ans_score := score; ans_description := Some (PStr "relevant");
     ans_schema_object := PDict ∅; ans_sent := false |}.

(** [ask_user_run] up to the point where the task of the fast-track
    ranker has selected its answer and waits at the barrier. *)
Definition selected_run : list action := take 7 ask_user_run.

(** The state [ask_user_run] is in when the LLM is about to answer the
    ranking prompt of the fast track's item. *)
Definition before_selection : State :=
  Eval vm_compute in
    default (init NLWebHandler false simple_request "")
            (run (take 6 ask_user_run) (init NLWebHandler false simple_request "")).

(** ... and once the task has selected its answer and waits at the barrier. *)
Definition after_selection : State :=
  Eval vm_compute in
    default before_selection (rankItem_llm FAST_TRACK 0 (scored 80) before_selection).

(** A task of the regular ranker of [simple_request] about to write an
    early batch. *)
Definition about_to_write : State :=
  with_regularRanker
    (Some {| ranker := new_ranking [an_item 0] REGULAR_TRACK;
             item_at := [RiWrite 0 [json_result (an_answer 80) (PStr "relevant")]];
             do_at := DoGather |})
    (with_answers [mark_sent (an_answer 80)] (init NLWebHandler false simple_request "")).

(** ** Sites and item types (utils/utils.py) *)

Definition recipe_sites : list string :=
  ["seriouseats"; "hebbarskitchen"; "latam_recipes"; "woksoflife"; "cheftariq"; "spruce";
   "nytimes"].

Definition all_sites : list string :=
  recipe_sites ++ ["imdb"; "npr podcasts"; "neurips"; "backcountry"; "tripadvisor"].

(** The name [et] that [siteToItemType] puts after the namespace. *)
Definition site_et (site : string) : string :=
  if String.eqb site "imdb" then "Movie"
  else if bool_decide (site ∈ recipe_sites) then "Recipe"
  else if String.eqb site "npr podcasts" then "Thing"
  else if String.eqb site "neurips" then "Paper"
  else if String.eqb site "backcountry" then "Outdoor Gear"
  else if String.eqb site "tripadvisor" then "Restaurant"
  else if String.eqb site "zillow" then "RealEstate"
  else "Items".

(** [siteToItemType]: the f-string gives [{namespace}et]. *)
Definition siteToItemType (site : string) : string :=
  let namespace := "http://nlweb.ai/base" in
  "{" +:+ namespace +:+ "}" +:+ site_et site.

(** [itemTypeToSite]: the sites of [all_sites], in order, whose type is
    [item_type]. *)
Definition itemTypeToSite (item_type : string) : list string :=
  filter (λ site, siteToItemType site = item_type) all_sites.

(** ** Trimming schema.org objects (utils/trim.py) *)

(** [sub in s] for two strings. *)
Fixpoint contains (sub s : string) : bool :=
  String.prefix sub s ||
  match s with
  | EmptyString => false
  | String _ s' => contains sub s'
  end.

(** [x in container] for a string [x]: a key of a dict, a substring of a
    string, an element of a list; any other value is not iterable. *)
Definition py_in_str (x : string) (container : pyval) : res bool :=
  match container with
  | PDict d => Ok (bool_decide (is_Some (d !! x)))
  | PStr s => Ok (contains x s)
  | PList l => Ok (existsb (λ v, py_eq_str v x) l)
  | _ => Err TypeError
  end.

Definition listify (item : pyval) : pyval :=
  match item with
  | PList _ => item
  | _ => PList [item]
  end.

Definition recipe_skipAttrs : list string :=
  ["mainEntityOfPage"; "publisher"; "image"; "datePublished"; "dateModified"; "author"].

Definition recipe_hard_skipAttrs : list string :=
  ["mainEntityOfPage"; "publisher"; "image"; "datePublished"; "dateModified"; "review";
   "author"; "recipeYield"; "recipeInstructions"; "nutrition"].

Definition movie_skipAttrs (hard : bool) : list string :=
  ["mainEntityOfPage"; "publisher"; "image"; "datePublished"; "dateModified"; "author";
   "trailer"]
  ++ (if hard then ["actor"; "director"; "creator"; "review"] else []).

(** [collateObjAttr]: the values of [items] are lists.  An object that is
    no dict has no [keys()]. *)
Definition collateObjAttr (obj : pyval) : res (gmap string (list pyval)) :=
  match obj with
  | PDict d =>
      Ok (map_fold (λ attr v items,
                      match items !! attr with
                      | Some l => <[attr := l ++ [v]]> items
                      | None => <[attr := [v]]> items
                      end) ∅ d)
  | _ => Err AttributeError
  end.

(** The body of the loop of [trim_movie].  [items[attr]] is a list, so
    ["name" in items[attr]] looks for an element equal to ["name"], and
    [items[attr]["name"]] then indexes a list by a string.  For [review]
    the loop runs over the list just emptied. *)
Definition trim_movie_attr (skipAttrs : list string) (attr : string) (l : list pyval)
    (js : res (gmap string (list pyval))) : res (gmap string (list pyval)) :=
  match js with
  | Err e => Err e
  | Ok js =>
      if bool_decide (attr ∈ skipAttrs) then Ok js
      else if bool_decide (attr ∈ ["actor"; "director"; "creator"]) then
        if existsb (λ v, py_eq_str v "name") l then Err TypeError else Ok js
      else if bool_decide (attr = "review") then Ok js
      else Ok (<[attr := l]> js)
  end.

(** The dict [js] as a value. *)
Definition js_dict (js : gmap string (list pyval)) : pyval := PDict (PList <$> js).

Definition trim_recipe_hard (obj : pyval) : res pyval :=
  match collateObjAttr obj with
  | Err e => Err e
  | Ok items => Ok (js_dict (filter (λ kv, kv.1 ∉ recipe_hard_skipAttrs) items))
  end.

Definition trim_movie (obj : pyval) (hard : bool) : res pyval :=
  match collateObjAttr obj with
  | Err e => Err e
  | Ok items =>
      match map_fold (trim_movie_attr (movie_skipAttrs hard)) (Ok ∅) items with
      | Err e => Err e
      | Ok js => Ok (js_dict js)
      end
  end.

(** [objType]: [obj["@type"] if "@type" in obj else ["Thing"]], made a list. *)
Definition objType_of (obj : pyval) : res (list pyval) :=
  match py_in_str "@type" obj with
  | Err e => Err e
  | Ok false => Ok [PStr "Thing"]
  | Ok true =>
      match obj with
      | PDict d =>
          match getitem d "@type" with
          | Ok (PList l) => Ok l
          | Ok v => Ok [v]
          | Err e => Err e
          end
      | _ => Err TypeError
      end
  end.

(** [objType == ["Thing"]] *)
Definition is_thing (objType : list pyval) : bool :=
  match objType with
  | [v] => py_eq_str v "Thing"
  | _ => false
  end.

Section trim.
(** [json.loads] on a string: [None] when it raises [JSONDecodeError]. *)
Variable json_loads : string → option pyval.

Definition jsonify (obj : pyval) : pyval :=
  match obj with
  | PStr s => match json_loads s with Some v => v | None => obj end
  | _ => obj
  end.

Definition trim_recipe (obj : pyval) : res pyval :=
  let obj := jsonify obj in
  match collateObjAttr obj with
  | Err e => Err e
  | Ok items => Ok (js_dict (filter (λ kv, kv.1 ∉ recipe_skipAttrs) items))
  end.

Definition trim_json (obj : pyval) : res pyval :=
  let obj := jsonify obj in
  match objType_of obj with
  | Err e => Err e
  | Ok objType =>
      if is_thing objType then Ok obj
      else if existsb (λ v, py_eq_str v "Recipe") objType then trim_recipe obj
      else if existsb (λ v, py_eq_str v "Movie") objType
              || existsb (λ v, py_eq_str v "TVSeries") objType
      then trim_movie obj false
      else Ok obj
  end.

Definition trim_json_hard (obj : pyval) : res pyval :=
  let obj := jsonify obj in
  match objType_of obj with
  | Err e => Err e
  | Ok objType =>
      if is_thing objType then Ok obj
      else if existsb (λ v, py_eq_str v "Recipe") objType then trim_recipe_hard obj
      else if existsb (λ v, py_eq_str v "Movie") objType
              || existsb (λ v, py_eq_str v "TVSeries") objType
      then trim_movie obj true
      else Ok obj
  end.
End trim.

(** Some attribute among [actor], [director], [creator] is the string
    ["name"]. *)
Definition names_a_name (d : gmap string pyval) : Prop :=
  ∃ attr, attr ∈ ["actor"; "director"; "creator"] ∧ d !! attr = Some (PStr "name").

(** A movie, and a parser that knows no string. *)
Definition a_movie : gmap string pyval :=
  <["@type" := PStr "Movie"]>
  (<["name" := PStr "The Matrix"]>
  (<["actor" := PDict (<["name" := PStr "Keanu Reeves"]> ∅)]>
  (<["image" := PStr "matrix.jpg"]> ∅))).

Definition no_json : string → option pyval := λ _, None.

(** ** Request parameters (utils/utils.py) *)

(** [len(v)]: numbers and [None] have no length. *)
Definition py_len (v : pyval) : res nat :=
  match v with
  | PStr s => Ok (String.length s)
  | PList l => Ok (length l)
  | PDict d => Ok (size d)
  | _ => Err TypeError
  end.

(** [v[0]] for a value of length one: the only element of a list, a
    one-character string itself; a dict has no key [0]. *)
Definition py_first (v : pyval) : res pyval :=
  match v with
  | PStr s => Ok (PStr s)
  | PList (x :: _) => Ok x
  | PDict _ => Err (KeyError "0")
  | _ => Err TypeError
  end.

(** [s.strip(chars)] and [s.strip()] on the characters of a string. *)
Fixpoint lstrip (p : ascii → bool) (l : list ascii) : list ascii :=
  match l with
  | c :: l' => if p c then lstrip p l' else l
  | [] => []
  end.

Definition rstrip (p : ascii → bool) (l : list ascii) : list ascii :=
  rev (lstrip p (rev l)).

Definition strip (p : ascii → bool) (s : string) : string :=
  String.string_of_list_ascii (rstrip p (lstrip p (String.list_ascii_of_string s))).

Definition is_bracket (c : ascii) : bool := Ascii.eqb c "[" || Ascii.eqb c "]".

(** [s.split(sep)] for a one-character separator; [cur] is the piece
    being read, reversed. *)
Fixpoint split_on (sep : ascii) (s : string) (cur : list ascii) : list string :=
  match s with
  | EmptyString => [String.string_of_list_ascii (rev cur)]
  | String c s' =>
      if Ascii.eqb c sep then String.string_of_list_ascii (rev cur) :: split_on sep s' []
      else split_on sep s' (c :: cur)
  end.

(** [[item.strip() for item in value.strip('[]').split(',') if item.strip()]] *)
Definition param_list (value : string) : list string :=
  omap (λ item, let item' := strip is_space item in
                if String.eqb item' "" then None else Some item')
       (split_on "," (strip is_bracket value) []).

(** The types [get_param] is asked for. *)
Inductive param_type : Type := T_str | T_int | T_float | T_bool | T_list | T_other.

Section get_param.
(** [int(value)] and [float(value)], and the float [0.0]. *)
Variables py_int py_float : pyval → res pyval.
Variable float_zero : pyval.

(** [get_param], for ASCII text. *)
Definition get_param (query_params : gmap string pyval) (param_name : string)
    (param_type : param_type) (default_value : pyval) : res pyval :=
  let value := default default_value (query_params !! param_name) in
  match value with
  | PNone => Ok default_value
  | _ =>
      match py_len value with
      | Err e => Err e
      | Ok 1%nat =>
          match py_first value with
          | Err e => Err e
          | Ok value =>
              match param_type, value with
              | T_str, PNone => Ok (PStr "")
              | T_str, _ => Ok value
              | T_int, PNone => Ok (PInt 0)
              | T_int, _ => py_int value
              | T_float, PNone => Ok float_zero
              | T_float, _ => py_float value
              | T_bool, PNone => Ok (PBool false)
              | T_bool, PStr s => Ok (PBool (String.eqb (map_string lower s) "true"))
              | T_bool, _ => Err AttributeError
              | T_list, PNone => Ok (PList [])
              | T_list, PStr s => Ok (PList (PStr <$> param_list s))
              | T_list, _ => Err AttributeError
              | T_other, _ => Err ValueError
              end
          end
      | Ok _ => Ok default_value
      end
  end.
End get_param.

(** Request parameters as the web server parses them: every value is a
    list of strings. *)
Definition some_params : gmap string pyval :=
  <["site" := PList [PStr "imdb"]]>
  (<["prev" := PList [PStr "[movies from 1999, , and 2000 ]"]]>
  (<["query" := PList [PStr "first"; PStr "second"]]> ∅)).

(** ** A connection that is lost *)

(** The fast track of a first question ranks two items; the write of the
    first early batch raises. *)
Definition lost_run : list action :=
  [RunQuery; FastTrack_start; FastTrack_searched (Ok [an_item 0; an_item 1])]
  ++ quiet_prechecks ++
  [FastTrack_decon; RankItem_start FAST_TRACK 0; RankItem_start FAST_TRACK 1;
   RankItem_llm FAST_TRACK 0 (scored 80); RankItem_barrier FAST_TRACK 0;
   RankItem_sent FAST_TRACK 0 WriteRaises].

(** The rest of the request. *)
Definition after_lost_run : list action :=
  [RankItem_llm FAST_TRACK 1 (scored 90); Rank_gathered FAST_TRACK; Prepare_gathered].

Definition lost_state : State :=
  Eval vm_compute in
    default (init NLWebHandler false simple_request "")
            (run lost_run (init NLWebHandler false simple_request "")).

(** What a step does once the connection is lost. *)
Definition lost_effect (h h' : Handler) : Prop :=
  connection_alive_event h' = false ∧
  stream h' = stream h ∧
  (return_value h' = return_value h ∨
   return_value h' = <["query_id" := PStr (query_id (req h))]> (return_value h)).

(** ** Effects of a step and invariants of a request *)

(** What a step does to the flags that stop a request. *)
Record control_effect (s s' : State) : Prop := {
  ce_req : req (handler s') = req (handler s);
  ce_decon_obj : decon_obj s' = decon_obj s;
  ce_abort_mono :
    abort_fast_track_event (handler s) = true → abort_fast_track_event (handler s') = true;
  ce_done_mono : query_done (handler s) = true → query_done (handler s') = true;
  ce_stopped :
    stopped (handler s') = true →
    stopped (handler s) = true ∨
    (abort_fast_track_event (handler s') = true ∧ query_done (handler s') = true ∧
     ∃ a, quiet (analyzer_at s a) = false);
  ce_quiet_mono : ∀ a,
    quiet (analyzer_at s a) = true → quiet (analyzer_at s' a) = true;
  ce_nonquiet : ∀ a,
    quiet (analyzer_at s' a) = false →
    quiet (analyzer_at s a) = false ∧
    precheck_step_state (handler s') !! STEP_NAME a
    = precheck_step_state (handler s) !! STEP_NAME a;
  ce_gather :
    gathered (runQuery_at s') = true →
    gathered (runQuery_at s) = true ∨ tasks_finished s = true ∨
    is_Some (regularRanker s);
  ce_fast_writing :
    writing (fastTrackRanker s') = true →
    writing (fastTrackRanker s) = true ∨ abort_fast_track_event (handler s') = false;
  ce_regular :
    is_Some (regularRanker s') →
    is_Some (regularRanker s) ∨ query_done (handler s') = false;
  ce_batch :
    delivered "result_batch" (handler s') = true →
    delivered "result_batch" (handler s) = true ∨
    writing (fastTrackRanker s) = true ∨ is_Some (regularRanker s);
  ce_requires :
    requires_decontextualization (handler s') = true →
    requires_decontextualization (handler s) = true ∨
    decon_obj s = PrevQueryDecontextualizer;
  ce_ft_active :
    ft_active (fastTrack_at s') = true →
    ft_active (fastTrack_at s) = true ∨ is_fastTrack_eligible (handler s) = true;
  ce_ft_ranker :
    is_Some (fastTrackRanker s') →
    is_Some (fastTrackRanker s) ∨ ft_active (fastTrack_at s) = true;
  ce_worked :
    fastTrackWorked (handler s') = true →
    fastTrackWorked (handler s) = true ∨ is_Some (fastTrackRanker s);
  ce_requires_abort :
    requires_decontextualization (handler s') = true →
    requires_decontextualization (handler s) = true ∨
    abort_fast_track_event (handler s') = true
}.

Record control_inv (s0 s : State) : Prop := {
  ci_req : req (handler s) = req (handler s0);
  ci_stopped :
    stopped (handler s) = true →
    abort_fast_track_event (handler s) = true ∧ query_done (handler s) = true;
  ci_waiting : ∀ a,
    quiet (analyzer_at s a) = false →
    precheck_step_state (handler s) !! STEP_NAME a = Some INITIAL;
  ci_event :
    pre_checks_done_event (handler s) = true → ∀ a, quiet (analyzer_at s a) = true;
  ci_fast : writing (fastTrackRanker s) = true → stopped (handler s) = false;
  ci_regular : is_Some (regularRanker s) → stopped (handler s) = false;
  ci_batch : delivered "result_batch" (handler s) = true → stopped (handler s) = false;
  ci_prev :
    decon_obj s = PrevQueryDecontextualizer → prev_queries (req (handler s)) ≠ [];
  ci_requires :
    requires_decontextualization (handler s) = true →
    decon_obj s = PrevQueryDecontextualizer ∧ abort_fast_track_event (handler s) = true;
  ci_active :
    ft_active (fastTrack_at s) = true → is_fastTrack_eligible (handler s) = true;
  ci_ranker :
    is_Some (fastTrackRanker s) → is_fastTrack_eligible (handler s) = true;
  ci_worked :
    fastTrackWorked (handler s) = true → is_fastTrack_eligible (handler s) = true
}.

(** What a step does to the stream. *)
Definition stream_effect (h h' : Handler) : Prop :=
  (versionNumberSent h = true → versionNumberSent h' = true) ∧
  (stream h' = stream h ∨
   ∃ m, stream h' = stream h ++ [m] ∧ message_type_is "api_version" m = false ∧
        versionNumberSent h' = true).

(** No announcement of the version is in the stream, and the handler has
    noted the version as sent once the stream is not empty. *)
Definition stream_inv (s0 s : State) : Prop :=
  (runQuery_at s = ONew → s = s0) ∧
  streamed "api_version" (handler s) = false ∧
  (stream (handler s) ≠ [] → versionNumberSent (handler s) = true).

(** ** Who sends what *)

(** [runQuery] of [GenerateAnswer] is past [prepare]. *)
Definition is_gen (st : orch_status) : bool :=
  match st with
  | GSearch | GRanking | GSynthPrompt | GSend _ | GDescriptions _ _ => true
  | _ => false
  end.

(** [SummarizeResults.do] is running. *)
Definition is_sum (st : orch_status) : bool :=
  match st with
  | OSummaryPrompt | OSummarySend _ => true
  | _ => false
  end.

(** [runQuery] of [NLWebHandler] is past the [gather] of [prepare] and has
    not ended. *)
Definition is_nlw (st : orch_status) : bool :=
  match st with
  | OSearch | ORanking | OSummaryPrompt | OSummarySend _ => true
  | _ => false
  end.

Definition ft_absent (st : ft_status) : bool :=
  match st with FtAbsent => true | _ => false end.

(** The task that is about to send a message tagged [t]. *)
Definition sent_by (t : string) (s : State) : Prop :=
  (t = "result_batch" ∧ writing_any s = true) ∨
  (t = "summary" ∧ is_sum (runQuery_at s) = true) ∨
  (t = "nlws" ∧ is_gen (runQuery_at s) = true) ∨
  (t = "asking_sites" ∧ (is_Some (fastTrackRanker s) ∨ is_Some (regularRanker s))) ∨
  (t = "remember" ∨ t = "ask_user" ∨ t = "site_is_irrelevant_to_query").

(** What a step does to the class of the request and to what it sends. *)
Record mode_effect (s s' : State) : Prop := {
  me_cls : cls s' = cls s;
  me_gen :
    is_gen (runQuery_at s') = true →
    is_gen (runQuery_at s) = true ∨ cls s = GenerateAnswer;
  me_nlw :
    is_nlw (runQuery_at s') = true →
    is_nlw (runQuery_at s) = true ∨ cls s = NLWebHandler ∨ is_Some (regularRanker s);
  me_sum :
    is_sum (runQuery_at s') = true →
    is_sum (runQuery_at s) = true ∨ generate_mode (req (handler s)) = "summarize";
  me_ft :
    ft_absent (fastTrack_at s) = true →
    ft_absent (fastTrack_at s') = true ∨ is_Some (fastTrackRanker s);
  me_rg :
    is_Some (regularRanker s') →
    is_Some (regularRanker s) ∨ cls s = NLWebHandler ∨ is_nlw (runQuery_at s) = true;
  me_delivered : ∀ t,
    return_key t ≠ "query_id" → t ≠ "results" →
    delivered t (handler s') = true →
    delivered t (handler s) = true ∨ sent_by t s
}.

(** The class of a request decides its tasks and its messages. *)
Record mode_inv (c : handler_class) (mode : string) (s : State) : Prop := {
  mi_cls : cls s = c;
  mi_mode : generate_mode (req (handler s)) = mode;
  mi_gen : is_gen (runQuery_at s) = true → c = GenerateAnswer;
  mi_nlw : is_nlw (runQuery_at s) = true → c = NLWebHandler;
  mi_sum : is_sum (runQuery_at s) = true → mode = "summarize";
  mi_ft : c = GenerateAnswer → ft_absent (fastTrack_at s) = true;
  mi_fast : is_Some (fastTrackRanker s) → c = NLWebHandler;
  mi_regular : is_Some (regularRanker s) → c = NLWebHandler;
  mi_batch : delivered "result_batch" (handler s) = true → c = NLWebHandler;
  mi_sites : delivered "asking_sites" (handler s) = true → c = NLWebHandler;
  mi_summary :
    delivered "summary" (handler s) = true → c = NLWebHandler ∧ mode = "summarize";
  mi_nlws : delivered "nlws" (handler s) = true → c = GenerateAnswer
}.

(** ** Words *)

(** A character a word of a pretty-printed site may hold. *)
Definition word_char (c : ascii) : bool := negb (is_space c) && negb (Ascii.eqb c "_").

Fixpoint all_chars (p : ascii → bool) (s : string) : bool :=
  match s with
  | EmptyString => true
  | String c s' => p c && all_chars p s'
  end.

(** A word: not empty, no white space, no underscore. *)
Definition is_word (w : string) : bool :=
  negb (String.eqb w "") && all_chars word_char w.

(** ** A ranker with more good answers than are sent *)

(** Twelve ranked answers, none sent; the last one scores 51. *)
Definition full_store : list answer :=
  an_answer <$> [60; 95; 70; 52; 88; 99; 61; 75; 80; 66; 91; 51].

Definition full_ranking : Ranking :=
  set_rankedAnswers (seq 0 12) (new_ranking [] REGULAR_TRACK).

(** The answers of [rankedAnswers] that the final flush may send: not marked
    sent, with a score above 51. *)
Definition good_unsent (rk : Ranking) (store : list answer) : list nat :=
  filter (λ r, score_above store 51 r = true ∧ not_sent store r = true) (rankedAnswers rk).

(** ** A list parameter, written out *)

(** A string that neither starts nor ends with a character of [p]. *)
Definition ends_free (p : ascii → bool) (s : string) : bool :=
  let l := String.list_ascii_of_string s in
  from_option (λ c, negb (p c)) true (head l) && from_option (λ c, negb (p c)) true (list.last l).

(** A string without a comma. *)
Definition no_comma (s : string) : bool := all_chars (λ c, negb (Ascii.eqb c ",")) s.

(** ** Answers that wait at the barrier *)

(** The answer a task of [rankItem] has selected in [sendAnswers]: the
    one it waits with at the barrier, then writes. *)
Definition selected (st : ri_status) : option nat :=
  match st with
  | RiBarrier a _ => Some a
  | RiWrite a _ => Some a
  | _ => None
  end.

(** The answers the tasks of a ranker have selected are marked sent in the
    store. *)
Definition waits_marked (store : list answer) (r : option RankerRun) : Prop :=
  ∀ rk i st a,
    r = Some rk → item_at rk !! i = Some st → selected st = Some a → marked store a.

(** What a step does to the marks: none is taken back, and the answers the
    tasks have selected stay marked. *)
Record marking_effect (s s' : State) : Prop := {
  mk_store : ∀ a, marked (answers s) a → marked (answers s') a;
  mk_fast : waits_marked (answers s) (fastTrackRanker s) →
            waits_marked (answers s') (fastTrackRanker s');
  mk_regular : waits_marked (answers s) (regularRanker s) →
               waits_marked (answers s') (regularRanker s')
}.

(** [ask_user_run] once the required-information check has stopped the
    request: the barrier is open, the fast track is aborted, and the task of
    the fast-track ranker still waits with its selected answer. *)
Definition aborted_wait_run : list action := take 19 ask_user_run.

(** ** More good answers than the limit *)

(** A first question for which twelve items are retrieved; the LLM scores
    each of them 55, so none is sent early and all wait for the final
    flush. *)
Definition eleven_run : list action :=
  [RunQuery; FastTrack_start; FastTrack_searched (Ok (an_item <$> seq 0 12))]
  ++ quiet_prechecks ++ [FastTrack_decon]
  ++ (RankItem_start FAST_TRACK <$> seq 0 12)
  ++ ((λ i, RankItem_llm FAST_TRACK i (scored 55)) <$> seq 0 12)
  ++ [Rank_gathered FAST_TRACK; Rank_barrier FAST_TRACK; Rank_sent FAST_TRACK Delivered;
      Prepare_gathered].

(** * Properties *)

Example top_sites_str_ex :
  top_sites_str [mkItem "u1" "{}" "a" "npr podcasts" None;
                 mkItem "u2" "{}" "b" "latam_recipes" None;
                 mkItem "u3" "{}" "c" "latam_recipes" None]
  = "Latam Recipes, Npr Podcasts".
Proof. reflexivity. Qed.

(** ** The early-send predicate *)

Lemma existsb_elem_of {A} (f : A → bool) (l : list A) :
  existsb f l = true ↔ ∃ x, x ∈ l ∧ f x = true.
Proof.
  rewrite existsb_exists. split; intros (x & Hx & Hf); exists x; split; auto;
    by apply list_elem_of_In.
Qed.

(** C9. [shouldSend r] holds exactly when fewer than
    [NUM_RESULTS_TO_SEND - 5 = 5] results have been counted as sent, or some
    answer of [rankedAnswers] that is marked sent has a strictly lower
    score than [r]. *)
Theorem shouldSend_spec (rk : Ranking) (store : list answer) (result : answer) :
  shouldSend rk store result = true ↔
    (num_results_sent rk < 5)%nat ∨
    ∃ r, r ∈ deref store (rankedAnswers rk) ∧ ans_sent r = true ∧
         ans_score r < ans_score result.
Proof.
  unfold shouldSend.
  change (NUM_RESULTS_TO_SEND - 5)%nat with 5%nat.
  destruct (Nat.ltb_spec (num_results_sent rk) 5) as [Hlt | Hge].
  - split; [by left | done].
  - rewrite existsb_elem_of. split.
    + intros (r & Hin & Hr). right. exists r.
      apply andb_true_iff in Hr as [Hs Hlt]. by apply Z.ltb_lt in Hlt.
    + intros [Hlt | (r & Hin & Hs & Hlt)]; [lia |].
      exists r. split; [done |]. apply andb_true_iff. split; [done |]. by apply Z.ltb_lt.
Qed.

(** ** The decontextualizer that is chosen *)

Lemma decontextualizeQuery_cases (h : Handler) :
  (fst (decontextualizeQuery h) = NoOpDecontextualizer) ∨
  (fst (decontextualizeQuery h) = PrevQueryDecontextualizer ∧ prev_queries (req h) ≠ []).
Proof.
  unfold decontextualizeQuery.
  destruct (prev_queries (req h)) as [| q qs] eqn:Hprev; simpl; [by left |].
  destruct (negb _); simpl; [by left | right; split; congruence].
Qed.

Lemma construct_decontextualizeQuery (h : Handler) :
  construct (fst (decontextualizeQuery h)) = Ok ().
Proof. by destruct (decontextualizeQuery_cases h) as [-> | [-> _]]. Qed.

Lemma decontextualizeQuery_req (h : Handler) : req (snd (decontextualizeQuery h)) = req h.
Proof. unfold decontextualizeQuery. by repeat case_match. Qed.

(** C6 (what the code does).  With no previous query the first test of
    [decontextualizeQuery] already answers: the no-op decontextualizer is
    chosen whatever the context URL is, the query is kept as it is, and the
    branch of [ContextUrlDecontextualizer] is never reached. *)
Theorem decontextualizeQuery_without_history (h : Handler) :
  prev_queries (req h) = [] →
  fst (decontextualizeQuery h) = NoOpDecontextualizer ∧
  decontextualized_query (snd (decontextualizeQuery h)) = PStr (query (req h)).
Proof. intros Hprev. unfold decontextualizeQuery. by rewrite Hprev. Qed.

Lemma decontextualizeQuery_without_history_witness :
  prev_queries context_request = [] ∧
  (4 < String.length (context_url context_request))%nat ∧
  fst (decontextualizeQuery (new_handler context_request "")) = NoOpDecontextualizer ∧
  decontextualized_query (snd (decontextualizeQuery (new_handler context_request "")))
    = PStr "who directed it".
Proof.
  split; [reflexivity |]. split; [vm_compute; lia |].
  apply (decontextualizeQuery_without_history (new_handler context_request "")).
  reflexivity.
Defined.

(** ** The stream sink *)

(** The fields of the handler that [send_message] leaves alone. *)
Definition same_control (h h' : Handler) : Prop :=
  req h' = req h ∧
  decontextualized_query h' = decontextualized_query h ∧
  final_retrieved_items h' = final_retrieved_items h ∧
  final_ranked_answers h' = final_ranked_answers h ∧
  query_done h' = query_done h ∧
  query_is_irrelevant h' = query_is_irrelevant h ∧
  requires_decontextualization h' = requires_decontextualization h ∧
  required_info_found h' = required_info_found h ∧
  precheck_step_state h' = precheck_step_state h ∧
  decon_event h' = decon_event h ∧
  pre_checks_done_event h' = pre_checks_done_event h ∧
  retrieval_done_event h' = retrieval_done_event h ∧
  abort_fast_track_event h' = abort_fast_track_event h ∧
  fastTrackWorked h' = fastTrackWorked h.

Lemma aggregate_control message h h' : aggregate message h = Ok h' → same_control h h'.
Proof.
  unfold aggregate, same_control. intros H.
  repeat case_match; simplify_eq; simpl; repeat split; reflexivity.
Qed.

Lemma send_message_control message w h h' :
  send_message message w h = Ok h' → same_control h h'.
Proof.
  unfold send_message. intros H.
  destruct (negb (connection_alive_event h)); [simplify_eq; by repeat split |].
  destruct (streaming (req h) && http_handler (req h)); [| by eapply aggregate_control].
  unfold same_control.
  destruct (negb (versionNumberSent h)), w; simplify_eq; simpl; repeat split; reflexivity.
Qed.

(** What a call adds to the stream: nothing, or the caller's message with
    the query id attached. *)
Lemma send_message_stream message w h h' :
  send_message message w h = Ok h' →
  stream h' = stream h ∨
  stream h' = stream h ++ [<["query_id" := PStr (query_id (req h))]> message].
Proof.
  unfold send_message. intros H.
  destruct (negb (connection_alive_event h)); [simplify_eq; by left |].
  destruct (streaming (req h) && http_handler (req h)).
  - destruct (negb (versionNumberSent h)), w; simplify_eq; simpl; auto.
  - left. unfold aggregate in H. repeat case_match; simplify_eq; reflexivity.
Qed.

Lemma message_type_is_query_id t v (message : gmap string pyval) :
  message_type_is t (<["query_id" := v]> message) = message_type_is t message.
Proof. unfold message_type_is, has_tag. by rewrite lookup_insert_ne. Qed.

Lemma streamed_app t h h' m :
  stream h' = stream h ++ [m] → streamed t h' = streamed t h || message_type_is t m.
Proof. unfold streamed. intros ->. rewrite existsb_app. simpl. by rewrite orb_false_r. Qed.

(** What a call adds to [return_value]. *)
Lemma aggregate_return_value message h h' k :
  aggregate message h = Ok h' →
  is_Some (return_value h' !! k) →
  is_Some (return_value h !! k) ∨
  (message_type_is "result_batch" message = true ∧ k = "results") ∨
  (message_type_is "result_batch" message = false ∧ message_type_is k message = true).
Proof.
  unfold aggregate, message_type_is, has_tag, getitem. intros H Hk.
  destruct (message !! "message_type") as [[]|] eqn:Htag; simplify_eq.
  simpl. case_bool_decide as Hrb.
  - subst. destruct (decide (k = "results")) as [-> |]; [by right; left |]. left.
    repeat case_match; simplify_eq; simpl in *; auto;
      by rewrite lookup_insert_ne in Hk by congruence.
  - simplify_eq. simpl in Hk. destruct (decide (s = k)) as [-> |].
    + right; right. split; [done |]. by apply bool_decide_eq_true_2.
    + rewrite lookup_insert_ne in Hk by done. by left.
Qed.

Lemma send_message_return_value message w h h' k :
  send_message message w h = Ok h' →
  is_Some (return_value h' !! k) →
  is_Some (return_value h !! k) ∨
  (message_type_is "result_batch" message = true ∧ k = "results") ∨
  (message_type_is "result_batch" message = false ∧ message_type_is k message = true).
Proof.
  unfold send_message. intros H.
  destruct (negb (connection_alive_event h)); [simplify_eq; by left |].
  destruct (streaming (req h) && http_handler (req h)); [| by eapply aggregate_return_value].
  destruct (negb (versionNumberSent h)), w; simplify_eq; simpl; auto.
Qed.

(** A call delivers at most the message it was given. *)
Lemma send_message_delivered message w h h' t :
  send_message message w h = Ok h' →
  delivered t h' = true →
  delivered t h = true ∨ message_type_is t message = true ∨
  (t = "result_batch" ∧ message_type_is "results" message = true) ∨
  (t = "results" ∧ message_type_is "result_batch" message = true).
Proof.
  intros H. unfold delivered. rewrite !orb_true_iff, !bool_decide_eq_true.
  intros [Hs | Hr].
  - destruct (send_message_stream _ _ _ _ H) as [Heq | Heq].
    + left; left. unfold streamed in *. by rewrite <- Heq.
    + rewrite (streamed_app _ _ _ _ Heq), message_type_is_query_id in Hs.
      apply orb_true_iff in Hs as [Hs | Hs]; auto.
  - destruct (send_message_return_value _ _ _ _ _ H Hr) as [Hr' | [[Hm Hk] | [Hm Hk]]]; auto.
    + unfold return_key in Hk. case_bool_decide; subst; auto.
    + unfold return_key in Hk. case_bool_decide; subst; auto.
Qed.
(** The tags of the messages the pipeline builds. *)
Lemma tag_remember t v : message_type_is t (remember v) = bool_decide ("remember" = t).
Proof. unfold message_type_is, has_tag, remember. by rewrite lookup_insert_eq. Qed.

Lemma tag_ask_user t v : message_type_is t (ask_user v) = bool_decide ("ask_user" = t).
Proof. unfold message_type_is, has_tag, ask_user. by rewrite lookup_insert_eq. Qed.

Lemma tag_site_is_irrelevant t v :
  message_type_is t (site_is_irrelevant v) = bool_decide ("site_is_irrelevant_to_query" = t).
Proof. unfold message_type_is, has_tag, site_is_irrelevant. by rewrite lookup_insert_eq. Qed.

Lemma tag_decontextualized_query t v :
  message_type_is t (decontextualized_query_message v) = false.
Proof.
  unfold message_type_is, has_tag, decontextualized_query_message.
  by rewrite !lookup_insert_ne, lookup_empty.
Qed.

Lemma tag_asking_sites t its : message_type_is t (asking_sites its) = bool_decide ("asking_sites" = t).
Proof. unfold message_type_is, has_tag, asking_sites. by rewrite lookup_insert_eq. Qed.

Lemma tag_result_batch t js h :
  message_type_is t (result_batch js h) = bool_decide ("result_batch" = t).
Proof. unfold message_type_is, has_tag, result_batch. by rewrite lookup_insert_eq. Qed.

Lemma tag_summary t v : message_type_is t (summary v) = bool_decide ("summary" = t).
Proof. unfold message_type_is, has_tag, summary. by rewrite lookup_insert_eq. Qed.

Lemma tag_nlws t v its : message_type_is t (nlws v its) = bool_decide ("nlws" = t).
Proof. unfold message_type_is, has_tag, nlws. by rewrite lookup_insert_eq. Qed.

Lemma tag_an_message t m :
  message_type_is t (an_message_dict m) = true →
  t = "remember" ∨ t = "ask_user" ∨ t = "site_is_irrelevant_to_query".
Proof.
  destruct m; simpl;
    rewrite ?tag_remember, ?tag_ask_user, ?tag_site_is_irrelevant, ?tag_decontextualized_query;
    try done; intros ?%bool_decide_eq_true; auto.
Qed.

Lemma tag_gen_message t m : message_type_is t (gen_message m) = bool_decide ("nlws" = t).
Proof. destruct m; apply tag_nlws. Qed.

(** ** Precheck steps *)

Lemma precheck_step_done_control step_name h :
  let h' := precheck_step_done step_name h in
  req h' = req h ∧
  decontextualized_query h' = decontextualized_query h ∧
  final_retrieved_items h' = final_retrieved_items h ∧
  final_ranked_answers h' = final_ranked_answers h ∧
  query_done h' = query_done h ∧
  query_is_irrelevant h' = query_is_irrelevant h ∧
  requires_decontextualization h' = requires_decontextualization h ∧
  required_info_found h' = required_info_found h ∧
  retrieval_done_event h' = retrieval_done_event h ∧
  connection_alive_event h' = connection_alive_event h ∧
  abort_fast_track_event h' = abort_fast_track_event h ∧
  fastTrackWorked h' = fastTrackWorked h ∧
  return_value h' = return_value h ∧
  versionNumberSent h' = versionNumberSent h ∧
  stream h' = stream h.
Proof. unfold precheck_step_done. repeat case_match; simpl; repeat split; reflexivity. Qed.

Lemma precheck_step_done_steps step_name h :
  precheck_step_state (precheck_step_done step_name h)
  = <[step_name := DONE]> (precheck_step_state h).
Proof. unfold precheck_step_done. by repeat case_match. Qed.

Lemma precheck_step_done_event step_name h :
  pre_checks_done_event (precheck_step_done step_name h)
  = pre_checks_done_event h || all_steps_done (<[step_name := DONE]> (precheck_step_state h)).
Proof.
  unfold precheck_step_done.
  destruct (bool_decide (step_name = "Decon")); simpl;
    destruct (all_steps_done _); simpl; by rewrite ?orb_true_r, ?orb_false_r.
Qed.

(** [precheck_step_done] field by field, as rewriting rules. *)
Create Rewrite HintDb handler.

Lemma precheck_step_done_req step_name h :
  req (precheck_step_done step_name h) = req h.
Proof. apply precheck_step_done_control. Qed.

Lemma precheck_step_done_decontextualized_query step_name h :
  decontextualized_query (precheck_step_done step_name h) = decontextualized_query h.
Proof. apply precheck_step_done_control. Qed.

Lemma precheck_step_done_final_retrieved_items step_name h :
  final_retrieved_items (precheck_step_done step_name h) = final_retrieved_items h.
Proof. apply precheck_step_done_control. Qed.

Lemma precheck_step_done_final_ranked_answers step_name h :
  final_ranked_answers (precheck_step_done step_name h) = final_ranked_answers h.
Proof. apply precheck_step_done_control. Qed.

Lemma precheck_step_done_query_done step_name h :
  query_done (precheck_step_done step_name h) = query_done h.
Proof. apply precheck_step_done_control. Qed.

Lemma precheck_step_done_query_is_irrelevant step_name h :
  query_is_irrelevant (precheck_step_done step_name h) = query_is_irrelevant h.
Proof. apply precheck_step_done_control. Qed.

Lemma precheck_step_done_requires_decontextualization step_name h :
  requires_decontextualization (precheck_step_done step_name h) = requires_decontextualization h.
Proof. apply precheck_step_done_control. Qed.

Lemma precheck_step_done_required_info_found step_name h :
  required_info_found (precheck_step_done step_name h) = required_info_found h.
Proof. apply precheck_step_done_control. Qed.

Lemma precheck_step_done_retrieval_done_event step_name h :
  retrieval_done_event (precheck_step_done step_name h) = retrieval_done_event h.
Proof. apply precheck_step_done_control. Qed.

Lemma precheck_step_done_connection_alive_event step_name h :
  connection_alive_event (precheck_step_done step_name h) = connection_alive_event h.
Proof. apply precheck_step_done_control. Qed.

Lemma precheck_step_done_abort_fast_track_event step_name h :
  abort_fast_track_event (precheck_step_done step_name h) = abort_fast_track_event h.
Proof. apply precheck_step_done_control. Qed.

Lemma precheck_step_done_fastTrackWorked step_name h :
  fastTrackWorked (precheck_step_done step_name h) = fastTrackWorked h.
Proof. apply precheck_step_done_control. Qed.

Lemma precheck_step_done_return_value step_name h :
  return_value (precheck_step_done step_name h) = return_value h.
Proof. apply precheck_step_done_control. Qed.

Lemma precheck_step_done_versionNumberSent step_name h :
  versionNumberSent (precheck_step_done step_name h) = versionNumberSent h.
Proof. apply precheck_step_done_control. Qed.

Lemma precheck_step_done_stream step_name h :
  stream (precheck_step_done step_name h) = stream h.
Proof. apply precheck_step_done_control. Qed.

#[local] Hint Rewrite precheck_step_done_req precheck_step_done_decontextualized_query precheck_step_done_final_retrieved_items precheck_step_done_final_ranked_answers precheck_step_done_query_done precheck_step_done_query_is_irrelevant precheck_step_done_requires_decontextualization precheck_step_done_required_info_found precheck_step_done_retrieval_done_event precheck_step_done_connection_alive_event precheck_step_done_abort_fast_track_event precheck_step_done_fastTrackWorked precheck_step_done_return_value precheck_step_done_versionNumberSent precheck_step_done_stream
  precheck_step_done_steps precheck_step_done_event : handler.

(** ** Runs *)

Lemma run_invariant (P : State → Prop) :
  (∀ a s s', P s → step a s = Some s' → P s') →
  ∀ schedule s s', P s → run schedule s = Some s' → P s'.
Proof.
  intros Hstep. induction schedule as [| a rest IH]; simpl; intros s s' Hs Hrun.
  - by simplify_eq.
  - destruct (step a s) as [s1 |] eqn:Ha; [| done]. eauto.
Qed.

Lemma run_app schedule1 schedule2 s :
  run (schedule1 ++ schedule2) s = run schedule1 s ≫= run schedule2.
Proof.
  revert s. induction schedule1 as [| a rest IH]; simpl; intros s; [done |].
  destruct (step a s); simpl; auto.
Qed.

(** Before [runQuery] starts only [runQuery] can run. *)
Lemma step_init c relevance r dq a s' :
  step a (init c relevance r dq) = Some s' → a = RunQuery.
Proof.
  destruct a; simpl; try done;
    try (destruct t; done); try (by destruct i).
Qed.

Lemma existsb_insert {A} (P : A → bool) (l : list A) i x :
  existsb P (<[i := x]> l) = true → existsb P l = true ∨ P x = true.
Proof.
  revert i. induction l as [| y l IH]; intros [| i]; simpl; try done.
  - rewrite !orb_true_iff. tauto.
  - rewrite !orb_true_iff. intros [? | H]; [tauto |]. apply IH in H. tauto.
Qed.

Lemma existsb_replicate {A} (P : A → bool) n x : P x = false → existsb P (replicate n x) = false.
Proof. intros H. induction n; simpl; [done |]. by rewrite H. Qed.

Lemma all_steps_done_insert_INITIAL k (m : gmap string step_state) :
  all_steps_done (<[k := INITIAL]> m) = false.
Proof.
  apply bool_decide_eq_false_2. intros H.
  by specialize (H k INITIAL (lookup_insert_eq _ _ _)).
Qed.

Lemma all_steps_done_insert_DONE k (m : gmap string step_state) :
  all_steps_done m = true → all_steps_done (<[k := DONE]> m) = true.
Proof.
  intros H%bool_decide_eq_true. apply bool_decide_eq_true_2.
  by apply map_Forall_insert_2.
Qed.

Lemma decontextualizeQuery_snd h :
  snd (decontextualizeQuery h) = h ∨
  snd (decontextualizeQuery h) = set_decontextualized_query (PStr (query (req h))) h.
Proof. unfold decontextualizeQuery. repeat case_match; simpl; auto. Qed.

Lemma delivered_new t r dq : delivered t (new_handler r dq) = false.
Proof. unfold delivered, streamed. simpl. by rewrite lookup_empty. Qed.

Lemma lookup_insert_DONE (m : gmap string step_state) n k :
  m !! k = Some DONE → <[n := DONE]> m !! k = Some DONE.
Proof.
  intros H. destruct (decide (n = k)) as [-> |]; [apply lookup_insert_eq |].
  by rewrite lookup_insert_ne.
Qed.

(** The status of the other analyzers is not touched. *)
Ltac other_analyzers :=
  let b := fresh "b" in
  intros b; unfold insert, fn_insert; try case_decide; subst; simpl;
  rewrite ?lookup_insert_eq; try done;
  eauto using lookup_insert_DONE.

#[local] Set Warnings "-clear-no-such-hyp".

(** Projections out of updated records. *)
Ltac fields :=
  cbn [
    req decontextualized_query final_retrieved_items final_ranked_answers query_done
    query_is_irrelevant requires_decontextualization required_info_found
    precheck_step_state decon_event pre_checks_done_event retrieval_done_event
    connection_alive_event abort_fast_track_event fastTrackWorked return_value
    versionNumberSent stream set_decontextualized_query set_final_retrieved_items
    set_final_ranked_answers set_query_done set_query_is_irrelevant
    set_requires_decontextualization set_required_info_found set_precheck_step_state
    set_decon_event set_pre_checks_done_event set_retrieval_done_event
    set_connection_alive_event set_abort_fast_track_event set_fastTrackWorked
    set_return_value set_versionNumberSent set_stream handler cls relevance_enabled
    decon_obj answers fastTrackRanker regularRanker runQuery_at fastTrack_at analyzer_at
    gen_items gen_item_at with_handler with_decon_obj with_answers with_fastTrackRanker
    with_regularRanker with_runQuery_at with_fastTrack_at with_analyzer_at with_gen_items
    with_gen_item_at ranker item_at do_at with_ranker_obj with_item_at with_do_at
    with_ranker ranker_of ranking_type items num_results_sent rankedAnswers
    set_num_results_sent set_rankedAnswers append_ranked new_ranking fst snd
    start_precheck_step set_pre_checks_done gathered is_new ri_writing do_writing
    ri_finished an_finished ft_finished finalize writing_any ] in *.

Ltac bool_facts :=
  rewrite ?orb_true_iff, ?andb_true_iff, ?negb_true_iff in *.


(** Case analysis on a step: one goal per path through the segment that
    ran, with the new state spelled out. *)
Ltac step_cases Hstep :=
  unfold runQuery_start, analyzer_start, analyzer_prompt, analyzer_write,
    fastTrack_start, fastTrack_searched, fastTrack_decon, fastTrack_timeout,
    rank_sites, rankItem_start, rankItem_llm, rankItem_barrier, rankItem_sent,
    rank_gathered, rank_barrier, rank_sent, prepare_gathered, prepare_searched,
    summary_prompt, summary_sent, gen_searched, genItem_start, genItem_llm,
    gen_gathered, gen_synth, gen_sent, gen_descriptions,
    analyzer_begin, analyzer_resume, analyzer_sent, returned_done,
    after_prepare, finish_do, post_ranking_tasks, gen_error, ranking_do_start,
    mbind, option_bind in Hstep;
  repeat case_match; simplify_eq.
Lemma runQuery_start_init c relevance r dq s' :
  runQuery_start (init c relevance r dq) = Some s' →
  runQuery_at s' = OGather ∧
  fastTrackRanker s' = None ∧ regularRanker s' = None ∧
  stream (handler s') = [] ∧ return_value (handler s') = ∅ ∧
  pre_checks_done_event (handler s') = false ∧
  all_steps_done (precheck_step_state (handler s')) = false ∧
  (∀ a, analyzer_at s' a = AnReady ∨ analyzer_at s' a = AnAbsent) ∧
  (∀ a, analyzer_at s' a = AnReady →
        precheck_step_state (handler s') !! STEP_NAME a = Some INITIAL).
Proof.
  unfold runQuery_start, init. fields.
  rewrite construct_decontextualizeQuery. intros ?; simplify_eq. fields.
  match goal with |- context [decontextualizeQuery ?h] =>
    destruct (decontextualizeQuery_snd h) as [-> | ->] end.
  all: destruct c; unfold register, new_handler; cbn [foldl]; fields.
  all: repeat split; try reflexivity; try apply all_steps_done_insert_INITIAL.
  all: intros a; unfold created; destruct a; vm_compute; auto; discriminate.
Qed.

(** *** Delivery and the record updates *)

Lemma delivered_ext t h h' :
  stream h' = stream h → return_value h' = return_value h →
  delivered t h' = delivered t h.
Proof. unfold delivered, streamed. by intros -> ->. Qed.

Lemma gated_cases t :
  gated t = true → t = "result_batch" ∨ t = "summary" ∨ t = "nlws".
Proof.
  unfold gated. intros H%bool_decide_eq_true.
  repeat (apply elem_of_cons in H as [-> | H]; [tauto |]).
  by apply elem_of_nil in H.
Qed.

Lemma delivered_query_id t h h' v :
  gated t = true →
  stream h' = stream h → return_value h' = <["query_id" := v]> (return_value h) →
  delivered t h' = delivered t h.
Proof.
  intros Ht Hs Hr. unfold delivered, streamed. rewrite Hs, Hr. f_equal.
  rewrite lookup_insert_ne; [done |].
  by destruct (gated_cases _ Ht) as [-> | [-> | ->]].
Qed.

Lemma gated_an_message t m :
  gated t = true → message_type_is t (an_message_dict m) = false.
Proof.
  intros Ht. destruct (message_type_is t (an_message_dict m)) eqn:Htag; [| done].
  apply tag_an_message in Htag.
  by destruct (gated_cases _ Ht) as [-> | [-> | ->]], Htag as [? | [? | ?]].
Qed.

Lemma gated_asking_sites t its :
  gated t = true → message_type_is t (asking_sites its) = false.
Proof.
  intros Ht. rewrite tag_asking_sites. apply bool_decide_eq_false_2.
  by destruct (gated_cases _ Ht) as [-> | [-> | ->]].
Qed.

(** A message that is not gated delivers nothing gated. *)
Lemma send_ungated t message w h h' :
  gated t = true →
  message_type_is t message = false →
  message_type_is "results" message = false →
  (t = "results" → False) →
  send_message message w h = Ok h' →
  delivered t h' = true → delivered t h = true.
Proof.
  intros Ht Htag Hres Hne Hsend Hdel.
  apply (send_message_delivered _ _ _ _ _ Hsend) in Hdel
    as [? | [Htag' | [[_ Htag'] | [-> _]]]]; congruence.
Qed.

Lemma gated_not_results t : gated t = true → t = "results" → False.
Proof. intros Ht ->. by destruct (gated_cases _ Ht). Qed.

Lemma results_an_message m : message_type_is "results" (an_message_dict m) = false.
Proof.
  destruct (message_type_is "results" (an_message_dict m)) eqn:Htag; [| done].
  by apply tag_an_message in Htag as [? | [? | ?]].
Qed.

(** *** Tasks of the ranker that are about to write *)

Lemma writing_with_item_at r i st :
  ri_writing st = false →
  writing (Some (with_item_at i st r)) = true → writing (Some r) = true.
Proof.
  unfold writing, with_item_at; simpl. intros Hst.
  rewrite !orb_true_iff. intros [H%existsb_insert | H]; [| tauto].
  destruct H; [tauto | congruence].
Qed.

Lemma writing_with_do_at r st :
  do_writing st = false →
  writing (Some (with_do_at st r)) = true → writing (Some r) = true.
Proof.
  unfold writing, with_do_at; simpl. intros ->.
  rewrite !orb_true_iff. intros [? | ?]; [by left | done].
Qed.

Lemma writing_with_ranker_obj r rk :
  writing (Some (with_ranker_obj rk r)) = writing (Some r).
Proof. reflexivity. Qed.

Lemma writing_new its t st :
  do_writing st = false →
  writing (Some {| ranker := new_ranking its t;
                   item_at := replicate (length its) RiReady; do_at := st |}) = false.
Proof. intros H. unfold writing; simpl. by rewrite existsb_replicate, H. Qed.

Lemma writing_new_dead its t st :
  do_writing st = false →
  writing (Some {| ranker := new_ranking its t; item_at := []; do_at := st |}) = false.
Proof. intros H. unfold writing; simpl. by rewrite H. Qed.

Lemma writing_item r i a js :
  item_at r !! i = Some (RiWrite a js) → writing (Some r) = true.
Proof.
  intros H. unfold writing. apply orb_true_iff. left.
  apply existsb_elem_of. exists (RiWrite a js). split; [| done].
  by eapply list_elem_of_lookup_2.
Qed.

Lemma writing_do r js : do_at r = DoWrite js → writing (Some r) = true.
Proof. intros H. unfold writing. rewrite H. apply orb_true_r. Qed.

(** *** What a step does to the barrier *)

Record barrier_effect (s s' : State) : Prop := {
  be_not_new : is_new (runQuery_at s') = false;
  be_gathered_mono :
    gathered (runQuery_at s) = true → gathered (runQuery_at s') = true;
  be_gathered :
    gathered (runQuery_at s') = true →
    gathered (runQuery_at s) = true ∨ pre_checks_done_event (handler s') = true ∨
    is_Some (regularRanker s);
  be_regular :
    is_Some (regularRanker s') →
    is_Some (regularRanker s) ∨ gathered (runQuery_at s') = true;
  be_writing :
    writing_any s' = true →
    writing_any s = true ∨ pre_checks_done_event (handler s') = true;
  be_delivered : ∀ t,
    gated t = true → delivered t (handler s') = true →
    delivered t (handler s) = true ∨ writing_any s = true ∨
    gathered (runQuery_at s) = true;
  be_event_mono :
    pre_checks_done_event (handler s) = true →
    pre_checks_done_event (handler s') = true;
  be_steps :
    (precheck_step_state (handler s') = precheck_step_state (handler s) ∧
     (pre_checks_done_event (handler s') = pre_checks_done_event (handler s) ∨
      gathered (runQuery_at s') = true)) ∨
    (∃ n, precheck_step_state (handler s') = <[n := DONE]> (precheck_step_state (handler s)) ∧
          pre_checks_done_event (handler s')
          = pre_checks_done_event (handler s)
            || all_steps_done (precheck_step_state (handler s')));
  be_returned : ∀ a,
    analyzer_at s' a = AnReturned →
    analyzer_at s a = AnReturned ∨
    precheck_step_state (handler s') !! STEP_NAME a = Some DONE ∨
    (a = Decontextualize ∧ ∃ m, analyzer_at s a = AnSend m);
  be_decon_send : ∀ m,
    analyzer_at s' Decontextualize = AnSend m →
    analyzer_at s Decontextualize = AnSend m ∨
    precheck_step_state (handler s') !! STEP_NAME Decontextualize = Some DONE
}.

(** What the hypotheses of a case say, in the form the goals use. *)
Ltac prepare_case :=
  repeat match goal with t : track |- _ => destruct t end;
  fields;
  repeat match goal with
    | H : negb _ = false |- _ => apply negb_false_iff in H
    | H : negb _ = true |- _ => apply negb_true_iff in H
    end.

(** The handler a call of [send_message] returned, read through the one
    it was given. *)
Ltac use_send :=
  lazymatch goal with
  | Hs : send_message _ _ _ = Ok _ |- _ =>
      let Hc := fresh "Hc" in
      pose proof (send_message_control _ _ _ _ Hs) as Hc;
      destruct Hc as (Hc1 & Hc2 & Hc3 & Hc4 & Hc5 & Hc6 & Hc7 & Hc8 & Hc9 & Hc10 &
                      Hc11 & Hc12 & Hc13 & Hc14);
      autorewrite with handler;
      rewrite ?Hc1, ?Hc2, ?Hc3, ?Hc4, ?Hc5, ?Hc6, ?Hc7, ?Hc8, ?Hc9, ?Hc10, ?Hc11,
        ?Hc12, ?Hc13, ?Hc14
  | _ => autorewrite with handler
  end.

Ltac status_evidence :=
  match goal with
  | H : runQuery_at ?s = _ |- gathered (runQuery_at ?s) = true => rewrite H; reflexivity
  end.

Ltac ranker_evidence :=
  match goal with
  | H : regularRanker ?s = Some _ |- is_Some (regularRanker ?s) => rewrite H; eauto
  end.

Ltac solve_gathered :=
  intros _;
  first [ left; status_evidence
        | right; left; first [reflexivity | assumption]
        | right; right; ranker_evidence ].

Ltac solve_regular :=
  intros _; first [ left; ranker_evidence | right; reflexivity | right; status_evidence ].

Ltac solve_writing :=
  unfold writing_any; fields;
  try match goal with H : fastTrackRanker _ = Some _ |- _ => rewrite H end;
  try match goal with H : regularRanker _ = Some _ |- _ => rewrite H end;
  rewrite !orb_true_iff;
  let Hw := fresh "Hw" in
  intros [Hw | Hw];
  try (apply writing_with_item_at in Hw; [| reflexivity]);
  try (apply writing_with_do_at in Hw; [| reflexivity]);
  try (rewrite writing_new in Hw by reflexivity);
  try (rewrite writing_new_dead in Hw by reflexivity);
  first [ discriminate Hw
        | left; left; exact Hw
        | left; right; exact Hw
        | right; assumption
        | right; reflexivity ].

Ltac solve_event_mono :=
  let H := fresh in intros H; rewrite H; reflexivity.

Ltac lookup_analyzer :=
  first
    [ rewrite fn_lookup_insert
    | rewrite fn_lookup_insert_ne by congruence
    | match goal with
      | |- context [<[?x := _]> (analyzer_at _) ?b] =>
          destruct (decide (x = b)) as [<- | ?];
          [rewrite fn_lookup_insert | rewrite fn_lookup_insert_ne by assumption]
      end ].

Ltac solve_analyzers :=
  intros ?; lookup_analyzer;
  let H := fresh in
  intros H;
  first [ discriminate H
        | left; exact H
        | right; left; apply lookup_insert_eq
        | right; apply lookup_insert_eq
        | right; right; split; [reflexivity | eexists; eassumption] ].

Ltac handler_eq := fields; autorewrite with handler; fields; reflexivity.

(** Delivery is read off the stream and the return value. *)
Ltac same_delivery Ht :=
  first [ reflexivity
        | apply delivered_ext; handler_eq
        | eapply (delivered_query_id _ _ _ _ Ht); handler_eq ].

Ltac writing_evidence :=
  unfold writing_any;
  match goal with
  | H : fastTrackRanker ?s = Some ?r |- context [writing (fastTrackRanker ?s)] =>
      rewrite H; apply orb_true_iff; left
  | H : regularRanker ?s = Some ?r |- context [writing (regularRanker ?s)] =>
      rewrite H; apply orb_true_iff; right
  end;
  first [ eapply writing_item; eassumption | eapply writing_do; eassumption ].

Ltac tag_facts H :=
  rewrite ?tag_asking_sites, ?tag_result_batch, ?tag_summary, ?tag_gen_message,
    ?results_an_message in H.

Ltac solve_delivered :=
  let t := fresh "t" in
  let Ht := fresh "Ht" in
  let Hdel := fresh "Hdel" in
  intros t Ht Hdel;
  lazymatch goal with
  | Hs : send_message ?m ?w ?h0 = Ok ?h1 |- _ =>
      let Hd := fresh "Hd" in
      assert (delivered t h1 = true) as Hd
        by (rewrite <- Hdel; symmetry; same_delivery Ht);
      apply (send_message_delivered _ _ _ _ _ Hs) in Hd
        as [Hd | [Hd | [[_ Hd] | [Hd _]]]];
      [ left; exact Hd
      | first [ by rewrite gated_an_message in Hd
              | by rewrite gated_asking_sites in Hd
              | right; left; writing_evidence
              | right; right; status_evidence ]
      | tag_facts Hd; discriminate Hd
      | by destruct (gated_not_results _ Ht) ]
  | _ => left; rewrite <- Hdel; symmetry; same_delivery Ht
  end.

Lemma barrier_effect_step a s s' :
  is_new (runQuery_at s) = false → step a s = Some s' → barrier_effect s s'.
Proof.
  intros Hnew Hstep.
  destruct a; cbn [step] in Hstep; step_cases Hstep.
  all: prepare_case.
  all: split; fields; use_send; fields.
  all: try reflexivity.
  all: try assumption.
  all: try (intros; assumption).
  all: try (intros; left; assumption).
  all: try (intros; reflexivity).
  all: try (left; split; [reflexivity | left; reflexivity]).
  all: try (left; split; [reflexivity | right; reflexivity]).
  all: try (right; eexists; split; reflexivity).
  all: try solve_event_mono.
  all: try solve_gathered.
  all: try solve_regular.
  all: try solve_analyzers.
  all: try solve_writing.
  all: solve_delivered.
Qed.

(** *** The barrier invariant *)

Record barrier_inv (s0 s : State) : Prop := {
  inv_new : runQuery_at s = ONew → s = s0;
  inv_gathered :
    gathered (runQuery_at s) = true → pre_checks_done_event (handler s) = true;
  inv_regular :
    is_Some (regularRanker s) → gathered (runQuery_at s) = true;
  inv_writing :
    writing_any s = true → pre_checks_done_event (handler s) = true;
  inv_delivered : ∀ t,
    gated t = true → delivered t (handler s) = true →
    pre_checks_done_event (handler s) = true;
  inv_all_done :
    precheck_step_state (handler s) ≠ ∅ →
    all_steps_done (precheck_step_state (handler s)) = true →
    pre_checks_done_event (handler s) = true;
  inv_event :
    pre_checks_done_event (handler s) = true →
    all_steps_done (precheck_step_state (handler s)) = true ∨
    gathered (runQuery_at s) = true;
  inv_returned : ∀ a,
    analyzer_at s a = AnReturned →
    precheck_step_state (handler s) !! STEP_NAME a = Some DONE;
  inv_decon_send : ∀ m,
    analyzer_at s Decontextualize = AnSend m →
    precheck_step_state (handler s) !! STEP_NAME Decontextualize = Some DONE;
  inv_registered :
    is_new (runQuery_at s) = false → precheck_step_state (handler s) ≠ ∅
}.

Lemma barrier_inv_init c relevance r dq :
  barrier_inv (init c relevance r dq) (init c relevance r dq).
Proof.
  split; try done.
  all: try (by intros [? [=]]).
  all: try (intros t _; by rewrite delivered_new).
Qed.

Lemma barrier_inv_start c relevance r dq s' :
  runQuery_start (init c relevance r dq) = Some s' →
  barrier_inv (init c relevance r dq) s'.
Proof.
  intros (Hat & Hft & Hrg & Hst & Hrv & Hev & Hall & Han & _)%runQuery_start_init.
  split; unfold writing_any; rewrite ?Hat, ?Hft, ?Hrg, ?Hev, ?Hall; try done.
  all: try (by intros [? [=]]).
  all: try (intros t _; unfold delivered, streamed; by rewrite Hst, Hrv, lookup_empty).
  all: try (intros a Ha; by destruct (Han a) as [H | H]; rewrite H in Ha).
  all: try (intros m Ha; by destruct (Han Decontextualize) as [H | H]; rewrite H in Ha).
  intros _ Hempty. by rewrite Hempty in Hall.
Qed.

Lemma is_new_ONew st : is_new st = true → st = ONew.
Proof. by destruct st. Qed.

Lemma barrier_inv_step c relevance r dq a s s' :
  barrier_inv (init c relevance r dq) s → step a s = Some s' →
  barrier_inv (init c relevance r dq) s'.
Proof.
  intros Hinv Hstep.
  destruct (is_new (runQuery_at s)) eqn:Hnew.
  { apply is_new_ONew in Hnew.
    pose proof (inv_new _ _ Hinv Hnew) as ->.
    pose proof (step_init _ _ _ _ _ _ Hstep) as ->.
    by apply barrier_inv_start. }
  pose proof (barrier_effect_step _ _ _ Hnew Hstep) as E.
  destruct Hinv as [_ Hg Hrg Hw Hd Had Hev Hret Hdec Hreg].
  assert (pre_checks_done_event (handler s') = true →
          all_steps_done (precheck_step_state (handler s')) = true ∨
          gathered (runQuery_at s') = true) as Hev'.
  { intros Hev'.
    destruct (be_steps _ _ E) as [[Hst [Heq | Hgat]] | (n & Hst & Heq)]; auto.
    - rewrite Hst. rewrite Heq in Hev'.
      destruct (Hev Hev'); [by left | right; by apply (be_gathered_mono _ _ E)].
    - rewrite Heq in Hev'. apply orb_true_iff in Hev' as [Hev' | ?]; [| by left].
      destruct (Hev Hev'); [left | right; by apply (be_gathered_mono _ _ E)].
      rewrite Hst. by apply all_steps_done_insert_DONE. }
  assert (∀ k, precheck_step_state (handler s) !! k = Some DONE →
               precheck_step_state (handler s') !! k = Some DONE) as Hdone.
  { intros k Hk.
    destruct (be_steps _ _ E) as [[Hst _] | (n & Hst & _)]; rewrite Hst; [done |].
    by apply lookup_insert_DONE. }
  split.
  - intros Hat. pose proof (be_not_new _ _ E) as H. by rewrite Hat in H.
  - intros Hgat. destruct (be_gathered _ _ E Hgat) as [? | [? | ?]]; auto.
    + apply (be_event_mono _ _ E); auto.
    + apply (be_event_mono _ _ E); auto.
  - intros Hsome. destruct (be_regular _ _ E Hsome); [| done].
    apply (be_gathered_mono _ _ E); auto.
  - intros Hwr. destruct (be_writing _ _ E Hwr); [| done].
    apply (be_event_mono _ _ E); auto.
  - intros t Ht Hdel. apply (be_event_mono _ _ E).
    destruct (be_delivered _ _ E t Ht Hdel) as [? | [? | ?]]; eauto.
  - intros Hne Hall.
    destruct (be_steps _ _ E) as [[Hst [Heq | Hgat]] | (n & Hst & Heq)].
    + rewrite Heq. apply Had; by rewrite <- Hst.
    + destruct (be_gathered _ _ E Hgat) as [? | [? | ?]]; auto;
        apply (be_event_mono _ _ E); auto.
    + rewrite Heq, Hall. apply orb_true_r.
  - exact Hev'.
  - intros a0 Ha.
    destruct (be_returned _ _ E a0 Ha) as [? | [? | [-> [m ?]]]]; eauto.
  - intros m Hm. destruct (be_decon_send _ _ E m Hm); eauto.
  - intros _. specialize (Hreg Hnew).
    destruct (be_steps _ _ E) as [[Hst _] | (n & Hst & _)]; rewrite Hst; [done |].
    apply insert_non_empty.
Qed.

Lemma barrier_inv_reachable c relevance r dq s :
  reachable c relevance r dq s → barrier_inv (init c relevance r dq) s.
Proof.
  intros [schedule Hrun].
  eapply (run_invariant (barrier_inv (init c relevance r dq))); [| | exact Hrun].
  - intros ????. by eapply barrier_inv_step.
  - apply barrier_inv_init.
Qed.

(** ** The barrier *)

Lemma barrier_inv_event s0 s :
  barrier_inv s0 s → pre_checks_done_event (handler s0) = false →
  (pre_checks_done_event (handler s) = true ↔
     (precheck_step_state (handler s) ≠ ∅ ∧
      all_steps_done (precheck_step_state (handler s)) = true) ∨
     gathered (runQuery_at s) = true).
Proof.
  intros Hinv Hinit. split.
  - intros Hev. destruct (inv_event _ _ Hinv Hev) as [Hall | ?]; [| by right].
    destruct (is_new (runQuery_at s)) eqn:Hnew.
    + apply is_new_ONew in Hnew. rewrite (inv_new _ _ Hinv Hnew) in Hev. congruence.
    + left. split; [| done]. by apply (inv_registered _ _ Hinv).
  - intros [[Hne Hall] | Hgat].
    + by apply (inv_all_done _ _ Hinv).
    + by apply (inv_gathered _ _ Hinv).
Qed.

(** C1 (as the code has it).  The event [pre_checks_done] is set exactly
    when every registered step is DONE (at least one being registered) or
    the [gather] of [prepare] has returned, whose [finally] sets the event
    whatever the steps are.  Whatever the tasks do, a [result_batch], a
    [summary] or an [nlws] message reaches the client only once the event
    is set, that is, once every registered step is DONE or the tasks of
    [prepare] have all ended; while the event is clear no task of a ranker
    can pass the barrier of [sendAnswers] or of [do], and none is past it. *)
Theorem answers_wait_for_pre_checks_done c relevance r dq s :
  reachable c relevance r dq s →
  (pre_checks_done_event (handler s) = true ↔
     (precheck_step_state (handler s) ≠ ∅ ∧
      all_steps_done (precheck_step_state (handler s)) = true) ∨
     gathered (runQuery_at s) = true) ∧
  (∀ t, gated t = true → delivered t (handler s) = true →
        pre_checks_done_event (handler s) = true ∧
        ((precheck_step_state (handler s) ≠ ∅ ∧
          all_steps_done (precheck_step_state (handler s)) = true) ∨
         gathered (runQuery_at s) = true)) ∧
  (pre_checks_done_event (handler s) = false →
   writing_any s = false ∧
   ∀ t i, rankItem_barrier t i s = None ∧ rank_barrier t s = None).
Proof.
  intros Hinv%barrier_inv_reachable.
  pose proof (barrier_inv_event _ _ Hinv eq_refl) as Hiff.
  split; [exact Hiff |]. split.
  - intros t Ht Hdel. pose proof (inv_delivered _ _ Hinv t Ht Hdel) as Hev.
    split; [exact Hev | by apply Hiff].
  - intros Hev. split.
    + destruct (writing_any s) eqn:Hw; [| done].
      by rewrite (inv_writing _ _ Hinv Hw) in Hev.
    + intros t i. unfold rankItem_barrier, rank_barrier, mbind, option_bind.
      rewrite Hev. split; by repeat case_match.
Qed.

Lemma answers_wait_for_pre_checks_done_witness :
  ∃ s, run simple_run (init NLWebHandler false simple_request "") = Some s ∧
       delivered "result_batch" (handler s) = true ∧
       pre_checks_done_event (handler s) = true ∧
       ((precheck_step_state (handler s) ≠ ∅ ∧
         all_steps_done (precheck_step_state (handler s)) = true) ∨
        gathered (runQuery_at s) = true).
Proof.
  destruct (run simple_run (init NLWebHandler false simple_request "")) as [s |] eqn:Hrun;
    [| by vm_compute in Hrun].
  exists s. split; [reflexivity |].
  assert (delivered "result_batch" (handler s) = true) as Hdel.
  { vm_compute in Hrun. injection Hrun as <-. vm_compute. reflexivity. }
  split; [exact Hdel |].
  exact (proj1 (proj2 (answers_wait_for_pre_checks_done _ _ _ _ s
                         (ex_intro _ simple_run Hrun)))
           "result_batch" eq_refl Hdel).
Defined.

(** C1, as stated, fails: the decontextualizer of a follow-up question
    raises on an LLM answer without [requires_decontextualization], its step
    stays INITIAL, and the regular ranker still delivers a [result_batch]. *)
Lemma result_batch_while_step_INITIAL :
  ∃ s, run failed_decon_run (init NLWebHandler false followup_request "") = Some s ∧
       delivered "result_batch" (handler s) = true ∧
       precheck_step_state (handler s) !! "Decon" = Some INITIAL.
Proof. eexists. split; [vm_compute; reflexivity |]. split; vm_compute; reflexivity. Qed.

(** C4 (as the code has it).  [pre_checks_done] is set exactly when every
    registered step is DONE (with at least one step registered) or the
    [gather] of [prepare] has returned, whose [finally] sets the event
    whatever the steps are; and [precheck_step_done] sets it exactly when
    the step it records makes every registered step DONE. *)
Theorem pre_checks_done_when c relevance r dq s :
  reachable c relevance r dq s →
  (pre_checks_done_event (handler s) = true ↔
     (precheck_step_state (handler s) ≠ ∅ ∧
      all_steps_done (precheck_step_state (handler s)) = true) ∨
     gathered (runQuery_at s) = true) ∧
  (∀ step_name,
     pre_checks_done_event (precheck_step_done step_name (handler s))
     = pre_checks_done_event (handler s)
       || all_steps_done (<[step_name := DONE]> (precheck_step_state (handler s)))).
Proof.
  intros Hinv%barrier_inv_reachable. split; [| intros; apply precheck_step_done_event].
  split.
  - intros Hev. destruct (inv_event _ _ Hinv Hev) as [Hall | ?]; [| by right].
    destruct (is_new (runQuery_at s)) eqn:Hnew.
    + apply is_new_ONew in Hnew. by rewrite (inv_new _ _ Hinv Hnew) in Hev.
    + left. split; [| done]. by apply (inv_registered _ _ Hinv).
  - intros [[Hne Hall] | Hgat].
    + by apply (inv_all_done _ _ Hinv).
    + by apply (inv_gathered _ _ Hinv).
Qed.

Lemma pre_checks_done_when_witness :
  ∃ s, run simple_run (init NLWebHandler false simple_request "") = Some s ∧
       (pre_checks_done_event (handler s) = true ↔
          (precheck_step_state (handler s) ≠ ∅ ∧
           all_steps_done (precheck_step_state (handler s)) = true) ∨
          gathered (runQuery_at s) = true).
Proof.
  destruct (run simple_run (init NLWebHandler false simple_request "")) as [s |] eqn:Hrun;
    [| by vm_compute in Hrun].
  exists s. split; [reflexivity |].
  exact (proj1 (pre_checks_done_when _ _ _ _ s (ex_intro _ simple_run Hrun))).
Defined.

(** C4, as stated, fails: after the [finally] of [prepare] the event is
    set although the step of the decontextualizer that raised is INITIAL. *)
Lemma pre_checks_done_with_step_INITIAL :
  ∃ s, run failed_decon_prepare (init NLWebHandler false followup_request "") = Some s ∧
       pre_checks_done_event (handler s) = true ∧
       precheck_step_state (handler s) !! "Decon" = Some INITIAL ∧
       all_steps_done (precheck_step_state (handler s)) = false.
Proof. eexists. split; [vm_compute; reflexivity |]. repeat split; vm_compute; reflexivity. Qed.

(** ** Errors *)

Lemma ranker_of_with_ranker t r s : ranker_of t (with_ranker t r s) = Some r.
Proof. by destruct t. Qed.









(** [FastTrack.do] logs the error of its retrieval
    and raises it again to its caller. *)
Lemma fastTrack_raises :
  ∃ s, run failed_search_run (init NLWebHandler false simple_request "") = Some s ∧
       fastTrack_at s = FtRaised ProviderError.
Proof. eexists. split; vm_compute; reflexivity. Qed.

(** ** Aborting the fast track *)

Lemma gated_result_batch : gated "result_batch" = true.
Proof. vm_compute. reflexivity. Qed.

Lemma aborted_fast h : aborted FAST_TRACK h = abort_fast_track_event h.
Proof. reflexivity. Qed.

Lemma aborted_regular h : aborted REGULAR_TRACK h = false.
Proof. reflexivity. Qed.

Lemma STEP_NAME_inj a b : STEP_NAME a = STEP_NAME b → a = b.
Proof. destruct a, b; intros H; first [reflexivity | by vm_compute in H]. Qed.

Lemma STEP_NAME_post_ranking a : "post_ranking" ≠ STEP_NAME a.
Proof. destruct a; intros H; by vm_compute in H. Qed.

Lemma tasks_finished_quiet s a : tasks_finished s = true → quiet (analyzer_at s a) = true.
Proof.
  unfold tasks_finished, all_analyzers. cbn [forallb].
  rewrite !andb_true_iff. intros H. destruct_and!.
  destruct a; (match goal with |- quiet ?x = true => by destruct x end).
Qed.

Ltac prepare_control :=
  prepare_case;
  rewrite ?aborted_fast, ?aborted_regular in *;
  repeat match goal with
    | H : _ && _ = true |- _ => apply andb_true_iff in H; destruct H
    | H : _ || _ = false |- _ => apply orb_false_iff in H; destruct H
    end;
  repeat match goal with
    | H : negb _ = false |- _ => apply negb_false_iff in H
    | H : negb _ = true |- _ => apply negb_true_iff in H
    end;
  try match goal with
    | H : bool_decide (REGULAR_TRACK = FAST_TRACK) = true |- _ => discriminate H
    | H : bool_decide (FAST_TRACK = FAST_TRACK) = false |- _ => discriminate H
    end.

Ltac absurd_premise := let H := fresh in intros H; discriminate H.

Ltac status_of_analyzer H :=
  match goal with
  | Ha : analyzer_at _ ?x = _ |- _ => rewrite Ha in H
  end.

Ltac solve_quiet_mono :=
  intros ?; lookup_analyzer;
  let H := fresh in
  intros H;
  first [ exact H | reflexivity | status_of_analyzer H; discriminate H ].

Ltac other_step :=
  first [ reflexivity
        | rewrite lookup_insert_ne;
          [ reflexivity
          | first [ apply STEP_NAME_post_ranking
                  | let E := fresh in intros E%STEP_NAME_inj; congruence ] ] ].

Ltac solve_nonquiet :=
  intros ?; try lookup_analyzer;
  let H := fresh in
  intros H;
  first [ discriminate H
        | split; [exact H | other_step]
        | split; [match goal with Ha : analyzer_at _ ?x = _ |- _ => rewrite Ha end; reflexivity
                 | other_step] ].

Ltac fast_ranker_evidence :=
  match goal with
  | H : fastTrackRanker ?s = Some _ |- is_Some (fastTrackRanker ?s) => rewrite H; eauto
  end.

Ltac fast_track_evidence :=
  match goal with
  | H : fastTrack_at ?s = _ |- ft_active (fastTrack_at ?s) = true => rewrite H; reflexivity
  end.

Ltac solve_gather :=
  intros _;
  first [ left; status_evidence
        | right; left; assumption
        | right; right; ranker_evidence ].

Ltac solve_fast_writing :=
  try match goal with H : fastTrackRanker _ = Some _ |- _ => rewrite H end;
  let Hw := fresh "Hw" in
  intros Hw;
  try (apply writing_with_item_at in Hw; [| reflexivity]);
  try (apply writing_with_do_at in Hw; [| reflexivity]);
  try (rewrite writing_new in Hw by reflexivity);
  try (rewrite writing_new_dead in Hw by reflexivity);
  first [ discriminate Hw | left; exact Hw | right; assumption ].

Ltac solve_some :=
  intros _;
  first [ left; ranker_evidence
        | left; fast_ranker_evidence
        | right; assumption
        | right; fast_track_evidence
        | right; fast_ranker_evidence ].

Ltac solve_ft_active :=
  intros _; first [ left; fast_track_evidence | right; assumption ].

Ltac solve_stopped :=
  try match goal with Hb : py_eq_str _ _ = _ |- _ => rewrite Hb end;
  let H := fresh in
  intros H;
  first
    [ left; exact H
    | right; split; [reflexivity |]; split; [reflexivity |];
      match goal with
      | Ha : analyzer_at _ ?x = AnPrompt |- _ => exists x; rewrite Ha; reflexivity
      end
    | left; rewrite ?orb_false_r in H; apply orb_true_iff in H as [H | H];
      [ discriminate H | rewrite H; apply orb_true_r ]
    | left; rewrite ?orb_false_r in H; rewrite H; reflexivity ].

Ltac fast_writing_evidence :=
  match goal with
  | H : fastTrackRanker ?s = Some ?r |- writing (fastTrackRanker ?s) = true =>
      rewrite H;
      first [ eapply writing_item; eassumption | eapply writing_do; eassumption ]
  end.

Ltac solve_batch :=
  let Hdel := fresh "Hdel" in
  intros Hdel;
  lazymatch goal with
  | Hs : send_message ?m ?w ?h0 = Ok ?h1 |- _ =>
      let Hd := fresh "Hd" in
      assert (delivered "result_batch" h1 = true) as Hd
        by (refine (eq_trans _ Hdel); symmetry; same_delivery gated_result_batch);
      apply (send_message_delivered _ _ _ _ _ Hs) in Hd
        as [Hd | [Hd | [[_ Hd] | [Hd _]]]];
      [ left; exact Hd
      | first [ by rewrite gated_an_message in Hd
              | by rewrite gated_asking_sites in Hd
              | tag_facts Hd; discriminate Hd
              | right; left; fast_writing_evidence
              | right; right; ranker_evidence ]
      | tag_facts Hd; discriminate Hd
      | discriminate Hd ]
  | _ => left; refine (eq_trans _ Hdel); symmetry;
         same_delivery gated_result_batch
  end.

Lemma control_effect_step a s s' :
  is_new (runQuery_at s) = false → step a s = Some s' → control_effect s s'.
Proof.
  intros Hnew Hstep.
  destruct a; cbn [step] in Hstep; step_cases Hstep.
  all: prepare_control.
  all: split; unfold stopped; fields; use_send; fields; cbn [ft_active].
  all: try reflexivity.
  all: try assumption.
  all: try (intros; assumption).
  all: try (intros; left; assumption).
  all: try (intros; reflexivity).
  all: try absurd_premise.
  all: try (intros; split; [assumption | reflexivity]).
  all: try (right; assumption).
  all: try solve_quiet_mono.
  all: try solve_nonquiet.
  all: try solve_gather.
  all: try solve_fast_writing.
  all: try solve_some.
  all: try solve_ft_active.
  all: try solve_stopped.
  all: try solve_batch.
  all: intros _; right; reflexivity.
Qed.

Lemma eligible_req h h' :
  req h' = req h → is_fastTrack_eligible h' = is_fastTrack_eligible h.
Proof. unfold is_fastTrack_eligible. by intros ->. Qed.

Lemma all_steps_done_lookup (m : gmap string step_state) k st :
  all_steps_done m = true → m !! k = Some st → st = DONE.
Proof. intros H%bool_decide_eq_true Hk. by apply (H k st). Qed.

Lemma control_inv_init c relevance r dq :
  control_inv (init c relevance r dq) (init c relevance r dq).
Proof.
  split; try done.
  all: try (by intros [? [=]]).
  all: try (intros; by rewrite delivered_new in *).
Qed.

Lemma register_req l h : req (register l h) = req h.
Proof.
  unfold register. revert h.
  induction l as [| a l IH]; intros h; [reflexivity |].
  cbn [foldl]. by rewrite IH.
Qed.

Lemma runQuery_start_control c relevance r dq s' :
  runQuery_start (init c relevance r dq) = Some s' →
  req (handler s') = r ∧
  stopped (handler s') = false ∧
  requires_decontextualization (handler s') = false ∧
  fastTrackWorked (handler s') = false ∧
  ft_active (fastTrack_at s') = false ∧
  (decon_obj s' = PrevQueryDecontextualizer → prev_queries r ≠ []).
Proof.
  unfold runQuery_start, init. fields.
  rewrite construct_decontextualizeQuery. intros ?; simplify_eq. fields.
  match goal with |- context [decontextualizeQuery ?h] =>
    pose proof (decontextualizeQuery_cases h) as Hcases;
    rewrite register_req in Hcases;
    change (req (new_handler r dq)) with r in Hcases;
    set (d := fst (decontextualizeQuery h)) in *;
    destruct (decontextualizeQuery_snd h) as [-> | ->]
  end.
  all: assert (d = PrevQueryDecontextualizer → prev_queries r ≠ []) as Hprev
         by (intros Hd; destruct Hcases as [Hc | [_ Hc]]; [by rewrite Hc in Hd | exact Hc]).
  all: clearbody d; clear Hcases.
  all: destruct c; unfold stopped, register, new_handler; cbn [foldl]; fields.
  all: repeat split; try reflexivity; exact Hprev.
Qed.

Lemma control_inv_start c relevance r dq s' :
  runQuery_start (init c relevance r dq) = Some s' →
  control_inv (init c relevance r dq) s'.
Proof.
  intros Hstart.
  pose proof (runQuery_start_init _ _ _ _ _ Hstart)
    as (Hat & Hft & Hrg & Hst & Hrv & Hev & Hall & Han & Hinit).
  pose proof (runQuery_start_control _ _ _ _ _ Hstart)
    as (Hreq & Hstop & Hrd & Hw & Hact & Hprev).
  split; rewrite ?Hft, ?Hrg, ?Hev, ?Hstop, ?Hrd, ?Hw, ?Hact, ?Hreq; try done.
  all: try (by intros [? [=]]).
  - intros a Ha. apply Hinit. destruct (Han a) as [H | H]; [done |].
    by rewrite H in Ha.
Qed.
Lemma control_inv_step c relevance r dq a s s' :
  barrier_inv (init c relevance r dq) s →
  control_inv (init c relevance r dq) s →
  step a s = Some s' →
  control_inv (init c relevance r dq) s'.
Proof.
  intros Hb Hinv Hstep.
  destruct (is_new (runQuery_at s)) eqn:Hnew.
  { apply is_new_ONew in Hnew.
    pose proof (inv_new _ _ Hb Hnew) as ->.
    pose proof (step_init _ _ _ _ _ _ Hstep) as ->.
    by apply control_inv_start. }
  pose proof (barrier_effect_step _ _ _ Hnew Hstep) as B.
  pose proof (control_effect_step _ _ _ Hnew Hstep) as E.
  destruct Hinv as [Hreq Hstop Hwait Hev Hfast Hrg Hbatch Hprev Hrequires Hact Hrk Hwk].
  assert (stopped (handler s') = true →
          abort_fast_track_event (handler s') = true ∧ query_done (handler s') = true)
    as Hstop'.
  { intros H. destruct (ce_stopped _ _ E H) as [H0 | (? & ? & _)]; [| done].
    destruct (Hstop H0). split; [by apply (ce_abort_mono _ _ E) | by apply (ce_done_mono _ _ E)]. }
  assert (pre_checks_done_event (handler s) = true →
          stopped (handler s) = false → stopped (handler s') = false) as Hkeep.
  { intros He H0. destruct (stopped (handler s')) eqn:H1; [| done].
    destruct (ce_stopped _ _ E H1) as [H2 | (_ & _ & a0 & Ha0)]; [congruence |].
    by rewrite (Hev He a0) in Ha0. }
  assert (is_Some (regularRanker s) → pre_checks_done_event (handler s) = true) as Hrgev.
  { intros H. apply (inv_gathered _ _ Hb). by apply (inv_regular _ _ Hb). }
  assert (writing (fastTrackRanker s) = true → pre_checks_done_event (handler s) = true)
    as Hftev.
  { intros H. apply (inv_writing _ _ Hb). unfold writing_any. by rewrite H. }
  split.
  - by rewrite (ce_req _ _ E).
  - exact Hstop'.
  - intros a0 Ha0. destruct (ce_nonquiet _ _ E a0 Ha0) as [H0 ->]. by apply Hwait.
  - intros He a0.
    destruct (pre_checks_done_event (handler s)) eqn:He0.
    { apply (ce_quiet_mono _ _ E). by apply Hev. }
    destruct (be_steps _ _ B) as [[_ [Heq | Hg]] | (n & Hn & Hor)].
    + congruence.
    + destruct (ce_gather _ _ E Hg) as [H0 | [H0 | H0]].
      * pose proof (inv_gathered _ _ Hb H0). congruence.
      * apply (ce_quiet_mono _ _ E). by apply tasks_finished_quiet.
      * pose proof (Hrgev H0). congruence.
    + rewrite He, He0 in Hor. cbn [orb] in Hor. symmetry in Hor.
      destruct (quiet (analyzer_at s' a0)) eqn:Hq; [done |].
      destruct (ce_nonquiet _ _ E a0 Hq) as [H0 H1].
      pose proof (Hwait a0 H0) as H2. rewrite <- H1 in H2.
      by pose proof (all_steps_done_lookup _ _ _ Hor H2).
  - intros H. destruct (ce_fast_writing _ _ E H) as [H0 | H0].
    + apply Hkeep; [by apply Hftev | by apply Hfast].
    + destruct (stopped (handler s')) eqn:H1; [| done].
      destruct (Hstop' eq_refl). congruence.
  - intros H. destruct (ce_regular _ _ E H) as [H0 | H0].
    + apply Hkeep; [by apply Hrgev | by apply Hrg].
    + destruct (stopped (handler s')) eqn:H1; [| done].
      destruct (Hstop' eq_refl). congruence.
  - intros H. destruct (ce_batch _ _ E H) as [H0 | [H0 | H0]].
    + apply Hkeep; [| by apply Hbatch].
      by apply (inv_delivered _ _ Hb "result_batch" gated_result_batch).
    + apply Hkeep; [by apply Hftev | by apply Hfast].
    + apply Hkeep; [by apply Hrgev | by apply Hrg].
  - rewrite (ce_decon_obj _ _ E), (ce_req _ _ E). exact Hprev.
  - intros H. rewrite (ce_decon_obj _ _ E). split.
    + destruct (ce_requires _ _ E H) as [H0 | H0]; [by apply Hrequires | done].
    + destruct (ce_requires_abort _ _ E H) as [H0 | H0]; [| done].
      apply (ce_abort_mono _ _ E). by apply Hrequires.
  - intros H. rewrite (eligible_req _ _ (ce_req _ _ E)).
    destruct (ce_ft_active _ _ E H) as [H0 | H0]; [by apply Hact | done].
  - intros H. rewrite (eligible_req _ _ (ce_req _ _ E)).
    destruct (ce_ft_ranker _ _ E H) as [H0 | H0]; [by apply Hrk | by apply Hact].
  - intros H. rewrite (eligible_req _ _ (ce_req _ _ E)).
    destruct (ce_worked _ _ E H) as [H0 | H0]; [by apply Hwk | by apply Hrk].
Qed.

Lemma control_inv_reachable c relevance r dq s :
  reachable c relevance r dq s →
  barrier_inv (init c relevance r dq) s ∧ control_inv (init c relevance r dq) s.
Proof.
  intros [schedule Hrun].
  eapply (run_invariant (λ s, barrier_inv (init c relevance r dq) s ∧
                               control_inv (init c relevance r dq) s)); [| | exact Hrun].
  - intros ? ? ? [? ?] ?. split; [by eapply barrier_inv_step | by eapply control_inv_step].
  - split; [apply barrier_inv_init | apply control_inv_init].
Qed.
(** ** Stopping a request *)

(** A query that needs decontextualization is still answered: the follow-up
    question of [rewrite_run] is rewritten by the decontextualizer, and its
    answers are then delivered in a [result_batch] by the regular ranker. *)
(** C3, as stated, fails: a follow-up question needs decontextualization,
    and the regular ranker delivers a [result_batch] for the rewritten
    query. *)
Lemma rewritten_query_is_answered :
  ∃ s, run rewrite_run (init NLWebHandler false followup_request "") = Some s ∧
       requires_decontextualization (handler s) = true ∧
       delivered "result_batch" (handler s) = true ∧
       is_Some (regularRanker s).
Proof.
  destruct (run rewrite_run (init NLWebHandler false followup_request "")) as [s |] eqn:Hrun;
    [| by vm_compute in Hrun].
  exists s. split; [reflexivity |].
  vm_compute in Hrun. injection Hrun as <-.
  split; [by vm_compute |]. split; [by vm_compute |]. by eexists.
Qed.

(** C3 (as the code has it).  Once a precheck has found the site irrelevant
    to the query or required information missing, [abort_fast_track] and
    [query_done] are set, no [result_batch] has been or will be delivered,
    the regular ranker never runs and no task of the fast-track ranker is
    past the barrier.  A query that needs decontextualization stops the
    fast track only: [abort_fast_track] is set, and as such a query has
    previous queries the fast track was never eligible, so its ranker does
    not exist and [fastTrackWorked] stays false. *)
Theorem abort_stops_answers c relevance r dq s :
  reachable c relevance r dq s →
  (required_info_found (handler s) = Some false ∨ query_is_irrelevant (handler s) = true →
   abort_fast_track_event (handler s) = true ∧ query_done (handler s) = true ∧
   delivered "result_batch" (handler s) = false ∧
   regularRanker s = None ∧ writing (fastTrackRanker s) = false) ∧
  (requires_decontextualization (handler s) = true →
   abort_fast_track_event (handler s) = true ∧ prev_queries r ≠ [] ∧
   fastTrackRanker s = None ∧ fastTrackWorked (handler s) = false).
Proof.
  intros Hreach.
  destruct (control_inv_reachable _ _ _ _ _ Hreach) as [_ Hinv].
  destruct Hinv as [Hreq Hstop _ _ Hfast Hrg Hbatch Hprev Hrequires _ Hrk Hwk].
  split.
  - intros Hflag.
    assert (stopped (handler s) = true) as Hs.
    { unfold stopped. destruct Hflag as [-> | ->]; [done | apply orb_true_r]. }
    destruct (Hstop Hs) as [Habort Hdone].
    split; [exact Habort |]. split; [exact Hdone |].
    split; [| split].
    + destruct (delivered "result_batch" (handler s)) eqn:Hd; [| done].
      specialize (Hbatch eq_refl). congruence.
    + destruct (regularRanker s) as [rk |] eqn:Hr; [| done].
      assert (stopped (handler s) = false) by (apply Hrg; by eexists). congruence.
    + destruct (writing (fastTrackRanker s)) eqn:Hw; [| done].
      specialize (Hfast eq_refl). congruence.
  - intros Hflag. destruct (Hrequires Hflag) as [Hd Habort].
    specialize (Hprev Hd). rewrite Hreq in Hprev. change (prev_queries r ≠ []) in Hprev.
    assert (is_fastTrack_eligible (handler s) = false) as Hel.
    { unfold is_fastTrack_eligible. rewrite Hreq. change (req (handler (init c relevance r dq))) with r.
      destruct (prev_queries r); [done |]. by destruct (negb _). }
    split; [exact Habort |]. split; [exact Hprev |]. split.
    + destruct (fastTrackRanker s) as [rk |] eqn:Hr; [| done].
      assert (is_fastTrack_eligible (handler s) = true) by (apply Hrk; by eexists). congruence.
    + destruct (fastTrackWorked (handler s)) eqn:Hw; [| done].
      specialize (Hwk eq_refl). congruence.
Qed.

Lemma abort_stops_answers_witness :
  ∃ s, run ask_user_run (init NLWebHandler false simple_request "") = Some s ∧
       required_info_found (handler s) = Some false ∧
       delivered "result_batch" (handler s) = false ∧
       regularRanker s = None ∧ writing (fastTrackRanker s) = false.
Proof.
  destruct (run ask_user_run (init NLWebHandler false simple_request "")) as [s |] eqn:Hrun;
    [| by vm_compute in Hrun].
  exists s. split; [reflexivity |].
  assert (required_info_found (handler s) = Some false) as Hflag.
  { vm_compute in Hrun. injection Hrun as <-. vm_compute. reflexivity. }
  split; [exact Hflag |].
  exact (proj2 (proj2 (proj1 (abort_stops_answers _ _ _ _ s (ex_intro _ ask_user_run Hrun))
                         (or_introl Hflag)))).
Defined.
(** ** The stream *)

Lemma send_message_version message w h h' :
  send_message message w h = Ok h' →
  (versionNumberSent h = true → versionNumberSent h' = true) ∧
  (stream h' = stream h ∨
   stream h' = stream h ++ [<["query_id" := PStr (query_id (req h))]> message] ∧
   versionNumberSent h' = true).
Proof.
  unfold send_message. intros H.
  destruct (negb (connection_alive_event h)); [simplify_eq; by auto |].
  destruct (streaming (req h) && http_handler (req h)).
  - destruct (versionNumberSent h) eqn:Hv, w; simplify_eq; simpl; auto.
  - unfold aggregate in H. repeat case_match; simplify_eq; simpl; auto.
Qed.

Lemma not_api_version_an_message m :
  message_type_is "api_version" (an_message_dict m) = false.
Proof.
  destruct (message_type_is "api_version" (an_message_dict m)) eqn:H; [| done].
  by destruct (tag_an_message _ _ H) as [? | [? | ?]].
Qed.

Ltac solve_stream :=
  lazymatch goal with
  | Hs : send_message ?m ?w ?h0 = Ok ?h1 |- _ =>
      let Hv := fresh "Hv" in
      let Hst := fresh "Hst" in
      destruct (send_message_version _ _ _ _ Hs) as [Hv Hst];
      fields; split; [exact Hv |];
      destruct Hst as [Hst | [Hst Hv']]; [left; exact Hst |];
      right; eexists; split; [exact Hst |]; split; [| exact Hv'];
      rewrite message_type_is_query_id;
      rewrite ?tag_asking_sites, ?tag_result_batch, ?tag_summary, ?tag_gen_message,
        ?not_api_version_an_message;
      reflexivity
  | _ => split; [intros Hv; exact Hv | left; reflexivity]
  end.

Lemma stream_effect_step a s s' :
  is_new (runQuery_at s) = false → step a s = Some s' →
  stream_effect (handler s) (handler s').
Proof.
  intros Hnew Hstep.
  destruct a; cbn [step] in Hstep; step_cases Hstep.
  all: prepare_case.
  all: unfold stream_effect; fields; autorewrite with handler; fields.
  all: solve_stream.
Qed.

Lemma stream_inv_step c relevance r dq a s s' :
  stream_inv (init c relevance r dq) s → step a s = Some s' →
  stream_inv (init c relevance r dq) s'.
Proof.
  intros (Hinit & Hno & Hsent) Hstep.
  destruct (is_new (runQuery_at s)) eqn:Hnew.
  { apply is_new_ONew in Hnew.
    pose proof (Hinit Hnew) as ->.
    pose proof (step_init _ _ _ _ _ _ Hstep) as ->.
    pose proof (runQuery_start_init _ _ _ _ _ Hstep) as (Hat & _ & _ & Hst & _).
    unfold stream_inv, streamed. rewrite Hat, Hst. by repeat split. }
  pose proof (barrier_effect_step _ _ _ Hnew Hstep) as B.
  destruct (stream_effect_step _ _ _ Hnew Hstep) as [Hmono [Hst | (m & Hst & Hm & Hv)]].
  - unfold stream_inv, streamed in *. rewrite Hst. split; [| split; [exact Hno | by auto]].
    intros H0. pose proof (be_not_new _ _ B) as H1. by rewrite H0 in H1.
  - split; [| split].
    + intros H0. pose proof (be_not_new _ _ B) as H1. by rewrite H0 in H1.
    + by rewrite (streamed_app _ _ _ _ Hst), Hno, Hm.
    + intros _. exact Hv.
Qed.

Lemma stream_inv_reachable c relevance r dq s :
  reachable c relevance r dq s → stream_inv (init c relevance r dq) s.
Proof.
  intros [schedule Hrun].
  eapply (run_invariant (stream_inv (init c relevance r dq))); [| | exact Hrun].
  - intros ????. by eapply stream_inv_step.
  - by repeat split.
Qed.

(** C5, as stated, fails: the request of [simple_run] streams, and the
    first message of its stream is a [result_batch], not the announcement
    of the version. *)
Lemma first_message_is_not_api_version :
  ∃ s, run simple_run (init NLWebHandler false simple_request "") = Some s ∧
       streaming (req (handler s)) = true ∧
       message_type_is "result_batch" <$> head (stream (handler s)) = Some true ∧
       message_type_is "api_version" <$> head (stream (handler s)) = Some false.
Proof.
  destruct (run simple_run (init NLWebHandler false simple_request "")) as [s |] eqn:Hrun;
    [| by vm_compute in Hrun].
  exists s. split; [reflexivity |].
  vm_compute in Hrun. injection Hrun as <-.
  split; [vm_compute; reflexivity |]. split; vm_compute; reflexivity.
Qed.

(** C5 (as the code has it).  [send_message] writes the message of its
    caller and nothing else: on the first streamed message the handler
    notes the version as sent, but the write of the announcement is
    commented out.  So no message of the stream is an [api_version]
    announcement, the first one included, and [versionNumberSent] holds as
    soon as the stream is not empty. *)
Theorem api_version_is_never_streamed c relevance r dq s :
  reachable c relevance r dq s →
  streamed "api_version" (handler s) = false ∧
  ∀ m, head (stream (handler s)) = Some m →
       message_type_is "api_version" m = false ∧ versionNumberSent (handler s) = true.
Proof.
  intros Hreach.
  destruct (stream_inv_reachable _ _ _ _ _ Hreach) as (_ & Hno & Hsent).
  split; [exact Hno |].
  intros m Hm. unfold streamed in Hno.
  destruct (stream (handler s)) as [| m0 l] eqn:Hs; [done |].
  simpl in Hm. simplify_eq. split; [| by apply Hsent].
  cbn [existsb] in Hno. by apply orb_false_iff in Hno as [? _].
Qed.

Lemma api_version_is_never_streamed_witness :
  ∃ s, run simple_run (init NLWebHandler false simple_request "") = Some s ∧
       streamed "result_batch" (handler s) = true ∧
       streamed "api_version" (handler s) = false.
Proof.
  destruct (run simple_run (init NLWebHandler false simple_request "")) as [s |] eqn:Hrun;
    [| by vm_compute in Hrun].
  exists s. split; [reflexivity |].
  assert (streamed "result_batch" (handler s) = true) as Hres.
  { vm_compute in Hrun. injection Hrun as <-. vm_compute. reflexivity. }
  split; [exact Hres |].
  exact (proj1 (api_version_is_never_streamed _ _ _ _ s (ex_intro _ simple_run Hrun))).
Defined.
(** ** The final flush *)

Lemma insert_desc_elem_of store z x l y :
  y ∈ insert_desc store z x l ↔ y = x ∨ y ∈ l.
Proof.
  induction l as [| y0 l IH]; simpl.
  - set_solver.
  - destruct (store !! y0) as [b |]; [destruct (ans_score b <=? z) |];
      rewrite ?elem_of_cons, ?IH; rewrite ?elem_of_cons; tauto.
Qed.

Lemma insert_desc_descending store x a l :
  store !! x = Some a →
  Forall (λ y, is_Some (store !! y)) l →
  descending store l → descending store (insert_desc store (ans_score a) x l).
Proof.
  intros Hx Hl Hs. unfold descending in *. revert Hl.
  induction Hs as [| y0 l Hs IH Hy0]; simpl; intros Hl.
  - repeat constructor.
  - inversion Hl as [| ? ? [b Hb] Hl']; subst. rewrite Hb.
    destruct (Z.leb_spec (ans_score b) (ans_score a)) as [Hle | Hgt].
    + constructor; [by constructor |].
      assert (score_at store x = ans_score a) as Hsx by (unfold score_at; by rewrite Hx).
      assert (score_at store y0 = ans_score b) as Hsy by (unfold score_at; by rewrite Hb).
      constructor; [lia |].
      clear -Hy0 Hle Hsx Hsy. induction Hy0; constructor; [lia | done].
    + constructor; [by apply IH |].
      apply list.Forall_forall. intros y Hy. apply insert_desc_elem_of in Hy as [-> | Hy].
      * unfold score_at. rewrite Hx, Hb. simpl. lia.
      * by eapply list.Forall_forall in Hy0.
Qed.

Lemma sorted_desc_elem_of store l y :
  y ∈ sorted_desc store l ↔ y ∈ l ∧ is_Some (store !! y).
Proof.
  induction l as [| x l IH]; simpl; [set_solver |].
  destruct (store !! x) as [a |] eqn:Hx.
  - rewrite insert_desc_elem_of, IH, elem_of_cons. split.
    + intros [-> | [? ?]]; [split; [by left | by eexists] | tauto].
    + intros [[-> | ?] ?]; tauto.
  - rewrite IH, elem_of_cons. split; [tauto |].
    intros [[-> | ?] [? ?]]; [congruence | split; [done | by eexists]].
Qed.

Lemma sorted_desc_descending store l : descending store (sorted_desc store l).
Proof.
  induction l as [| x l IH]; simpl; [constructor |].
  destruct (store !! x) as [a |] eqn:Hx; [| done].
  apply insert_desc_descending; [done | | done].
  apply list.Forall_forall. intros y Hy. by apply sorted_desc_elem_of in Hy as [_ ?].
Qed.

Lemma descending_filter store (P : nat → Prop) `{∀ x, Decision (P x)} l :
  descending store l → descending store (filter P l).
Proof.
  unfold descending. induction 1 as [| x l Hs IH Hx]; [constructor |].
  rewrite filter_cons. destruct (decide (P x)); [| done].
  constructor; [done |].
  apply list.Forall_forall. intros y Hy%list_elem_of_filter.
  eapply list.Forall_forall in Hx; [exact Hx | tauto].
Qed.

Lemma descending_take store n l :
  descending store l → descending store (take n l).
Proof.
  unfold descending. intros Hs. revert n.
  induction Hs as [| x l Hs IH Hx]; intros [| n]; simpl; try constructor; [by apply IH |].
  by apply list.Forall_take.
Qed.

Lemma insert_desc_perm store z x l : insert_desc store z x l ≡ₚ x :: l.
Proof.
  induction l as [| y l IH]; simpl; [done |].
  destruct (store !! y) as [b |]; [destruct (ans_score b <=? z); [done |] |];
    rewrite IH; apply Permutation_swap.
Qed.

Lemma sorted_desc_good store l :
  length (filter (λ r, score_above store 51 r = true) (sorted_desc store l)) =
  length (filter (λ r, score_above store 51 r = true) l).
Proof.
  induction l as [| x l IH]; simpl; [done |].
  destruct (store !! x) as [a |] eqn:Hx.
  - rewrite insert_desc_perm, !filter_cons. case_decide; simpl; by rewrite IH.
  - rewrite filter_cons, decide_False; [done |].
    unfold score_above. by rewrite Hx.
Qed.

(** C2 (the code at the failing input).  Twelve items are retrieved, and
    the LLM scores each of them 55: above 51, below the threshold of an
    early send.  None is sent early, and the final flush of [Ranking.do]
    streams one [result_batch] of eleven results, one more than
    [NUM_RESULTS_TO_SEND]. *)
Theorem eleven_results_streamed :
  ∃ s, run eleven_run (init NLWebHandler false simple_request "") = Some s ∧
       results_streamed (handler s) = 11%nat ∧
       batch_size <$> stream (handler s) = [11%nat] ∧
       NUM_RESULTS_TO_SEND = 10%nat.
Proof.
  destruct (run eleven_run (init NLWebHandler false simple_request "")) as [s |] eqn:Hrun;
    [| by vm_compute in Hrun].
  exists s. split; [reflexivity |].
  vm_compute in Hrun. injection Hrun as <-.
  repeat split; vm_compute; reflexivity.
Qed.

(** X5.  The final forced flush of [Ranking.do].  When more than
    [NUM_RESULTS_TO_SEND] results were counted as sent, nothing is flushed.
    Otherwise the flush takes answers of [rankedAnswers] that are not marked
    sent and score above 51, and of these exactly
    [NUM_RESULTS_TO_SEND - num_results_sent + 1] when there are that many,
    all of them otherwise: with what was counted before, the count comes
    to [NUM_RESULTS_TO_SEND + 1], one more than the limit, whenever enough
    such answers are left. *)
Theorem final_batch_spec (rk : Ranking) (store : list answer) :
  (final_batch rk store = None ↔ (NUM_RESULTS_TO_SEND < num_results_sent rk)%nat) ∧
  ∀ tosend, final_batch rk store = Some tosend →
    (∀ r, r ∈ tosend →
          r ∈ rankedAnswers rk ∧
          ∃ a, store !! r = Some a ∧ ans_sent a = false ∧ 51 < ans_score a) ∧
    length tosend = Nat.min (NUM_RESULTS_TO_SEND - num_results_sent rk + 1)
                            (length (good_unsent rk store)) ∧
    (num_results_sent rk + length tosend ≤ NUM_RESULTS_TO_SEND + 1)%nat ∧
    ((NUM_RESULTS_TO_SEND < num_results_sent rk + length (good_unsent rk store))%nat →
     (num_results_sent rk + length tosend = NUM_RESULTS_TO_SEND + 1)%nat).
Proof.
  unfold final_batch.
  destruct (Nat.ltb_spec NUM_RESULTS_TO_SEND (num_results_sent rk)) as [Hgt | Hle].
  { split; [done |]. by intros. }
  split; [split; [by repeat case_match | lia] |].
  intros tosend Hsend.
  set (results := filter (λ r, not_sent store r = true) (rankedAnswers rk)) in *.
  set (good := filter (λ r, score_above store 51 r = true) (sorted_desc store results)) in *.
  assert (length good = length (good_unsent rk store)) as Hlen.
  { unfold good, good_unsent, results. by rewrite sorted_desc_good, list_filter_filter. }
  assert (∀ r, r ∈ good →
            r ∈ rankedAnswers rk ∧
            ∃ a, store !! r = Some a ∧ ans_sent a = false ∧ 51 < ans_score a) as Hgood.
  { intros r Hr. apply list_elem_of_filter in Hr as [Hscore Hr].
    apply sorted_desc_elem_of in Hr as [Hr _].
    apply list_elem_of_filter in Hr as [Hsent Hr]. split; [done |].
    unfold score_above, not_sent in *. destruct (store !! r) as [a |]; [| done].
    exists a. split; [done |]. split; [by apply negb_true_iff | lia]. }
  rewrite <- Hlen.
  destruct (Nat.leb_spec NUM_RESULTS_TO_SEND (length good + num_results_sent rk));
    simplify_eq.
  - split; [| rewrite length_take; lia].
    intros r Hr. apply Hgood. apply elem_of_take in Hr as (i & Hi & _).
    by eapply list_elem_of_lookup_2.
  - split; [done | lia].
Qed.

Lemma final_batch_spec_witness :
  ∃ tosend, final_batch full_ranking full_store = Some tosend ∧
            (num_results_sent full_ranking + length tosend = NUM_RESULTS_TO_SEND + 1)%nat.
Proof.
  destruct (final_batch full_ranking full_store) as [tosend |] eqn:Hsend;
    [| by vm_compute in Hsend].
  exists tosend. split; [reflexivity |].
  apply (proj2 (final_batch_spec full_ranking full_store) tosend Hsend).
  vm_compute. lia.
Defined.

(** X24.  With integer scores, the only scores [rankItem] of this model
    accepts, the final flush and [final_ranked_answers] list their answers
    in descending order of score.  (A score that is a float, or no number
    that compares, is outside the model.) *)
Theorem final_batch_descending (rk : Ranking) (store : list answer) :
  descending store (top_ranked rk store) ∧
  ∀ tosend, final_batch rk store = Some tosend → descending store tosend.
Proof.
  split.
  - apply descending_take, sorted_desc_descending.
  - unfold final_batch. intros tosend Hsend.
    repeat case_match; simplify_eq;
      [apply descending_take |]; apply descending_filter, sorted_desc_descending.
Qed.

(** ** The choice of the decontextualizer *)

(** X6.  [decontextualizeQuery] builds one of two decontextualizers only:
    [PrevQueryDecontextualizer] exactly when the request has previous
    queries and brings no decontextualized query of its own, and
    [NoOpDecontextualizer] in every other case.  The branches of
    [ContextUrlDecontextualizer] and [FullDecontextualizer] are dead, and
    the handler is changed only without previous queries, where the
    decontextualized query becomes the query. *)
Theorem decontextualizeQuery_choice (h : Handler) :
  (fst (decontextualizeQuery h) = PrevQueryDecontextualizer ↔
     prev_queries (req h) ≠ [] ∧ py_eq_str (decontextualized_query h) "" = true) ∧
  (fst (decontextualizeQuery h) = NoOpDecontextualizer ↔
     prev_queries (req h) = [] ∨ py_eq_str (decontextualized_query h) "" = false) ∧
  fst (decontextualizeQuery h) ≠ ContextUrlDecontextualizer ∧
  fst (decontextualizeQuery h) ≠ FullDecontextualizer ∧
  snd (decontextualizeQuery h)
  = if bool_decide (prev_queries (req h) = [])
    then set_decontextualized_query (PStr (query (req h))) h else h.
Proof.
  unfold decontextualizeQuery.
  destruct (prev_queries (req h)) as [| q qs]; simpl.
  { repeat split; try done; try (intros [? _]; done); auto. }
  destruct (py_eq_str (decontextualized_query h) ""); simpl.
  - repeat split; try done. intros [? | ?]; done.
  - repeat split; try done; try (intros [_ ?]; done); auto.
Qed.

(** X7.  A decontextualized query that comes with the request does not
    survive the prechecks: it makes [decontextualizeQuery] choose
    [NoOpDecontextualizer], whose [do()] then replaces it by the raw query
    (and marks the step ["Decon"] DONE). *)
Theorem provided_query_is_overwritten (h : Handler) (enabled : bool) :
  py_eq_str (decontextualized_query h) "" = false →
  let d := fst (decontextualizeQuery h) in
  let h1 := start_precheck_step "Decon" (snd (decontextualizeQuery h)) in
  let h2 := fst (analyzer_begin Decontextualize d enabled h1) in
  d = NoOpDecontextualizer ∧
  decontextualized_query h2 = PStr (query (req h)) ∧
  requires_decontextualization h2 = false ∧
  precheck_step_state h2 !! "Decon" = Some DONE.
Proof.
  intros Hdq. cbv zeta.
  destruct (decontextualizeQuery_choice h) as (_ & Hnoop & _ & _ & Hsnd).
  assert (fst (decontextualizeQuery h) = NoOpDecontextualizer) as Hd
    by (apply Hnoop; by right).
  rewrite Hd, Hsnd. split; [done |].
  unfold analyzer_begin, returned_done. cbn [fst STEP_NAME].
  autorewrite with handler. rewrite ?precheck_step_done_steps.
  case_bool_decide; unfold start_precheck_step; fields;
    (split; [done |]); (split; [done |]); apply lookup_insert_eq.
Qed.

Lemma provided_query_is_overwritten_witness :
  decontextualized_query
    (fst (analyzer_begin Decontextualize
            (fst (decontextualizeQuery (new_handler followup_request "movies from 2000")))
            false
            (start_precheck_step "Decon"
               (snd (decontextualizeQuery (new_handler followup_request "movies from 2000"))))))
  = PStr "and 2000".
Proof.
  exact (proj1 (proj2 (provided_query_is_overwritten
                         (new_handler followup_request "movies from 2000") false eq_refl))).
Defined.
(** ** Messages of a request that does not stream *)

(** C7 (what the code does).  The message [PrevQueryDecontextualizer.do]
    sends after a rewrite
    has its tag under the key [type], not [message_type].  On a live
    connection that does not stream, [send_message] indexes the message by
    [message_type] and raises [KeyError]; the task of the decontextualizer
    ends with that error, after its step was marked DONE, and nothing is
    added to [return_value]. *)
Theorem untagged_message_raises (dq : pyval) (w : write_outcome) (h : Handler) :
  connection_alive_event h = true →
  streaming (req h) && http_handler (req h) = false →
  decontextualized_query_message dq !! "message_type" = None ∧
  send_message (decontextualized_query_message dq) w h = Err (KeyError "message_type") ∧
  analyzer_sent Decontextualize (DecontextualizedQuery dq) w h
  = (h, AnRaised (KeyError "message_type")).
Proof.
  intros Halive Hstream.
  assert (decontextualized_query_message dq !! "message_type" = None) as Hkey.
  { unfold decontextualized_query_message. by rewrite !lookup_insert_ne, lookup_empty. }
  assert (send_message (decontextualized_query_message dq) w h = Err (KeyError "message_type"))
    as Hsend.
  { unfold send_message. rewrite Halive, Hstream. cbn [negb].
    unfold aggregate, getitem. by rewrite Hkey. }
  split; [exact Hkey |]. split; [exact Hsend |].
  unfold analyzer_sent. cbn [an_message_dict]. by rewrite Hsend.
Qed.

Lemma untagged_message_raises_witness :
  send_message (decontextualized_query_message (PStr "movies from 2000")) Delivered
    (new_handler batch_request "")
  = Err (KeyError "message_type").
Proof.
  exact (proj1 (proj2 (untagged_message_raises (PStr "movies from 2000") Delivered
                         (new_handler batch_request "") eq_refl eq_refl))).
Defined.

(** X9.  Without streaming, the results of the [result_batch] messages
    accumulate in [return_value["results"]] in the order they are sent: a
    batch is appended to the list that is there, an empty batch changes
    nothing, and no other key of [return_value] is touched. *)
Theorem result_batches_accumulate (json_results : list pyval) (w : write_outcome)
    (h : Handler) :
  connection_alive_event h = true →
  streaming (req h) && http_handler (req h) = false →
  results_wf h →
  ∃ h', send_message (result_batch json_results h) w h = Ok h' ∧
        results_of h' = results_of h ++ json_results ∧
        results_wf h' ∧
        stream h' = stream h ∧
        ∀ k, k ≠ "results" → return_value h' !! k = return_value h !! k.
Proof.
  intros Halive Hstream Hwf.
  unfold send_message. rewrite Halive, Hstream. cbn [negb].
  unfold aggregate, getitem, result_batch.
  rewrite lookup_insert_eq. rewrite bool_decide_eq_true_2 by done.
  rewrite lookup_insert_ne by done. rewrite lookup_insert_eq.
  unfold results_wf, results_of in *.
  destruct json_results as [| j js].
  { eexists. split; [reflexivity |]. rewrite app_nil_r. by repeat split. }
  destruct (return_value h !! "results") as [[| | | | old |] |] eqn:Hold; try done.
  - eexists. split; [reflexivity |]. fields. rewrite lookup_insert_eq.
    repeat split; try done. intros k Hk. by rewrite lookup_insert_ne.
  - eexists. split; [reflexivity |]. fields. rewrite lookup_insert_eq.
    repeat split; try done. intros k Hk. by rewrite lookup_insert_ne.
Qed.

Lemma result_batches_accumulate_witness :
  ∃ h', send_message (result_batch [PInt 1; PInt 2] (new_handler batch_request "")) Delivered
          (new_handler batch_request "") = Ok h' ∧
        results_of h' = [PInt 1; PInt 2].
Proof.
  destruct (result_batches_accumulate [PInt 1; PInt 2] Delivered
              (new_handler batch_request "") eq_refl eq_refl I) as (h' & Hs & Hr & _).
  exists h'. split; [exact Hs | exact Hr].
Defined.
(** ** The loop of [sendAnswers] *)

Lemma mark_sent_idemp a : mark_sent (mark_sent a) = mark_sent a.
Proof. done. Qed.

Lemma only_marks_refl store : only_marks store store.
Proof. split; [done | auto]. Qed.

Lemma only_marks_trans s1 s2 s3 : only_marks s1 s2 → only_marks s2 s3 → only_marks s1 s3.
Proof.
  intros [Hl1 H1] [Hl2 H2]. split; [congruence |].
  intros r a Ha. destruct (H1 r a Ha) as [H | H]; destruct (H2 _ _ H) as [H' | H']; auto.
Qed.

Lemma only_marks_insert store r a :
  store !! r = Some a → only_marks store (<[r := mark_sent a]> store).
Proof.
  intros Ha. split; [apply length_insert |].
  intros r' a' Ha'. destruct (decide (r' = r)) as [-> | Hne].
  - right. simplify_eq. apply list_lookup_insert_eq. by eapply lookup_lt_Some.
  - left. by rewrite list_lookup_insert_ne.
Qed.

Lemma only_marks_marked store store' r :
  only_marks store store' → marked store r → marked store' r.
Proof.
  intros [_ H] (a & Ha & Hs). destruct (H r a Ha) as [H' | H'].
  - by exists a.
  - by exists (mark_sent a).
Qed.

Lemma only_marks_score store store' r :
  only_marks store store' → score_at store' r = score_at store r.
Proof.
  intros [Hl H]. unfold score_at. destruct (store !! r) as [a |] eqn:Ha.
  - by destruct (H r a Ha) as [-> | ->].
  - apply lookup_ge_None in Ha. rewrite <- Hl in Ha. apply lookup_ge_None in Ha.
    by rewrite Ha.
Qed.

Lemma result_score_json_result a d : result_score (json_result a d) = Some (ans_score a).
Proof.
  unfold result_score, json_result.
  rewrite !lookup_insert_ne by done. by rewrite lookup_insert_eq.
Qed.

(** X10.  The loop of [sendAnswers] when it is forced, as in the final
    flush.  It only ever marks answers sent.  When it ends, every answer it
    was given is marked sent and [json_results] has gained one result per
    answer, in the order given and with the answer's score.  When it raises
    (an LLM ranking without [description]), the answers before the
    offending one are left marked sent although nothing is sent. *)
Theorem select_answers_forced (rk : Ranking) (l : list nat) (store : list answer)
    (json_results : list pyval) (store' : list answer) (out : res (list pyval)) :
  select_answers rk true l store json_results = (store', out) →
  only_marks store store' ∧
  match out with
  | Ok json_results' =>
      (∀ r, r ∈ l → marked store' r) ∧
      ∃ added, json_results' = json_results ++ added ∧
               result_score <$> added = (λ r, Some (score_at store r)) <$> l
  | Err e =>
      ∃ before r after, l = before ++ r :: after ∧
        (∀ r', r' ∈ before → marked store' r') ∧
        match store !! r with
        | Some a => ans_description a = None ∧ e = KeyError "description"
        | None => e = KeyError "ranking"
        end
  end.
Proof.
  revert store json_results.
  induction l as [| r l IH]; intros store json_results Hsel; simpl in Hsel.
  { simplify_eq. split; [apply only_marks_refl |]. split; [set_solver |].
    exists []. by rewrite app_nil_r. }
  destruct (store !! r) as [a |] eqn:Ha.
  2:{ simplify_eq. split; [apply only_marks_refl |].
      exists [], r, l. rewrite Ha. split; [done |]. split; [set_solver | done]. }
  rewrite orb_true_r in Hsel.
  destruct (ans_description a) as [d |] eqn:Hd.
  2:{ simplify_eq. split; [apply only_marks_refl |].
      exists [], r, l. rewrite Ha. split; [done |]. split; [set_solver | done]. }
  pose proof (only_marks_insert _ _ _ Ha) as Hm.
  destruct (IH _ _ Hsel) as [Hm' Hout].
  split; [by eapply only_marks_trans |].
  assert (marked store' r) as Hr.
  { eapply only_marks_marked; [exact Hm' |]. exists (mark_sent a).
    split; [| done]. apply list_lookup_insert_eq. by eapply lookup_lt_Some. }
  destruct out as [json_results' | e].
  - destruct Hout as [Hall (added & -> & Hscores)]. split.
    + intros r' [-> | Hr']%elem_of_cons; [done | by apply Hall].
    + exists (json_result a d :: added). split; [by rewrite <- app_assoc |].
      rewrite !fmap_cons, result_score_json_result, Hscores. f_equal.
      * unfold score_at. by rewrite Ha.
      * apply list_fmap_ext. intros _ r' _. f_equal. by apply only_marks_score.
  - destruct Hout as (before & r0 & after & -> & Hbefore & Herr).
    exists (r :: before), r0, after. split; [done |]. split.
    + intros r' [-> | Hr']%elem_of_cons; [done | by apply Hbefore].
    + destruct (decide (r0 = r)) as [-> | Hne].
      * rewrite list_lookup_insert_eq in Herr by (by eapply lookup_lt_Some).
        simpl in Herr. destruct Herr as [Hnone _]. congruence.
      * by rewrite list_lookup_insert_ne in Herr.
Qed.
Lemma select_answers_forced_witness :
  only_marks [an_answer 70]
    (fst (select_answers (new_ranking [] REGULAR_TRACK) true [0%nat] [an_answer 70] [])).
Proof.
  exact (proj1 (select_answers_forced _ _ _ _ _ _ (surjective_pairing _))).
Defined.

(** ** Marking an answer sent *)

Lemma select_one rk store a ansr store' json_results :
  store !! a = Some ansr →
  select_answers rk false [a] store [] = (store', Ok json_results) →
  json_results ≠ [] →
  store' = <[a := mark_sent ansr]> store.
Proof.
  intros Ha Hsel Hne. simpl in Hsel. rewrite Ha in Hsel.
  repeat case_match; by simplify_eq.
Qed.

Lemma select_answers_only_marks rk force l store json_results store' out :
  select_answers rk force l store json_results = (store', out) → only_marks store store'.
Proof.
  revert store json_results.
  induction l as [| r l IH]; intros store json_results Hsel; simpl in Hsel.
  { simplify_eq. apply only_marks_refl. }
  destruct (store !! r) as [a |] eqn:Ha; [| simplify_eq; apply only_marks_refl].
  destruct (shouldSend rk store a || force).
  - destruct (ans_description a); [| simplify_eq; apply only_marks_refl].
    eapply only_marks_trans; [by apply only_marks_insert | by eapply IH].
  - by eapply IH.
Qed.

Lemma marked_app store l a : marked store a → marked (store ++ l) a.
Proof. intros (x & Hx & Hs). exists x. split; [by apply lookup_app_l_Some | done]. Qed.

Lemma select_one_marked rk store a ansr store' j l :
  store !! a = Some ansr →
  select_answers rk false [a] store [] = (store', Ok (j :: l)) →
  marked store' a.
Proof.
  intros Ha Hsel. rewrite (select_one _ _ _ _ _ _ Ha Hsel) by done.
  exists (mark_sent ansr). split; [| done].
  apply list_lookup_insert_eq. by eapply lookup_lt_Some.
Qed.

Lemma waits_same store store' r :
  (∀ a, marked store a → marked store' a) → waits_marked store r → waits_marked store' r.
Proof. intros Hm Hw rk i st a Hr Hi Hst. eapply Hm, Hw; eassumption. Qed.

Lemma waits_none store : waits_marked store None.
Proof. by intros rk i st a Hr. Qed.

Lemma waits_new store rk :
  (∀ i st, item_at rk !! i = Some st → selected st = None) → waits_marked store (Some rk).
Proof. intros Hn rk' i st a [= <-] Hi Hst. rewrite (Hn i st Hi) in Hst. done. Qed.

Lemma waits_keep store store' r0 r1 :
  (∀ a, marked store a → marked store' a) → item_at r1 = item_at r0 →
  waits_marked store (Some r0) → waits_marked store' (Some r1).
Proof.
  intros Hm Heq Hw rk i st a [= <-] Hi Hst. rewrite Heq in Hi.
  eapply Hm, Hw; [done | eassumption | done].
Qed.

Lemma waits_update store store' r0 r1 i0 st :
  (∀ a, marked store a → marked store' a) →
  item_at r1 = <[i0 := st]> (item_at r0) →
  (∀ a, selected st = Some a →
        marked store' a ∨ ∃ st0, item_at r0 !! i0 = Some st0 ∧ selected st0 = Some a) →
  waits_marked store (Some r0) → waits_marked store' (Some r1).
Proof.
  intros Hm Heq Hst Hw rk i st' a [= <-] Hi Hsel. rewrite Heq in Hi.
  apply list_lookup_insert_Some in Hi as [(-> & <- & _) | (_ & Hi)].
  - destruct (Hst a Hsel) as [? | (st0 & Hi0 & Hsel0)]; [done |].
    eapply Hm, Hw; [done | eassumption | done].
  - eapply Hm, Hw; [done | eassumption | done].
Qed.

Ltac solve_store :=
  let a := fresh "a" in
  let H := fresh "H" in
  intros a H;
  first [ exact H
        | by apply marked_app
        | eapply only_marks_marked; [eapply select_answers_only_marks; eassumption |];
          first [exact H | by apply marked_app] ].

Ltac solve_status :=
  let a := fresh "a" in
  let H := fresh "H" in
  intros a H; cbn [selected] in H;
  first [ discriminate H
        | injection H as <-;
          first [ left; eapply select_one_marked; [| eassumption];
                  by apply list_lookup_middle
                | right; eexists; split; [eassumption | reflexivity] ] ].

Ltac solve_waits :=
  repeat match goal with
    | H : fastTrackRanker ?s = _ |- context [fastTrackRanker ?s] => rewrite H
    | H : regularRanker ?s = _ |- context [regularRanker ?s] => rewrite H
    end;
  first [ apply waits_same; solve_store
        | intros _; apply waits_none
        | eapply waits_keep; [solve_store | reflexivity]
        | eapply waits_update; [solve_store | reflexivity | solve_status]
        | intros _; apply waits_new; cbn [item_at];
          let i := fresh "i" in
          let H := fresh "H" in
          intros i ? H;
          first [ apply lookup_replicate in H as [-> _]; reflexivity
                | by destruct i ] ].

Lemma marking_effect_step a s s' : step a s = Some s' → marking_effect s s'.
Proof.
  intros Hstep.
  destruct a; cbn [step] in Hstep; step_cases Hstep.
  all: prepare_case.
  all: split; fields.
  all: try solve_store.
  all: solve_waits.
Qed.

Lemma waits_marked_reachable c relevance r dq s :
  reachable c relevance r dq s →
  waits_marked (answers s) (fastTrackRanker s) ∧
  waits_marked (answers s) (regularRanker s).
Proof.
  intros [schedule Hrun].
  refine (run_invariant
            (λ s, waits_marked (answers s) (fastTrackRanker s) ∧
                  waits_marked (answers s) (regularRanker s)) _ _ _ _ _ Hrun).
  - intros a s0 s1 [Hf Hr] Hstep. apply marking_effect_step in Hstep as [_ Hf' Hr'].
    auto.
  - split; apply waits_none.
Qed.

(** C10.  [sendAnswers] sets [sent] on an answer it selects before it
    waits at the barrier and before anything is written.  In every state
    the request can reach, the answer a task of [rankItem] waits with at
    the barrier, or is about to write, is marked sent in the store.  The
    mark is set by the step that brings the task to the barrier: the
    answer is new, and the handler is as it was.  While the barrier is
    closed the task stays there.  If its track is aborted when the barrier
    is open, the task ends there: the answer joins [rankedAnswers], still
    marked sent, and neither the handler nor the store has changed, so no
    [result_batch] was written for it.  And if the write fails on a
    streaming connection, the answer stays marked sent while the stream and
    [return_value] are as they were. *)
Theorem marked_before_the_barrier c relevance r dq s :
  reachable c relevance r dq s →
  (∀ t rk i a json_results,
     ranker_of t s = Some rk → item_at rk !! i = Some (RiBarrier a json_results) →
     marked (answers s) a ∧
     (pre_checks_done_event (handler s) = false → rankItem_barrier t i s = None) ∧
     (pre_checks_done_event (handler s) = true → aborted t (handler s) = true →
      ∃ s' rk', rankItem_barrier t i s = Some s' ∧
                handler s' = handler s ∧ answers s' = answers s ∧
                ranker_of t s' = Some rk' ∧ item_at rk' !! i = Some RiFinished ∧
                a ∈ rankedAnswers (ranker rk') ∧ marked (answers s') a)) ∧
  (∀ t rk i a json_results w,
     ranker_of t s = Some rk → item_at rk !! i = Some (RiWrite a json_results) →
     marked (answers s) a ∧
     (connection_alive_event (handler s) = true →
      streaming (req (handler s)) && http_handler (req (handler s)) = true →
      w ≠ Delivered →
      ∃ s' rk', rankItem_sent t i w s = Some s' ∧
                stream (handler s') = stream (handler s) ∧
                return_value (handler s') = return_value (handler s) ∧
                answers s' = answers s ∧
                ranker_of t s' = Some rk' ∧ item_at rk' !! i = Some RiFinished ∧
                a ∈ rankedAnswers (ranker rk') ∧ marked (answers s') a)) ∧
  (∀ t i o s' rk' a json_results,
     rankItem_llm t i o s = Some s' → ranker_of t s' = Some rk' →
     item_at rk' !! i = Some (RiBarrier a json_results) →
     answers s !! a = None ∧ marked (answers s') a ∧ handler s' = handler s).
Proof.
  intros [Hfast Hregular]%waits_marked_reachable.
  assert (∀ t rk i st a, ranker_of t s = Some rk → item_at rk !! i = Some st →
                         selected st = Some a → marked (answers s) a) as Hsel.
  { intros t rk i st a Hrk Hi Hst.
    destruct t; [eapply Hfast | eapply Hregular]; eassumption. }
  split; [| split].
  - intros t rk i a js Hrk Hitem.
    assert (marked (answers s) a) as Hmarked by (by eapply Hsel).
    split; [exact Hmarked |].
    unfold rankItem_barrier, mbind, option_bind. rewrite Hrk. cbn [option_bind].
    rewrite Hitem. split; [by intros -> |].
    intros -> ->. cbn [negb].
    eexists _, _. split; [reflexivity |].
    rewrite ranker_of_with_ranker.
    destruct t; fields; repeat split; try done.
    all: try (apply list_lookup_insert_eq; by eapply lookup_lt_Some).
    all: unfold append_ranked; cbn [rankedAnswers set_rankedAnswers ranker with_ranker_obj];
      set_solver.
  - intros t rk i a js w Hrk Hitem.
    assert (marked (answers s) a) as Hmarked by (by eapply Hsel).
    split; [exact Hmarked |].
    intros Halive Hstream Hw.
    unfold rankItem_sent, mbind, option_bind. rewrite Hrk. cbn [option_bind].
    rewrite Hitem. unfold send_message. rewrite Halive, Hstream. cbn [negb].
    destruct w; [done | |]; destruct (negb (versionNumberSent (handler s)));
      eexists _, _; (split; [reflexivity |]); rewrite ranker_of_with_ranker;
      destruct t; fields; repeat split; try done.
    all: try (apply list_lookup_insert_eq; by eapply lookup_lt_Some).
    all: unfold append_ranked;
      cbn [rankedAnswers set_rankedAnswers set_num_results_sent ranker with_ranker_obj];
      set_solver.
  - intros t i o s' rk' a js Hstep Hrk Hitem.
    unfold rankItem_llm, mbind, option_bind in Hstep.
    destruct (ranker_of t s) as [rk |] eqn:Hr; [| done].
    destruct (item_at rk !! i) as [st |] eqn:Hst; [| done].
    destruct (items (ranker rk) !! i) as [it |]; [| done].
    assert (i < length (item_at rk))%nat as Hi by (by eapply lookup_lt_Some).
    destruct st; try done.
    repeat case_match; simplify_eq;
      rewrite ranker_of_with_ranker in Hrk; simplify_eq;
      cbn [item_at with_item_at with_ranker_obj] in Hitem;
      rewrite list_lookup_insert_eq in Hitem by done; simplify_eq.
    split; [by apply lookup_ge_None_2 |].
    destruct t; fields; (split; [| done]).
    all: eapply select_one_marked; [| eassumption]; by apply list_lookup_middle.
Qed.

Lemma marked_before_the_barrier_witness :
  ∃ s s' rk', run aborted_wait_run (init NLWebHandler false simple_request "") = Some s ∧
              delivered "result_batch" (handler s) = false ∧
              rankItem_barrier FAST_TRACK 0 s = Some s' ∧
              handler s' = handler s ∧ answers s' = answers s ∧
              ranker_of FAST_TRACK s' = Some rk' ∧
              item_at rk' !! 0%nat = Some RiFinished ∧
              0%nat ∈ rankedAnswers (ranker rk') ∧ marked (answers s') 0.
Proof.
  destruct (run aborted_wait_run (init NLWebHandler false simple_request ""))
    as [s |] eqn:Hrun; [| by vm_compute in Hrun].
  exists s.
  assert (delivered "result_batch" (handler s) = false ∧
          ∃ rk js, ranker_of FAST_TRACK s = Some rk ∧
                   item_at rk !! 0%nat = Some (RiBarrier 0 js) ∧
                   pre_checks_done_event (handler s) = true ∧
                   aborted FAST_TRACK (handler s) = true)
    as (Hdel & rk & js & Hrk & Hitem & Hev & Habort).
  { vm_compute in Hrun. injection Hrun as <-.
    split; [vm_compute; reflexivity |].
    eexists _, _. repeat split; vm_compute; reflexivity. }
  destruct (proj2 (proj2 (proj1 (marked_before_the_barrier _ _ _ _ s
                                   (ex_intro _ aborted_wait_run Hrun))
                            FAST_TRACK rk 0%nat 0%nat js Hrk Hitem)) Hev Habort)
    as (s' & rk' & H).
  exists s', rk'. split; [reflexivity |]. split; [exact Hdel | exact H].
Defined.

Lemma before_selection_reachable :
  run (take 6 ask_user_run) (init NLWebHandler false simple_request "")
  = Some before_selection.
Proof. vm_compute. reflexivity. Qed.

Example selection_marks :
  rankItem_llm FAST_TRACK 0 (scored 80) before_selection = Some after_selection ∧
  answers before_selection = [] ∧
  ans_sent <$> answers after_selection = [true] ∧
  handler after_selection = handler before_selection.
Proof. repeat split; vm_compute; reflexivity. Qed.

(** X12.  A batch whose write fails is counted as sent.  On a streaming
    connection [send_message] swallows the failure of the write (and clears
    [connection_alive] when the write raised), so [sendAnswers] goes on to
    add the size of the batch to [num_results_sent]: the count grows and
    the answers stay marked sent, but the stream and [return_value] are as
    they were. *)
Theorem failed_write_is_counted t i w s r a json_results :
  ranker_of t s = Some r →
  item_at r !! i = Some (RiWrite a json_results) →
  connection_alive_event (handler s) = true →
  streaming (req (handler s)) && http_handler (req (handler s)) = true →
  w ≠ Delivered →
  ∃ s' r', rankItem_sent t i w s = Some s' ∧ ranker_of t s' = Some r' ∧
           num_results_sent (ranker r')
           = (num_results_sent (ranker r) + length json_results)%nat ∧
           stream (handler s') = stream (handler s) ∧
           return_value (handler s') = return_value (handler s) ∧
           answers s' = answers s ∧
           connection_alive_event (handler s')
           = match w with WriteRaises => false | _ => true end.
Proof.
  intros Hrk Hitem Halive Hstream Hw.
  unfold rankItem_sent, mbind, option_bind. rewrite Hrk, Hitem. simpl.
  unfold send_message. rewrite Halive, Hstream. cbn [negb].
  destruct w; [done | |]; destruct (negb (versionNumberSent (handler s)));
    eexists _, _; (split; [reflexivity |]); rewrite ranker_of_with_ranker;
    (split; [reflexivity |]); destruct t; fields; done.
Qed.

Lemma failed_write_is_counted_witness :
  ∃ s' r', rankItem_sent REGULAR_TRACK 0 WriteRaises about_to_write = Some s' ∧
           ranker_of REGULAR_TRACK s' = Some r' ∧
           num_results_sent (ranker r') = 1%nat ∧
           stream (handler s') = [].
Proof.
  destruct (failed_write_is_counted REGULAR_TRACK 0 WriteRaises about_to_write
              _ _ _ eq_refl eq_refl eq_refl eq_refl ltac:(discriminate))
    as (s' & r' & Hstep & Hrk & Hnum & Hstream & _).
  exists s', r'. repeat split; assumption.
Defined.
(** ** Sites and item types *)

Lemma siteToItemType_inj_et s1 s2 :
  siteToItemType s1 = siteToItemType s2 ↔ site_et s1 = site_et s2.
Proof.
  unfold siteToItemType. split; [| by intros ->].
  intros H. by simplify_eq/=.
Qed.

Lemma site_et_cases site :
  site ∈ all_sites ∨ site = "zillow" ∧ site_et site = "RealEstate" ∨
  site_et site = "Items".
Proof.
  unfold site_et.
  destruct (String.eqb_spec site "imdb") as [-> | _]; [left; set_solver |].
  case_bool_decide as Hr; [left; unfold all_sites; set_solver |].
  destruct (String.eqb_spec site "npr podcasts") as [-> | _]; [left; set_solver |].
  destruct (String.eqb_spec site "neurips") as [-> | _]; [left; set_solver |].
  destruct (String.eqb_spec site "backcountry") as [-> | _]; [left; set_solver |].
  destruct (String.eqb_spec site "tripadvisor") as [-> | _]; [left; set_solver |].
  destruct (String.eqb_spec site "zillow") as [-> | _]; [right; left; done |].
  by right; right.
Qed.

(** X13.  [itemTypeToSite] inverts [siteToItemType] on the sites it knows:
    it returns exactly the sites of [all_sites] that have the given type, so
    a site of [all_sites] is always among the sites of its own type; and the
    type of any other site (["zillow"] included, which has a type of its
    own but is not in [all_sites]) leads to no site at all. *)
Theorem itemTypeToSite_siteToItemType (site : string) :
  (∀ item_type s, s ∈ itemTypeToSite item_type ↔
                  s ∈ all_sites ∧ siteToItemType s = item_type) ∧
  (site ∈ all_sites → site ∈ itemTypeToSite (siteToItemType site)) ∧
  (site ∉ all_sites → itemTypeToSite (siteToItemType site) = []).
Proof.
  assert (∀ item_type s, s ∈ itemTypeToSite item_type ↔
                         s ∈ all_sites ∧ siteToItemType s = item_type) as Hiff.
  { intros item_type s. unfold itemTypeToSite. rewrite list_elem_of_filter. tauto. }
  split; [exact Hiff |]. split.
  - intros Hin. by apply Hiff.
  - intros Hnot.
    destruct (site_et_cases site) as [? | Het]; [done |].
    assert (site_et site = "RealEstate" ∨ site_et site = "Items") as Het'
      by (destruct Het as [[_ ?] | ?]; auto).
    unfold itemTypeToSite, siteToItemType.
    destruct Het' as [-> | ->]; vm_compute; reflexivity.
Qed.

Lemma itemTypeToSite_siteToItemType_witness :
  "imdb" ∈ itemTypeToSite (siteToItemType "imdb") ∧
  itemTypeToSite (siteToItemType "zillow") = [].
Proof.
  split.
  - apply (proj1 (proj2 (itemTypeToSite_siteToItemType "imdb"))). vm_compute. set_solver.
  - apply (proj2 (proj2 (itemTypeToSite_siteToItemType "zillow"))). vm_compute.
    intros H. repeat (apply elem_of_cons in H as [H | H]; [discriminate H |]).
    by apply elem_of_nil in H.
Defined.
(** ** Trimming *)

(** X14.  [collateObjAttr] wraps the value of every attribute in a
    one-element list: the keys of a dict are distinct, so the branch that
    appends to a list already there is never taken. *)
Theorem collateObjAttr_singletons (d : gmap string pyval) :
  collateObjAttr (PDict d) = Ok ((λ v, [v]) <$> d).
Proof.
  unfold collateObjAttr. f_equal.
  apply (map_fold_weak_ind (λ r m, r = (λ v, [v]) <$> m)).
  - by rewrite fmap_empty.
  - intros attr v m r Hnone ->.
    rewrite lookup_fmap, Hnone. simpl. by rewrite fmap_insert.
Qed.

Lemma js_dict_lookup js k : 
  match js_dict js with
  | PDict d => d !! k = PList <$> js !! k
  | _ => False
  end.
Proof. unfold js_dict. by rewrite lookup_fmap. Qed.

Lemma filter_collated_lookup (skipAttrs : list string) (d : gmap string pyval) k :
  (PList <$> filter (λ kv : string * list pyval, kv.1 ∉ skipAttrs) ((λ v, [v]) <$> d)) !! k
  = if bool_decide (k ∈ skipAttrs) then None else (λ v, PList [v]) <$> d !! k.
Proof.
  rewrite lookup_fmap.
  case_bool_decide as Hk.
  - rewrite map_lookup_filter_None_2; [done |]. right. intros ? _. simpl. tauto.
  - destruct (d !! k) as [v |] eqn:Hd; simpl.
    + erewrite (proj2 (map_lookup_filter_Some _ _ _ _)); [done |].
      split; [| done]. by rewrite lookup_fmap, Hd.
    + rewrite map_lookup_filter_None_2; [done |]. left. by rewrite lookup_fmap, Hd.
Qed.

(** X15.  [trim_recipe] of a dict never raises; it drops the six attributes
    of its skip list and keeps every other attribute, its value wrapped in
    a one-element list. *)
Theorem trim_recipe_lookup (json_loads : string → option pyval) (d : gmap string pyval) :
  ∃ js, trim_recipe json_loads (PDict d) = Ok (PDict js) ∧
        ∀ k, js !! k = if bool_decide (k ∈ recipe_skipAttrs) then None
                       else (λ v, PList [v]) <$> d !! k.
Proof.
  unfold trim_recipe. cbn [jsonify]. rewrite collateObjAttr_singletons.
  eexists. split; [reflexivity |]. intros k. apply filter_collated_lookup.
Qed.

Lemma trim_movie_fold (skipAttrs : list string) (items : gmap string (list pyval)) :
  let people := ["actor"; "director"; "creator"] in
  let bad (attr : string) (l : list pyval) :=
    (attr ∉ skipAttrs) ∧ (attr ∈ people) ∧ existsb (λ v, py_eq_str v "name") l = true in
  let keep (kv : string * list pyval) :=
    (kv.1 ∉ skipAttrs) ∧ (kv.1 ∉ people) ∧ kv.1 ≠ "review" in
  match map_fold (trim_movie_attr skipAttrs) (Ok ∅) items with
  | Ok js => js = filter keep items ∧ ∀ attr l, items !! attr = Some l → ¬ bad attr l
  | Err e => e = TypeError ∧ ∃ attr l, items !! attr = Some l ∧ bad attr l
  end.
Proof.
  intros people bad keep.
  apply (map_fold_weak_ind (λ r m,
           match r with
           | Ok js => js = filter keep m ∧ ∀ attr l, m !! attr = Some l → ¬ bad attr l
           | Err e => e = TypeError ∧ ∃ attr l, m !! attr = Some l ∧ bad attr l
           end)).
  - split; [by rewrite map_filter_empty |]. intros ? ?. by rewrite lookup_empty.
  - intros attr l m r Hnone Hr. destruct r as [js | e]; simpl.
    + destruct Hr as [-> Hgood].
      assert (∀ a l', m !! a = Some l' → a ≠ attr) as Hother by (intros ? ? ? ->; congruence).
      case_bool_decide as Hskip.
      { split.
        - rewrite map_filter_insert_not; [done |]. intros ? [? _]. done.
        - intros a l' [[-> ->] | [Hne Hl']]%lookup_insert_Some; [| by apply Hgood].
          intros [? _]. done. }
      case_bool_decide as Hpeople.
      { destruct (existsb _ l) eqn:Hname.
        - split; [done |]. exists attr, l. rewrite lookup_insert_eq. done.
        - split.
          + rewrite map_filter_insert_not; [done |]. intros ? (_ & ? & _). done.
          + intros a l' [[-> ->] | [Hne Hl']]%lookup_insert_Some; [| by apply Hgood].
            intros (_ & _ & ?). congruence. }
      case_bool_decide as Hreview.
      { split.
        - rewrite map_filter_insert_not; [done |]. intros ? (_ & _ & ?). done.
        - intros a l' [[-> ->] | [Hne Hl']]%lookup_insert_Some; [| by apply Hgood].
          intros (_ & ? & _). done. }
      split.
      * by rewrite map_filter_insert_True.
      * intros a l' [[-> ->] | [Hne Hl']]%lookup_insert_Some; [| by apply Hgood].
        intros (_ & ? & _). done.
    + destruct Hr as [-> (a & l' & Hl' & Hbad)]. split; [done |].
      exists a, l'. split; [| done]. rewrite lookup_insert_ne; [done |].
      intros ->. congruence.
Qed.

Lemma movie_skipAttrs_hard k :
  k ∈ movie_skipAttrs true ↔
  k ∈ movie_skipAttrs false ∨ k ∈ ["actor"; "director"; "creator"] ∨ k = "review".
Proof. unfold movie_skipAttrs. rewrite !elem_of_app, !elem_of_cons, !elem_of_nil. tauto. Qed.

Lemma is_name_singleton v :
  existsb (λ v, py_eq_str v "name") [v] = true ↔ v = PStr "name".
Proof.
  simpl. rewrite orb_false_r. destruct v; simpl; try (split; done).
  rewrite bool_decide_eq_true. split; congruence.
Qed.

Lemma not_skipped_people attr :
  attr ∈ ["actor"; "director"; "creator"] → attr ∉ movie_skipAttrs false.
Proof.
  unfold movie_skipAttrs. rewrite app_nil_r. intros Hattr Hin.
  repeat (apply elem_of_cons in Hattr as [-> | Hattr];
          [repeat (apply elem_of_cons in Hin as [Hin | Hin]; [discriminate Hin |]);
           by apply elem_of_nil in Hin |]).
  by apply elem_of_nil in Hattr.
Qed.

Lemma movie_filters (hard : bool) (m : gmap string (list pyval)) :
  filter (λ kv : string * list pyval,
            (kv.1 ∉ movie_skipAttrs hard) ∧
            (kv.1 ∉ ["actor"; "director"; "creator"]) ∧ kv.1 ≠ "review") m
  = filter (λ kv : string * list pyval, kv.1 ∉ movie_skipAttrs true) m.
Proof.
  apply map_filter_ext. intros k l _. simpl. rewrite movie_skipAttrs_hard.
  destruct hard; [rewrite movie_skipAttrs_hard |]; tauto.
Qed.

Lemma trim_movie_hard (d : gmap string pyval) :
  trim_movie (PDict d) true
  = Ok (js_dict (filter (λ kv : string * list pyval, kv.1 ∉ movie_skipAttrs true)
                        ((λ v, [v]) <$> d))).
Proof.
  unfold trim_movie. rewrite collateObjAttr_singletons.
  pose proof (trim_movie_fold (movie_skipAttrs true) ((λ v, [v]) <$> d)) as Hhard.
  cbv zeta in Hhard.
  destruct (map_fold (trim_movie_attr (movie_skipAttrs true)) _ _) as [jh | e].
  - destruct Hhard as [-> _]. by rewrite movie_filters.
  - destruct Hhard as [_ (attr & l & _ & Hskip & Hpeople & _)].
    exfalso. apply Hskip, movie_skipAttrs_hard. tauto.
Qed.

Lemma trim_movie_soft (d : gmap string pyval) :
  (trim_movie (PDict d) false = Err TypeError ∧ names_a_name d) ∨
  (trim_movie (PDict d) false = trim_movie (PDict d) true ∧ ¬ names_a_name d).
Proof.
  rewrite trim_movie_hard.
  unfold trim_movie. rewrite collateObjAttr_singletons.
  pose proof (trim_movie_fold (movie_skipAttrs false) ((λ v, [v]) <$> d)) as Hsoft.
  cbv zeta in Hsoft.
  destruct (map_fold (trim_movie_attr (movie_skipAttrs false)) _ _) as [js | e].
  - right. destruct Hsoft as [-> Hgood]. split; [by rewrite movie_filters |].
    intros (attr & Hattr & Hname).
    apply (Hgood attr [PStr "name"]); [by rewrite lookup_fmap, Hname |].
    split; [by apply not_skipped_people |]. split; [done | by apply is_name_singleton].
  - left. destruct Hsoft as [-> (attr & l & Hl & _ & Hpeople & Hname)]. split; [done |].
    rewrite lookup_fmap in Hl. destruct (d !! attr) as [v |] eqn:Hv; [| done].
    simpl in Hl. simplify_eq. apply is_name_singleton in Hname as ->.
    by exists attr.
Qed.

(** X16.  [trim_movie] drops [actor], [director], [creator] and [review]
    whether it is asked to trim hard or not.  Trimming hard never raises and
    keeps exactly the attributes outside its skip list, each value wrapped
    in a one-element list.  Not trimming hard gives the same dict, unless
    one of [actor], [director], [creator] is the string ["name"]: then the
    test ["name" in items[attr]] succeeds on the wrapped value and indexing
    that list by ["name"] raises [TypeError]. *)
Theorem trim_movie_hard_or_not (d : gmap string pyval) :
  (∃ js, trim_movie (PDict d) true = Ok (PDict js) ∧
         ∀ k, js !! k = if bool_decide (k ∈ movie_skipAttrs true) then None
                        else (λ v, PList [v]) <$> d !! k) ∧
  (names_a_name d → trim_movie (PDict d) false = Err TypeError) ∧
  (¬ names_a_name d → trim_movie (PDict d) false = trim_movie (PDict d) true).
Proof.
  split; [| split].
  - rewrite trim_movie_hard. eexists. split; [reflexivity |].
    intros k. apply filter_collated_lookup.
  - intros Hname. by destruct (trim_movie_soft d) as [[? _] | [_ ?]].
  - intros Hno. by destruct (trim_movie_soft d) as [[_ ?] | [? _]].
Qed.

Lemma trim_movie_hard_or_not_witness :
  trim_movie (PDict a_movie) false = trim_movie (PDict a_movie) true.
Proof.
  apply (proj2 (proj2 (trim_movie_hard_or_not a_movie))).
  intros (attr & Hattr & Hname).
  repeat (apply elem_of_cons in Hattr as [-> | Hattr]; [by vm_compute in Hname |]).
  by apply elem_of_nil in Hattr.
Defined.

Lemma trim_json_dict_error (json_loads : string → option pyval) d e :
  trim_json json_loads (PDict d) = Err e → e = TypeError ∧ names_a_name d.
Proof.
  unfold trim_json. cbn [jsonify]. unfold objType_of, py_in_str, getitem.
  destruct (trim_recipe_lookup json_loads d) as (js & Hjs & _).
  assert (trim_movie (PDict d) false = Err e → e = TypeError ∧ names_a_name d) as Hmovie.
  { intros Hm. destruct (trim_movie_soft d) as [[He ?] | [He _]].
    - split; [congruence | done].
    - rewrite He, trim_movie_hard in Hm. done. }
  rewrite Hjs.
  repeat case_match; simplify_eq; try done; by intros ?%Hmovie.
Qed.

(** X17.  [trim_json] leaves alone what has no type to go by: a dict
    without [@type], a dict whose type is [Thing], and a string that is not
    JSON and does not contain the text [@type].  A string that is not JSON
    but contains [@type] raises [TypeError], since [obj["@type"]] then
    indexes a string.  On a dict the only error there is is the
    [TypeError] of [trim_movie]. *)
Theorem trim_json_untyped (json_loads : string → option pyval) :
  (∀ d, d !! "@type" = None → trim_json json_loads (PDict d) = Ok (PDict d)) ∧
  (∀ d, d !! "@type" = Some (PStr "Thing") ∨ d !! "@type" = Some (PList [PStr "Thing"]) →
        trim_json json_loads (PDict d) = Ok (PDict d)) ∧
  (∀ s, json_loads s = None →
        trim_json json_loads (PStr s)
        = if contains "@type" s then Err TypeError else Ok (PStr s)) ∧
  (∀ d e, trim_json json_loads (PDict d) = Err e → e = TypeError ∧ names_a_name d).
Proof.
  split; [| split; [| split]].
  - intros d Hd. unfold trim_json. cbn [jsonify]. unfold objType_of, py_in_str. rewrite Hd.
    rewrite bool_decide_eq_false_2 by (by intros [? ?]). done.
  - intros d [Hd | Hd]; unfold trim_json; cbn [jsonify];
      unfold objType_of, py_in_str, getitem; rewrite Hd;
      (rewrite bool_decide_eq_true_2 by eauto); done.
  - intros s Hs. unfold trim_json. cbn [jsonify]. rewrite Hs.
    unfold objType_of, py_in_str. by destruct (contains "@type" s).
  - apply trim_json_dict_error.
Qed.

Lemma trim_json_untyped_witness :
  trim_json no_json (PStr "not json") = Ok (PStr "not json") ∧
  trim_json no_json (PStr "{@type: Recipe") = Err TypeError.
Proof.
  split.
  - exact (proj1 (proj2 (proj2 (trim_json_untyped no_json))) "not json" eq_refl).
  - exact (proj1 (proj2 (proj2 (trim_json_untyped no_json))) "{@type: Recipe" eq_refl).
Defined.
(** ** Request parameters *)

Lemma lstrip_idemp p l : lstrip p (lstrip p l) = lstrip p l.
Proof.
  induction l as [| c l IH]; simpl; [done |].
  destruct (p c) eqn:Hc; [done |]. simpl. by rewrite Hc.
Qed.

Lemma lstrip_snoc p l c : p c = false → lstrip p (l ++ [c]) = lstrip p l ++ [c].
Proof.
  intros Hc. induction l as [| c' l IH]; simpl; [by rewrite Hc |].
  by destruct (p c').
Qed.

Lemma lstrip_head p l : lstrip p l = [] ∨ ∃ c t, lstrip p l = c :: t ∧ p c = false.
Proof.
  induction l as [| c l IH]; simpl; [by left |].
  destruct (p c) eqn:Hc; [done |]. right. by exists c, l.
Qed.

Lemma lstrip_rstrip p l : lstrip p (rstrip p (lstrip p l)) = rstrip p (lstrip p l).
Proof.
  destruct (lstrip_head p l) as [-> | (c & t & -> & Hc)]; [done |].
  unfold rstrip. simpl. rewrite lstrip_snoc by done.
  rewrite rev_app_distr. simpl. by rewrite Hc.
Qed.

Lemma rstrip_idemp p l : rstrip p (rstrip p l) = rstrip p l.
Proof. unfold rstrip. by rewrite rev_involutive, lstrip_idemp. Qed.

Lemma strip_idemp p s : strip p (strip p s) = strip p s.
Proof.
  unfold strip. rewrite String.list_ascii_of_string_of_list_ascii.
  by rewrite lstrip_rstrip, rstrip_idemp.
Qed.

(** X18.  What [get_param] does with a parameter it cannot use.  A
    parameter that comes with no value or with more than one (a list whose
    length is not one) is ignored and the default is returned, whatever the
    type asked for.  So is a missing parameter, when the default is [None]
    or has a length other than one; with a number as default a missing
    parameter raises [TypeError], since the length of the default is taken.
    A type [get_param] does not know raises [ValueError], but only once a
    single value is there. *)
Theorem get_param_default (py_int py_float : pyval → res pyval) (float_zero : pyval)
    (query_params : gmap string pyval) (param_name : string) (ty : param_type)
    (default_value : pyval) :
  let get := get_param py_int py_float float_zero query_params param_name ty default_value in
  (∀ l, query_params !! param_name = Some (PList l) → length l ≠ 1%nat →
        get = Ok default_value) ∧
  (query_params !! param_name = None →
   (default_value = PNone ∨ ∃ n, py_len default_value = Ok n ∧ n ≠ 1%nat) →
   get = Ok default_value) ∧
  (query_params !! param_name = None →
   (∃ z, default_value = PInt z) ∨ (∃ b, default_value = PBool b) →
   get = Err TypeError) ∧
  (∀ v, query_params !! param_name = Some (PList [v]) → ty = T_other →
        get = Err ValueError).
Proof.
  cbv zeta. unfold get_param. repeat split.
  - intros l -> Hl. simpl. destruct l as [| ? [| ? ?]]; done.
  - intros -> [-> | (n & Hn & Hne)]; simpl; [done |].
    rewrite Hn. destruct default_value; try done; by destruct n as [| [| ?]].
  - by intros -> [[z ->] | [b ->]].
  - intros v -> ->. simpl. by destruct v.
Qed.

Lemma get_param_default_witness :
  get_param (λ _, Err ValueError) (λ _, Err ValueError) PNone some_params "query" T_str
    (PStr "")
  = Ok (PStr "").
Proof.
  exact (proj1 (get_param_default (λ _, Err ValueError) (λ _, Err ValueError) PNone
                  some_params "query" T_str (PStr ""))
           [PStr "first"; PStr "second"] eq_refl ltac:(discriminate)).
Defined.

Lemma list_ascii_of_string_app a b :
  String.list_ascii_of_string (a +:+ b) =
  String.list_ascii_of_string a ++ String.list_ascii_of_string b.
Proof.
  induction a as [| c a IH]; [done |].
  change (String c a +:+ b) with (String c (a +:+ b)). simpl. by rewrite IH.
Qed.

Lemma all_chars_Forall p s :
  all_chars p s = true → Forall (λ c, p c = true) (String.list_ascii_of_string s).
Proof.
  induction s as [| c s IH]; simpl; [constructor |].
  intros [Hc Hs]%andb_true_iff. constructor; auto.
Qed.

Lemma lstrip_all p pre l : Forall (λ c, p c = true) pre → lstrip p (pre ++ l) = lstrip p l.
Proof. induction 1 as [| c pre Hc _ IH]; simpl; [done |]. by rewrite Hc. Qed.

Lemma lstrip_free p l : from_option (λ c, negb (p c)) true (head l) = true → lstrip p l = l.
Proof. destruct l as [| c l]; simpl; [done |]. by intros ->%negb_true_iff. Qed.

Lemma head_rev {A} (l : list A) : head (rev l) = list.last l.
Proof.
  induction l as [| x l _] using rev_ind; [done |].
  by rewrite rev_app_distr, last_snoc.
Qed.

(** [strip] takes away the characters of [p] around a string that neither
    starts nor ends with one. *)
Lemma strip_around p pre body post :
  all_chars p pre = true → all_chars p post = true → ends_free p body = true →
  strip p (pre +:+ body +:+ post) = body.
Proof.
  intros Hpre%all_chars_Forall Hpost%all_chars_Forall [Hhead Hlast]%andb_true_iff.
  unfold strip. rewrite !list_ascii_of_string_app, lstrip_all by done.
  destruct (String.list_ascii_of_string body) as [| c l] eqn:Hbody.
  - simpl. unfold rstrip.
    rewrite <- (app_nil_r (lstrip p _)), <- (rev_involutive (String.list_ascii_of_string post)).
    rewrite app_nil_r.
    assert (lstrip p (rev (rev (String.list_ascii_of_string post))) = []) as ->.
    { rewrite rev_involutive, <- (app_nil_r (String.list_ascii_of_string post)).
      by rewrite lstrip_all. }
    simpl. rewrite <- (String.string_of_list_ascii_of_string body). by rewrite Hbody.
  - rewrite (lstrip_free p ((c :: l) ++ _)) by done.
    unfold rstrip. rewrite rev_app_distr, lstrip_all by (by apply List.Forall_rev).
    rewrite lstrip_free by (by rewrite head_rev).
    rewrite rev_involutive, <- Hbody. apply String.string_of_list_ascii_of_string.
Qed.

Lemma split_on_piece sep p s cur :
  all_chars (λ c, negb (Ascii.eqb c sep)) p = true →
  split_on sep (p +:+ s) cur = split_on sep s (rev (String.list_ascii_of_string p) ++ cur).
Proof.
  revert cur. induction p as [| c p IH]; intros cur; [done |].
  change (String c p +:+ s) with (String c (p +:+ s)). simpl.
  intros [Hc Hp]%andb_true_iff. apply negb_true_iff in Hc. rewrite Hc.
  by rewrite IH, <- app_assoc.
Qed.

Lemma split_on_last sep p cur :
  all_chars (λ c, negb (Ascii.eqb c sep)) p = true →
  split_on sep p cur = [String.string_of_list_ascii (rev cur ++ String.list_ascii_of_string p)].
Proof.
  revert cur. induction p as [| c p IH]; intros cur; simpl.
  - by rewrite app_nil_r.
  - intros [Hc Hp]%andb_true_iff. apply negb_true_iff in Hc. rewrite Hc.
    rewrite IH by done. simpl. by rewrite <- app_assoc.
Qed.

(** [split] undoes [join]: cutting at the separator gives back the pieces
    that were joined, when no piece holds the separator. *)
Lemma split_on_concat sep x pieces cur :
  Forall (λ p, all_chars (λ c, negb (Ascii.eqb c sep)) p = true) (x :: pieces) →
  split_on sep (String.concat (String sep "") (x :: pieces)) cur =
  String.string_of_list_ascii (rev cur ++ String.list_ascii_of_string x) :: pieces.
Proof.
  revert x cur. induction pieces as [| y pieces IH]; intros x cur Hall.
  - apply split_on_last. by inversion Hall.
  - inversion Hall as [| ? ? Hx Hrest]; subst.
    change (String.concat (String sep "") (x :: y :: pieces))
      with (x +:+ String sep (String.concat (String sep "") (y :: pieces))).
    rewrite split_on_piece by done. cbn [split_on]. rewrite Ascii.eqb_refl.
    rewrite IH by done. cbn [rev app]. rewrite String.string_of_list_ascii_of_string.
    by rewrite rev_app_distr, rev_involutive.
Qed.

Lemma param_items (l : list string) :
  omap (λ item, let item' := strip is_space item in
                if String.eqb item' "" then None else Some item') l =
  filter (λ item, item ≠ "") (strip is_space <$> l).
Proof.
  induction l as [| x l IH]; [done |].
  rewrite fmap_cons, filter_cons, <- IH. cbn [omap list_omap]. cbv zeta.
  destruct (String.eqb_spec (strip is_space x) "") as [Heq | Hne].
  - by rewrite decide_False by (by intros ?).
  - by rewrite decide_True.
Qed.

(** X19.  A parameter given once.  Asked for as a string, its value is
    returned as it is.  Asked for as a list, every item returned is
    stripped of white space and not empty; and when the value is a list of
    pieces joined by commas, with any brackets around it, the items are
    these pieces, each stripped of white space, in their order, without
    those that are empty or white space only. *)
Theorem get_param_single (py_int py_float : pyval → res pyval) (float_zero : pyval)
    (query_params : gmap string pyval) (param_name value : string) (default_value : pyval) :
  query_params !! param_name = Some (PList [PStr value]) →
  get_param py_int py_float float_zero query_params param_name T_str default_value
  = Ok (PStr value) ∧
  (∃ l, get_param py_int py_float float_zero query_params param_name T_list default_value
        = Ok (PList (PStr <$> l)) ∧
        Forall (λ item, item ≠ "" ∧ strip is_space item = item) l) ∧
  (∀ pre post pieces,
     value = pre +:+ String.concat "," pieces +:+ post →
     all_chars is_bracket pre = true → all_chars is_bracket post = true →
     ends_free is_bracket (String.concat "," pieces) = true →
     pieces ≠ [] → Forall (λ p, no_comma p = true) pieces →
     get_param py_int py_float float_zero query_params param_name T_list default_value
     = Ok (PList (PStr <$> filter (λ item, item ≠ "") (strip is_space <$> pieces)))).
Proof.
  intros Hq. unfold get_param. rewrite Hq. simpl. split; [done |]. split.
  - eexists. split; [reflexivity |].
    unfold param_list. apply list.Forall_forall. intros item Hitem.
    apply list_elem_of_omap in Hitem as (x & _ & Hx). cbv zeta in Hx.
    destruct (String.eqb_spec (strip is_space x) "") as [? | Hne]; [done |].
    simplify_eq. split; [done | apply strip_idemp].
  - intros pre post pieces -> Hpre Hpost Hfree Hne Hpieces.
    unfold param_list. rewrite strip_around by done.
    destruct pieces as [| x pieces]; [done |].
    rewrite (split_on_concat "," x pieces []) by done.
    simpl rev. rewrite app_nil_l, String.string_of_list_ascii_of_string.
    by rewrite param_items.
Qed.

Lemma get_param_single_witness :
  get_param (λ _, Err ValueError) (λ _, Err ValueError) PNone some_params "prev" T_list
    (PList [])
  = Ok (PList (PStr <$> filter (λ item, item ≠ "")
                          (strip is_space <$> ["movies from 1999"; " "; " and 2000 "]))).
Proof.
  refine (proj2 (proj2 (get_param_single (λ _, Err ValueError) (λ _, Err ValueError) PNone
                  some_params "prev" "[movies from 1999, , and 2000 ]" (PList []) eq_refl))
            "[" "]" ["movies from 1999"; " "; " and 2000 "] eq_refl eq_refl eq_refl eq_refl
            _ _).
  - discriminate.
  - repeat constructor.
Defined.

Example get_param_prev :
  get_param (λ _, Err ValueError) (λ _, Err ValueError) PNone some_params "prev" T_list
    (PList [])
  = Ok (PList [PStr "movies from 1999"; PStr "and 2000"]).
Proof. vm_compute. reflexivity. Qed.
(** ** A lost connection *)

Lemma send_message_lost message w h :
  connection_alive_event h = false → send_message message w h = Ok h.
Proof. unfold send_message. by intros ->. Qed.

Ltac solve_lost :=
  try match goal with
    | Hs : send_message ?m ?w ?h0 = _, Hd : connection_alive_event _ = false |- _ =>
        rewrite (send_message_lost m w h0) in Hs by (fields; autorewrite with handler; exact Hd);
        simplify_eq
    end;
  unfold lost_effect; fields; autorewrite with handler; fields;
  first [ by auto | split; [assumption |]; by auto ].

Lemma lost_effect_step a s s' :
  is_new (runQuery_at s) = false →
  connection_alive_event (handler s) = false →
  step a s = Some s' →
  lost_effect (handler s) (handler s').
Proof.
  intros Hnew Hlost Hstep.
  destruct a; cbn [step] in Hstep; step_cases Hstep.
  all: prepare_case.
  all: solve_lost.
Qed.

Lemma reachable_step c relevance r dq a s s' :
  reachable c relevance r dq s → step a s = Some s' → reachable c relevance r dq s'.
Proof.
  intros [schedule Hrun] Hstep. exists (schedule ++ [a]).
  rewrite run_app, Hrun. simpl. by rewrite Hstep.
Qed.

Lemma lost_not_new c relevance r dq s :
  reachable c relevance r dq s → connection_alive_event (handler s) = false →
  is_new (runQuery_at s) = false.
Proof.
  intros Hreach Hlost. destruct (is_new (runQuery_at s)) eqn:Hnew; [| done].
  apply is_new_ONew in Hnew.
  by rewrite (inv_new _ _ (barrier_inv_reachable _ _ _ _ _ Hreach) Hnew) in Hlost.
Qed.

(** X20.  Once [connection_alive] is cleared nothing more reaches the
    client.  Whatever the tasks of the request go on to do, the event stays
    cleared, the stream is as it was, and [return_value] is as it was but
    for the [query_id] that the end of [runQuery] stores. *)
Theorem nothing_after_connection_lost c relevance r dq s schedule s' :
  reachable c relevance r dq s →
  connection_alive_event (handler s) = false →
  run schedule s = Some s' →
  connection_alive_event (handler s') = false ∧
  stream (handler s') = stream (handler s) ∧
  ∀ k, k ≠ "query_id" → return_value (handler s') !! k = return_value (handler s) !! k.
Proof.
  revert s. induction schedule as [| a rest IH]; intros s Hreach Hlost Hrun; simpl in Hrun.
  { by simplify_eq. }
  destruct (step a s) as [s1 |] eqn:Hstep; [| done].
  destruct (lost_effect_step _ _ _ (lost_not_new _ _ _ _ _ Hreach Hlost) Hlost Hstep)
    as (Hlost1 & Hstream & Hret).
  destruct (IH s1 (reachable_step _ _ _ _ _ _ _ Hreach Hstep) Hlost1 Hrun)
    as (Hl & Hs & Hr).
  split; [exact Hl |]. split; [congruence |].
  intros k Hk. rewrite (Hr k Hk).
  destruct Hret as [-> | ->]; [done | by rewrite lookup_insert_ne].
Qed.

Lemma lost_state_reachable :
  run lost_run (init NLWebHandler false simple_request "") = Some lost_state.
Proof. vm_compute. reflexivity. Qed.

Lemma nothing_after_connection_lost_witness :
  ∃ s', run after_lost_run lost_state = Some s' ∧
        runQuery_at s' = OReturned ∧
        stream (handler s') = stream (handler lost_state).
Proof.
  destruct (run after_lost_run lost_state) as [s' |] eqn:Hrun; [| by vm_compute in Hrun].
  exists s'. split; [reflexivity |].
  split; [vm_compute in Hrun; injection Hrun as <-; reflexivity |].
  exact (proj1 (proj2 (nothing_after_connection_lost _ _ _ _ _ _ _
                         (ex_intro _ lost_run lost_state_reachable) eq_refl Hrun))).
Defined.
(** ** Who may use the fast track *)

(** X21.  The fast track runs for first questions only.  If [FastTrack.do]
    is past its eligibility test, or a fast-track ranker exists, or
    [fastTrackWorked] is set, then the request has no context URL and no
    previous queries, and the query is never found to need
    decontextualization. *)
Theorem fast_track_only_when_eligible c relevance r dq s :
  reachable c relevance r dq s →
  ft_active (fastTrack_at s) = true ∨ is_Some (fastTrackRanker s) ∨
  fastTrackWorked (handler s) = true →
  context_url r = "" ∧ prev_queries r = [] ∧
  requires_decontextualization (handler s) = false.
Proof.
  intros Hreach Hft.
  destruct (control_inv_reachable _ _ _ _ _ Hreach) as [Hb Hinv].
  destruct Hinv as [Hreq _ _ _ _ _ _ Hprev Hrequires Hact Hrk Hwk].
  assert (is_fastTrack_eligible (handler s) = true) as Hel
    by (destruct Hft as [? | [? | ?]]; auto).
  unfold is_fastTrack_eligible in Hel. rewrite Hreq in Hel, Hprev.
  change (req (handler (init c relevance r dq))) with r in *.
  destruct (String.eqb_spec (context_url r) "") as [Hurl | ?]; [| done].
  destruct (prev_queries r) as [| q qs] eqn:Hq; [| done].
  assert (requires_decontextualization (handler s) = false) as Hno.
  { destruct (requires_decontextualization (handler s)); [| done].
    destruct (Hrequires eq_refl) as [Hd _]. by destruct (Hprev Hd). }
  by repeat split.
Qed.

Lemma fast_track_only_when_eligible_witness :
  ∃ s, reachable NLWebHandler false simple_request "" s ∧
       fastTrackWorked (handler s) = true ∧
       requires_decontextualization (handler s) = false.
Proof.
  destruct (run simple_run (init NLWebHandler false simple_request "")) as [s |] eqn:Hrun;
    [| by vm_compute in Hrun].
  exists s. split; [by exists simple_run |].
  assert (fastTrackWorked (handler s) = true) as Hw.
  { vm_compute in Hrun. injection Hrun as <-. vm_compute. reflexivity. }
  split; [exact Hw |].
  exact (proj2 (proj2 (fast_track_only_when_eligible _ _ _ _ s
                         (ex_intro _ simple_run Hrun) (or_intror (or_intror Hw))))).
Defined.
(** ** Who sends what *)

Lemma delivered_query_id_ne t h h' v :
  return_key t ≠ "query_id" →
  stream h' = stream h → return_value h' = <["query_id" := v]> (return_value h) →
  delivered t h' = delivered t h.
Proof.
  intros Ht Hs Hr. unfold delivered, streamed. rewrite Hs, Hr. f_equal.
  by rewrite lookup_insert_ne.
Qed.

Ltac same_delivery_ne Hk :=
  first [ reflexivity
        | apply delivered_ext; handler_eq
        | eapply (delivered_query_id_ne _ _ _ _ Hk); handler_eq ].

Ltac status_is :=
  match goal with
  | H : runQuery_at ?s = _ |- context [runQuery_at ?s] => rewrite H; reflexivity
  end.

Ltac some_ranker :=
  match goal with
  | H : fastTrackRanker ?s = Some _ |- is_Some (fastTrackRanker ?s) ∨ _ =>
      left; rewrite H; eauto
  | H : regularRanker ?s = Some _ |- _ ∨ is_Some (regularRanker ?s) =>
      right; rewrite H; eauto
  | H : regularRanker ?s = Some _ |- is_Some (regularRanker ?s) => rewrite H; eauto
  end.

Ltac tag_evidence Hd :=
  unfold sent_by;
  first
    [ apply tag_an_message in Hd; right; right; right; right; exact Hd
    | rewrite tag_result_batch in Hd; apply bool_decide_eq_true in Hd; subst;
      left; split; [reflexivity | writing_evidence]
    | rewrite tag_summary in Hd; apply bool_decide_eq_true in Hd; subst;
      right; left; split; [reflexivity | status_is]
    | rewrite tag_gen_message in Hd; apply bool_decide_eq_true in Hd; subst;
      right; right; left; split; [reflexivity | status_is]
    | rewrite tag_asking_sites in Hd; apply bool_decide_eq_true in Hd; subst;
      right; right; right; left; split; [reflexivity | some_ranker] ].

Ltac solve_sent :=
  let t := fresh "t" in
  let Hk := fresh "Hk" in
  let Hr := fresh "Hr" in
  let Hdel := fresh "Hdel" in
  intros t Hk Hr Hdel;
  lazymatch goal with
  | Hs : send_message ?m ?w ?h0 = Ok ?h1 |- _ =>
      let Hd := fresh "Hd" in
      assert (delivered t h1 = true) as Hd
        by (refine (eq_trans _ Hdel); symmetry; same_delivery_ne Hk);
      apply (send_message_delivered _ _ _ _ _ Hs) in Hd
        as [Hd | [Hd | [[_ Hd] | [Hd _]]]];
      [ left; exact Hd
      | right; tag_evidence Hd
      | rewrite ?tag_asking_sites, ?tag_result_batch, ?tag_summary, ?tag_gen_message,
          ?results_an_message in Hd; discriminate Hd
      | by destruct (Hr Hd) ]
  | _ => left; refine (eq_trans _ Hdel); symmetry; same_delivery_ne Hk
  end.

Ltac solve_mode :=
  let H := fresh in
  intros H;
  first
    [ left; exact H
    | discriminate H
    | right; assumption
    | right; left; assumption
    | right; right; status_is
    | right; right; some_ranker
    | right; match goal with Hm : String.eqb (generate_mode _) "summarize" = true |- _ =>
               apply String.eqb_eq in Hm; first [exact Hm | congruence] end
    | match goal with Hf : fastTrack_at ?s = _ |- _ => rewrite Hf in H; discriminate H end
    | left; status_is
    | left; some_ranker
    | right; match goal with Hf : fastTrackRanker ?s = Some _ |- _ => rewrite Hf; eauto end ].

Lemma mode_effect_step a s s' :
  is_new (runQuery_at s) = false → step a s = Some s' → mode_effect s s'.
Proof.
  intros Hnew Hstep.
  destruct a; cbn [step] in Hstep; step_cases Hstep.
  all: prepare_case.
  all: split; fields; use_send; fields; cbn [is_gen is_nlw is_sum ft_absent].
  all: try reflexivity.
  all: try (intros; assumption).
  all: try solve_mode.
  all: solve_sent.
Qed.

Lemma runQuery_start_mode c relevance r dq s' :
  runQuery_start (init c relevance r dq) = Some s' →
  cls s' = c ∧ generate_mode (req (handler s')) = generate_mode r ∧
  (c = GenerateAnswer → ft_absent (fastTrack_at s') = true).
Proof.
  intros Hstart. split; [| split].
  - revert Hstart. unfold runQuery_start, init. fields.
    rewrite construct_decontextualizeQuery. intros ?; simplify_eq. by fields.
  - by rewrite (proj1 (runQuery_start_control _ _ _ _ _ Hstart)).
  - intros ->. revert Hstart. unfold runQuery_start, init. fields.
    rewrite construct_decontextualizeQuery. intros ?; simplify_eq. by fields.
Qed.

Lemma writing_some (r : option RankerRun) : writing r = true → is_Some r.
Proof. destruct r; [eauto | done]. Qed.

Lemma is_sum_nlw st : is_sum st = true → is_nlw st = true.
Proof. by destruct st. Qed.

Lemma mode_inv_step c relevance r dq a s s' :
  barrier_inv (init c relevance r dq) s →
  mode_inv c (generate_mode r) s →
  step a s = Some s' →
  mode_inv c (generate_mode r) s'.
Proof.
  intros Hb Hinv Hstep.
  destruct (is_new (runQuery_at s)) eqn:Hnew.
  { apply is_new_ONew in Hnew.
    pose proof (inv_new _ _ Hb Hnew) as ->.
    pose proof (step_init _ _ _ _ _ _ Hstep) as ->.
    pose proof (runQuery_start_init _ _ _ _ _ Hstep)
      as (Hat & Hft & Hrg & Hst & Hrv & _).
    destruct (runQuery_start_mode _ _ _ _ _ Hstep) as (Hcls & Hmode & Hfta).
    assert (∀ t, delivered t (handler s') = false) as Hdel.
    { intros t. unfold delivered, streamed. rewrite Hst, Hrv. by rewrite lookup_empty. }
    split; rewrite ?Hat, ?Hft, ?Hrg, ?Hdel; try done.
    all: by intros [? [=]]. }
  pose proof (mode_effect_step _ _ _ Hnew Hstep) as M.
  pose proof (control_effect_step _ _ _ Hnew Hstep) as E.
  destruct Hinv as [Hcls Hmode Hgen Hnlw Hsum Hfta Hfast Hrg Hbatch Hsites Hsummary Hnlws].
  assert (∀ t, return_key t ≠ "query_id" → t ≠ "results" →
               delivered t (handler s') = true →
               delivered t (handler s) = true ∨ sent_by t s) as Hdel
    by apply (me_delivered _ _ M).
  assert (is_Some (fastTrackRanker s') → c = NLWebHandler) as Hfast'.
  { intros H. destruct (ce_ft_ranker _ _ E H) as [H0 | H0]; [by apply Hfast |].
    destruct c; [done |]. specialize (Hfta eq_refl).
    by destruct (fastTrack_at s). }
  split.
  - by rewrite (me_cls _ _ M).
  - by rewrite (ce_req _ _ E).
  - intros H. destruct (me_gen _ _ M H) as [H0 | H0]; [by apply Hgen | congruence].
  - intros H. destruct (me_nlw _ _ M H) as [H0 | [H0 | H0]];
      [by apply Hnlw | congruence | by apply Hrg].
  - intros H. destruct (me_sum _ _ M H) as [H0 | H0]; [by apply Hsum | congruence].
  - intros Hc. destruct (me_ft _ _ M (Hfta Hc)) as [H0 | H0]; [done |].
    specialize (Hfast H0). congruence.
  - exact Hfast'.
  - intros H. destruct (me_rg _ _ M H) as [H0 | [H0 | H0]];
      [by apply Hrg | congruence | by apply Hnlw].
  - intros H. destruct (Hdel "result_batch" ltac:(done) ltac:(done) H)
      as [H0 | [[_ H0] | [[? _] | [[? _] | [[? _] | [? | [? | ?]]]]]]]; try done.
    + by apply Hbatch.
    + unfold writing_any in H0. apply orb_true_iff in H0 as [H0 | H0].
      * by apply Hfast, writing_some.
      * by apply Hrg, writing_some.
  - intros H. destruct (Hdel "asking_sites" ltac:(done) ltac:(done) H)
      as [H0 | [[? _] | [[? _] | [[? _] | [[_ H0] | [? | [? | ?]]]]]]]; try done.
    + by apply Hsites.
    + destruct H0 as [H0 | H0]; [by apply Hfast | by apply Hrg].
  - intros H. destruct (Hdel "summary" ltac:(done) ltac:(done) H)
      as [H0 | [[? _] | [[_ H0] | [[? _] | [[? _] | [? | [? | ?]]]]]]]; try done.
    + by apply Hsummary.
    + split; [by apply Hnlw, is_sum_nlw | by apply Hsum].
  - intros H. destruct (Hdel "nlws" ltac:(done) ltac:(done) H)
      as [H0 | [[? _] | [[? _] | [[_ H0] | [[? _] | [? | [? | ?]]]]]]]; try done.
    + by apply Hnlws.
    + by apply Hgen.
Qed.

Lemma mode_inv_reachable c relevance r dq s :
  reachable c relevance r dq s → mode_inv c (generate_mode r) s.
Proof.
  intros [schedule Hrun].
  assert (barrier_inv (init c relevance r dq) s ∧ mode_inv c (generate_mode r) s) as [_ ?];
    [| done].
  eapply (run_invariant (λ s, barrier_inv (init c relevance r dq) s ∧
                               mode_inv c (generate_mode r) s)); [| | exact Hrun].
  - intros ? ? ? [? ?] ?. split; [by eapply barrier_inv_step | by eapply mode_inv_step].
  - split; [apply barrier_inv_init |].
    split; try done; try (by intros [? [=]]).
    all: intros H; by rewrite delivered_new in H.
Qed.

(** X22.  The class of the handler decides what a request sends.  A
    [GenerateAnswer] request never creates a ranker and never delivers a
    [result_batch], an [asking_sites] or a [summary] message; an
    [NLWebHandler] request never delivers an [nlws] message; and a
    [summary] is delivered only when the request asked to summarize. *)
Theorem messages_by_class c relevance r dq s :
  reachable c relevance r dq s →
  (c = GenerateAnswer →
   fastTrackRanker s = None ∧ regularRanker s = None ∧
   delivered "result_batch" (handler s) = false ∧
   delivered "asking_sites" (handler s) = false ∧
   delivered "summary" (handler s) = false) ∧
  (c = NLWebHandler → delivered "nlws" (handler s) = false) ∧
  (delivered "summary" (handler s) = true → generate_mode r = "summarize").
Proof.
  intros Hinv%mode_inv_reachable.
  destruct Hinv as [_ _ _ _ _ _ Hfast Hrg Hbatch Hsites Hsummary Hnlws].
  split; [| split].
  - intros ->. repeat split.
    + destruct (fastTrackRanker s) eqn:H; [| done]. by specialize (Hfast ltac:(eauto)).
    + destruct (regularRanker s) eqn:H; [| done]. by specialize (Hrg ltac:(eauto)).
    + destruct (delivered "result_batch" (handler s)); [| done]. by specialize (Hbatch eq_refl).
    + destruct (delivered "asking_sites" (handler s)); [| done]. by specialize (Hsites eq_refl).
    + destruct (delivered "summary" (handler s)); [| done]. by destruct (Hsummary eq_refl).
  - intros ->. destruct (delivered "nlws" (handler s)); [| done]. by specialize (Hnlws eq_refl).
  - intros H. by destruct (Hsummary H).
Qed.

Lemma messages_by_class_witness :
  ∃ s, run simple_run (init NLWebHandler false simple_request "") = Some s ∧
       delivered "result_batch" (handler s) = true ∧
       delivered "nlws" (handler s) = false.
Proof.
  destruct (run simple_run (init NLWebHandler false simple_request "")) as [s |] eqn:Hrun;
    [| by vm_compute in Hrun].
  exists s. split; [reflexivity |].
  assert (delivered "result_batch" (handler s) = true) as Hdel.
  { vm_compute in Hrun. injection Hrun as <-. vm_compute. reflexivity. }
  split; [exact Hdel |].
  exact (proj1 (proj2 (messages_by_class _ _ _ _ s (ex_intro _ simple_run Hrun))) eq_refl).
Defined.
(** ** Pretty-printed sites *)

Lemma word_char_upper c : word_char (upper c) = word_char c.
Proof. destruct c as [[] [] [] [] [] [] [] []]; reflexivity. Qed.

Lemma word_char_lower c : word_char (lower c) = word_char c.
Proof. destruct c as [[] [] [] [] [] [] [] []]; reflexivity. Qed.

Lemma upper_upper c : upper (upper c) = upper c.
Proof. destruct c as [[] [] [] [] [] [] [] []]; reflexivity. Qed.

Lemma lower_lower c : lower (lower c) = lower c.
Proof. destruct c as [[] [] [] [] [] [] [] []]; reflexivity. Qed.

Lemma all_chars_map p f s :
  (∀ c, p (f c) = p c) → all_chars p (map_string f s) = all_chars p s.
Proof. intros Hf. induction s as [| c s IH]; simpl; [done |]. by rewrite Hf, IH. Qed.

Lemma map_string_idemp f s :
  (∀ c, f (f c) = f c) → map_string f (map_string f s) = map_string f s.
Proof. intros Hf. induction s as [| c s IH]; simpl; [done |]. by rewrite Hf, IH. Qed.

Lemma capitalize_idemp w : capitalize (capitalize w) = capitalize w.
Proof.
  destruct w as [| c w]; simpl; [done |].
  by rewrite upper_upper, (map_string_idemp lower) by apply lower_lower.
Qed.

Lemma is_word_capitalize w : is_word w = true → is_word (capitalize w) = true.
Proof.
  destruct w as [| c w]; [done |]. unfold is_word. simpl.
  by rewrite word_char_upper, (all_chars_map word_char lower) by apply word_char_lower.
Qed.

Lemma all_chars_app p s1 s2 :
  all_chars p (s1 +:+ s2) = all_chars p s1 && all_chars p s2.
Proof. induction s1 as [| c s1 IH]; simpl; [done |]. by rewrite IH, andb_assoc. Qed.

Lemma all_chars_of_list p l :
  all_chars p (String.string_of_list_ascii l) = forallb p l.
Proof. induction l as [| c l IH]; simpl; [done |]. by rewrite IH. Qed.

Lemma forallb_rev {A} (p : A → bool) l : forallb p (rev l) = forallb p l.
Proof.
  induction l as [| x l IH]; simpl; [done |].
  rewrite forallb_app, IH. simpl. by rewrite andb_true_r, andb_comm.
Qed.

Lemma is_word_of_list l :
  l ≠ [] → forallb word_char l = true →
  is_word (String.string_of_list_ascii (rev l)) = true.
Proof.
  intros Hne Hl. unfold is_word.
  rewrite all_chars_of_list, forallb_rev, Hl, andb_true_r.
  destruct (rev l) as [| c l'] eqn:Hr; [| done].
  apply (f_equal (@rev _)) in Hr. rewrite rev_involutive in Hr. done.
Qed.

(** The words [split_words] returns, given that what was read so far and
    what is still to read holds no underscore. *)
Lemma split_words_words s cur :
  all_chars (λ c, negb (Ascii.eqb c "_")) s = true →
  forallb word_char cur = true →
  Forall (λ w, is_word w = true) (split_words s cur).
Proof.
  revert cur. induction s as [| c s IH]; intros cur Hs Hcur; simpl in *.
  - destruct cur as [| c0 cur]; [constructor |]. repeat constructor.
    by apply is_word_of_list.
  - apply andb_true_iff in Hs as [Hc Hs].
    destruct (is_space c) eqn:Hsp.
    + apply Forall_app. split; [| by apply IH].
      destruct cur as [| c0 cur]; [constructor |]. repeat constructor.
      by apply is_word_of_list.
    + apply IH; [done |]. simpl. unfold word_char at 1. by rewrite Hsp, Hc.
Qed.

Lemma no_underscore_replaced s :
  all_chars (λ c, negb (Ascii.eqb c "_"))
    (map_string (λ c, if Ascii.eqb c "_" then " "%char else c) s) = true.
Proof.
  induction s as [| c s IH]; simpl; [done |]. rewrite IH, andb_true_r.
  destruct (Ascii.eqb c "_") eqn:Hc; [reflexivity | by rewrite Hc].
Qed.

Lemma replace_word_chars s :
  all_chars (λ c, negb (Ascii.eqb c "_")) s = true →
  map_string (λ c, if Ascii.eqb c "_" then " "%char else c) s = s.
Proof.
  induction s as [| c s IH]; simpl; [done |].
  intros [Hc Hs]%andb_true_iff. rewrite IH by done.
  by destruct (Ascii.eqb c "_").
Qed.

Lemma word_no_underscore w :
  all_chars word_char w = true → all_chars (λ c, negb (Ascii.eqb c "_")) w = true.
Proof.
  induction w as [| c w IH]; simpl; [done |].
  intros [Hc Hw]%andb_true_iff. rewrite IH by done.
  unfold word_char in Hc. apply andb_true_iff in Hc as [_ ->]. done.
Qed.

Lemma join_no_underscore l :
  Forall (λ w, is_word w = true) l →
  all_chars (λ c, negb (Ascii.eqb c "_")) (join " " l) = true.
Proof.
  induction 1 as [| w l Hw Hl IH]; [done |].
  unfold is_word in Hw. apply andb_true_iff in Hw as [_ Hw].
  simpl. destruct l as [| w' l]; [by apply word_no_underscore |].
  rewrite !all_chars_app, IH, (word_no_underscore w Hw). done.
Qed.

(** Reading a word, then white space or the end, yields the word. *)
Lemma split_words_word w rest cur :
  all_chars word_char w = true →
  split_words (w +:+ rest) cur
  = split_words rest (rev (String.list_ascii_of_string w) ++ cur).
Proof.
  revert cur. induction w as [| c w IH]; intros cur Hw; simpl in *; [done |].
  apply andb_true_iff in Hw as [Hc Hw].
  unfold word_char in Hc. apply andb_true_iff in Hc as [Hsp _].
  apply negb_true_iff in Hsp. rewrite Hsp, IH by done.
  by rewrite <- app_assoc.
Qed.

Lemma append_empty_r (w : string) : w +:+ "" = w.
Proof.
  induction w as [| c w IH]; [done |].
  change (String c w +:+ "") with (String c (w +:+ "")). by rewrite IH.
Qed.

Lemma split_words_join l :
  Forall (λ w, is_word w = true) l → split_words (join " " l) [] = l.
Proof.
  induction 1 as [| w l Hw Hl IH]; [done |].
  unfold is_word in Hw. apply andb_true_iff in Hw as [Hne Hw].
  assert (rev (String.list_ascii_of_string w) ≠ []) as Hrev.
  { destruct w as [| c w]; [done |]. simpl. by destruct (rev _). }
  simpl. destruct l as [| w' l].
  - rewrite <- (append_empty_r w) at 1.
    rewrite split_words_word by done. simpl. rewrite app_nil_r.
    destruct (rev (String.list_ascii_of_string w)) eqn:Hr; [done |].
    rewrite <- Hr, rev_involutive. by rewrite String.string_of_list_ascii_of_string.
  - rewrite split_words_word by done. rewrite app_nil_r.
    change (" " +:+ join " " (w' :: l)) with (String " " (join " " (w' :: l))).
    cbn [split_words]. change (is_space " ") with true. cbn match.
    rewrite IH.
    destruct (rev (String.list_ascii_of_string w)) eqn:Hr; [done |].
    rewrite <- Hr, rev_involutive. by rewrite String.string_of_list_ascii_of_string.
Qed.

(** X23.  [prettyPrintSite] is idempotent on ASCII site names: its result
    is a list of words (not empty, free of white space and underscores)
    joined by single spaces, each capitalised, and pretty-printing it again
    changes nothing. *)
Theorem prettyPrintSite_idemp (site : string) :
  (∃ words, prettyPrintSite site = join " " words ∧
            Forall (λ w, is_word w = true ∧ capitalize w = w) words) ∧
  prettyPrintSite (prettyPrintSite site) = prettyPrintSite site.
Proof.
  unfold prettyPrintSite.
  set (ws := split_words (map_string _ site) []).
  assert (Forall (λ w, is_word w = true) ws) as Hws
    by (apply split_words_words; [apply no_underscore_replaced | done]).
  assert (Forall (λ w, is_word w = true) (capitalize <$> ws)) as Hcap.
  { apply list.Forall_fmap. eapply list.Forall_impl; [exact Hws |].
    intros w. apply is_word_capitalize. }
  split.
  - exists (capitalize <$> ws). split; [done |].
    apply list.Forall_fmap. eapply list.Forall_impl; [exact Hws |].
    intros w Hw. simpl. split; [by apply is_word_capitalize | apply capitalize_idemp].
  - rewrite replace_word_chars by (by apply join_no_underscore).
    rewrite split_words_join by done.
    f_equal. rewrite <- list_fmap_compose. apply list_fmap_ext.
    intros _ w _. apply capitalize_idemp.
Qed.
